(** * team-tracker: notification fan-out, audit logging and their invariants

    A shallow embedding of the server side of the team-tracker application:
    the Mongoose models ([models/Task.js], [models/Notification.js],
    [models/ActivityLog.js]), the helpers [utils/notifications.js] and
    [utils/activityLogger.js], and the Express handlers of the task,
    notification and activity-log routers.

    The document store is a record of finite maps keyed by [_id]; a handler
    is a computation in a small state-and-exception monad over that store.
    Dates are integers (milliseconds since the epoch), [new Date()] reads the
    clock of the store.

    What the handlers rely on of Mongoose and of the driver is written out
    where it is used: the cast of a value to an ObjectId path, the
    validation [save] runs ([required], [enum]), [populate], the text
    [toString()] gives for an ObjectId and for a populated document, and
    a store access that may fail.  Requests run one at a time; text is
    ASCII; the server clock is in UTC. *)

From Stdlib Require Import ZArith NArith String Ascii List Lia Sorted Permutation.
From stdpp Require Import base option gmap strings pretty list fin_maps infinite.

Open Scope string_scope.

(** ** Strings *)

(** The double quote, the empty string and the characters [String.trim]
    strips. *)
Definition dq : string := String (ascii_of_nat 34) EmptyString.
Definition empty : string := EmptyString.

Definition is_space (c : ascii) : bool :=
  let n := nat_of_ascii c in
  (Nat.eqb n 9 || Nat.eqb n 10 || Nat.eqb n 11 || Nat.eqb n 12
   || Nat.eqb n 13 || Nat.eqb n 32)%bool.

Fixpoint trimStart (s : string) : string :=
  match s with
  | EmptyString => EmptyString
  | String c r => if is_space c then trimStart r else s
  end.

Definition trim (s : string) : string :=
  String.rev (trimStart (String.rev (trimStart s))).

(** JavaScript truthiness of a string: every string but the empty one. *)
Definition truthy_str (s : string) : bool := negb (String.eqb s empty).

(** [s.length > n ? s.substring(0, n) + "..." : s] *)
Definition ellipsis (n : nat) (s : string) : string :=
  if Nat.ltb n (String.length s) then String.substring 0 n s +:+ "..." else s.

(** ** ObjectId

    A 12-byte identifier, kept as the number it denotes.  [toHexString] is
    what [ObjectId.prototype.toString] returns: 24 lower-case hexadecimal
    digits, most significant first. *)
Definition ObjectId := N.

Definition oid_ok (i : ObjectId) : Prop := (i < 16 ^ 24)%N.

Definition hex_digit (d : N) : ascii :=
  match d with
  | 0 => "0" | 1 => "1" | 2 => "2" | 3 => "3" | 4 => "4" | 5 => "5"
  | 6 => "6" | 7 => "7" | 8 => "8" | 9 => "9" | 10 => "a" | 11 => "b"
  | 12 => "c" | 13 => "d" | 14 => "e" | _ => "f"
  end%N%char.

Fixpoint hex_digits (n : nat) (i : N) : list ascii :=
  match n with
  | O => []
  | S k => hex_digits k (i / 16)%N ++ [hex_digit (i mod 16)%N]
  end.

Definition toHexString (i : ObjectId) : string :=
  string_of_list_ascii (hex_digits 24 i).

Definition hex_value (c : ascii) : option N :=
  let n := N_of_ascii c in
  if ((48 <=? n) && (n <=? 57))%N%bool then Some (n - 48)%N
  else if ((97 <=? n) && (n <=? 102))%N%bool then Some (n - 87)%N
  else if ((65 <=? n) && (n <=? 70))%N%bool then Some (n - 55)%N
  else None.

Fixpoint parse_hex (cs : list ascii) (acc : N) : option N :=
  match cs with
  | [] => Some acc
  | c :: r =>
      match hex_value c with
      | Some d => parse_hex r (16 * acc + d)%N
      | None => None
      end
  end.

(** Casting a string to an ObjectId succeeds on 24 hexadecimal digits.  (The
    driver also reads a 12-character string as raw bytes; no string of the
    modelled handlers has that form, and it is left out.) *)
Definition oid_of_string (s : string) : option ObjectId :=
  if Nat.eqb (String.length s) 24 then parse_hex (list_ascii_of_string s) 0%N
  else None.

(** ** References

    A path of type ObjectId holds, at run time, nothing, an ObjectId, a
    string taken from a request body or from a [Set] of strings, or, once
    [populate] ran on the path, the referenced document with the selected
    fields. *)
Record Doc := mkDoc {
  doc_id : ObjectId;
  doc_fields : list (string * string);
}.

Inductive Ref :=
| RNull
| ROid (i : ObjectId)
| RStr (s : string)
| RDoc (d : Doc).

Definition truthy (r : Ref) : bool :=
  match r with
  | RNull => false
  | RStr s => truthy_str s
  | _ => true
  end.

(** [Document.prototype.toString] of Mongoose is the inspected object, the
    text [console.log] prints, not the [_id].  Its exact layout is Node's
    [util.inspect]; what the handlers depend on is only that it is not the
    24-digit text of an id. *)
Definition inspect_field (kv : string * string) : string :=
  ", " +:+ kv.1 +:+ ": '" +:+ kv.2 +:+ "'".

Definition inspect (d : Doc) : string :=
  "{ _id: new ObjectId('" +:+ toHexString (doc_id d) +:+ "')"
  +:+ String.concat empty (map inspect_field (doc_fields d)) +:+ " }".

(** [doc.field] of a populated document ([undefined] when not selected). *)
Definition doc_get (k : string) (d : Doc) : option string :=
  snd <$> List.find (fun kv => String.eqb kv.1 k) (doc_fields d).

Definition ref_field (k : string) (r : Ref) : option string :=
  match r with
  | RDoc d => doc_get k d
  | _ => None
  end.

(** ** Data model *)

(** Modelled from the spec: [models/User.js] is not among the sources; a
    user carries the fields the handlers select when they populate a
    reference ([name], [email], [avatar]) and the role. *)
Record User := mkUser {
  u_name : string;
  u_email : string;
  u_avatar : option string;
  u_role : string;
}.

(** Modelled from the spec: [models/Project.js] is not among the sources; a
    project has a title, a description and an owner. *)
Record Project := mkProject {
  p_title : string;
  p_description : string;
  p_owner : ObjectId;
}.

(** [CommentSchema] and [TaskSchema] of [models/Task.js].  Dates are
    optional where the schema does not default them. *)
Record Comment := mkComment {
  c_id : ObjectId;
  c_author : Ref;
  c_text : string;
  c_timestamp : Z;
}.

Record Task := mkTask {
  t_title : string;
  t_description : string;
  t_assignee_id : Ref;
  t_project_id : Ref;
  t_status : string;
  t_priority : string;
  t_dueDate : option Z;
  t_createdBy : Ref;
  t_completedAt : option Z;
  t_comments : list Comment;
  t_createdAt : Z;
  t_updatedAt : Z;
}.

(** [NotificationSchema] of [models/Notification.js]. *)
Record Notification := mkNotification {
  n_recipient : ObjectId;
  n_sender : ObjectId;
  n_type : string;
  n_title : string;
  n_message : string;
  n_relatedTask : option ObjectId;
  n_relatedProject : option ObjectId;
  n_isRead : bool;
  n_readAt : option Z;
  n_createdAt : Z;
  n_updatedAt : Z;
}.

(** Values of the free-form [metadata] of an activity log. *)
Inductive Meta :=
| MUndefined
| MStr (s : string)
| MNum (z : Z)
| MDate (z : Z)
| MKeys (ks : list string)
| MObject (kvs : list (string * string)).

(** [ActivityLogSchema] of [models/ActivityLog.js]. *)
Record ActivityLog := mkActivityLog {
  a_userId : ObjectId;
  a_action : string;
  a_description : string;
  a_entityType : option string;
  a_entityId : option ObjectId;
  a_entityName : option string;
  a_relatedEntityType : option string;
  a_relatedEntityId : option ObjectId;
  a_relatedEntityName : option string;
  a_metadata : list (string * Meta);
  a_ipAddress : option string;
  a_userAgent : option string;
  a_createdAt : Z;
  a_updatedAt : Z;
}.

(** A document in memory: its [_id] and its fields. *)
Definition Stored (A : Type) : Type := ObjectId * A.

(** ** The store and the handler monad *)

(** The collections, the clock, the outcome of the coming store accesses
    ([true]: the access fails; past the end of the list the store is
    healthy) and what was written with [console.error]. *)
Record world := mkWorld {
  users : gmap ObjectId User;
  projects : gmap ObjectId Project;
  tasks : gmap ObjectId Task;
  notifications : gmap ObjectId Notification;
  activitylogs : gmap ObjectId ActivityLog;
  clock : Z;
  faults : list bool;
  console : list string;
}.

Definition set_tasks (f : gmap ObjectId Task -> gmap ObjectId Task) (w : world) : world :=
  mkWorld (users w) (projects w) (f (tasks w)) (notifications w)
          (activitylogs w) (clock w) (faults w) (console w).

Definition set_notifications
  (f : gmap ObjectId Notification -> gmap ObjectId Notification) (w : world) : world :=
  mkWorld (users w) (projects w) (tasks w) (f (notifications w))
          (activitylogs w) (clock w) (faults w) (console w).

Definition set_activitylogs
  (f : gmap ObjectId ActivityLog -> gmap ObjectId ActivityLog) (w : world) : world :=
  mkWorld (users w) (projects w) (tasks w) (notifications w)
          (f (activitylogs w)) (clock w) (faults w) (console w).

Definition set_clock (c : Z) (w : world) : world :=
  mkWorld (users w) (projects w) (tasks w) (notifications w)
          (activitylogs w) c (faults w) (console w).

Definition set_faults (fs : list bool) (w : world) : world :=
  mkWorld (users w) (projects w) (tasks w) (notifications w)
          (activitylogs w) (clock w) fs (console w).

Definition add_console (line : string) (w : world) : world :=
  mkWorld (users w) (projects w) (tasks w) (notifications w)
          (activitylogs w) (clock w) (faults w) (console w ++ [line]).

(** The exceptions the handlers tell apart by [error.name]. *)
Inductive exn := TypeError | ValidationError | CastError | MongoError.

Inductive result (A : Type) :=
| Ok (a : A)
| Throw (e : exn).
Arguments Ok {A} a.
Arguments Throw {A} e.

Definition M (A : Type) : Type := world -> result A * world.

Definition ret {A} (a : A) : M A := fun w => (Ok a, w).

Definition throw {A} (e : exn) : M A := fun w => (Throw e, w).

Definition bind {A B} (m : M A) (k : A -> M B) : M B :=
  fun w =>
    match m w with
    | (Ok a, w') => k a w'
    | (Throw e, w') => (Throw e, w')
    end.

(** [try { m } catch (error) { h error }] *)
Definition try_catch {A} (m : M A) (h : exn -> M A) : M A :=
  fun w =>
    match m w with
    | (Ok a, w') => (Ok a, w')
    | (Throw e, w') => h e w'
    end.

Notation "'let!' x ':=' m 'in' k" := (bind m (fun x => k))
  (at level 10, x name, m at level 100, k at level 200).
Notation "'do!' m 'in' k" := (bind m (fun _ => k))
  (at level 10, m at level 100, k at level 200).

Definition get : M world := fun w => (Ok w, w).
Definition modify (f : world -> world) : M unit := fun w => (Ok tt, f w).

(** [new Date()] *)
Definition now : M Z := fun w => (Ok (clock w), w).

(** [console.error(...)] *)
Definition console_error (line : string) : M unit := modify (add_console line).

(** One round trip to the store: it fails when the store is down. *)
Definition db : M unit :=
  fun w =>
    match faults w with
    | [] => (Ok tt, w)
    | false :: fs => (Ok tt, set_faults fs w)
    | true :: fs => (Throw MongoError, set_faults fs w)
    end.

(** Lifting of a cast or a validation: [None] raises the given exception. *)
Definition orThrow {A} (e : exn) (o : option A) : M A :=
  match o with
  | Some a => ret a
  | None => throw e
  end.

(** [x?.toString()]: [undefined] on [null] and [undefined]. *)
Definition toStringOpt (r : Ref) : option string :=
  match r with
  | RNull => None
  | ROid i => Some (toHexString i)
  | RStr s => Some s
  | RDoc d => Some (inspect d)
  end.

(** [x.toString()]: a TypeError on [null] and [undefined]. *)
Definition toString (r : Ref) : M string := orThrow TypeError (toStringOpt r).

(** Mongoose's cast of a value to an ObjectId path: a document stands for
    its [_id], a string has to be the text of an id. *)
Definition castObjectId (r : Ref) : option (option ObjectId) :=
  match r with
  | RNull => Some None
  | ROid i => Some (Some i)
  | RStr s => Some <$> oid_of_string s
  | RDoc d => Some (Some (doc_id d))
  end.

(** A required ObjectId path: cast, and not null. *)
Definition castRequired (r : Ref) : option ObjectId :=
  match castObjectId r with
  | Some (Some i) => Some i
  | _ => None
  end.

(** What [populate] leaves on a path: the referenced document with the
    selected fields, [null] when the reference dangles. *)
Definition user_doc (select : list string) (i : ObjectId) (u : User) : Doc :=
  mkDoc i
    (List.filter (fun kv => existsb (String.eqb kv.1) select)
       ([("name", u_name u); ("email", u_email u)]
        ++ match u_avatar u with Some a => [("avatar", a)] | None => [] end
        ++ [("role", u_role u)])).

Definition project_doc (select : list string) (i : ObjectId) (p : Project) : Doc :=
  mkDoc i
    (List.filter (fun kv => existsb (String.eqb kv.1) select)
       [("title", p_title p); ("description", p_description p)]).

Definition populate_user (select : list string) (w : world) (r : Ref) : Ref :=
  match castObjectId r with
  | Some (Some i) =>
      match users w !! i with
      | Some u => RDoc (user_doc select i u)
      | None => RNull
      end
  | _ => RNull
  end.

Definition populate_project (select : list string) (w : world) (r : Ref) : Ref :=
  match castObjectId r with
  | Some (Some i) =>
      match projects w !! i with
      | Some p => RDoc (project_doc select i p)
      | None => RNull
      end
  | _ => RNull
  end.

(** [enum: [...]] of a schema path. *)
Definition in_enum (values : list string) (v : string) : bool :=
  existsb (String.eqb v) values.

(** An optional enum path: unset, or one of the values. *)
Definition opt_in_enum (values : list string) (v : option string) : bool :=
  match v with
  | None => true
  | Some s => in_enum values s
  end.

(** ** Newest first, and one page of a result

    [Array.prototype.sort((a, b) => key(b) - key(a))], which is stable.  The
    same function stands for [sort({ createdAt: -1 })] of a query, where the
    store leaves the order of entries with equal keys open. *)
Fixpoint insert_by {A} (key : A -> Z) (x : A) (l : list A) : list A :=
  match l with
  | [] => [x]
  | y :: r => if (key y <=? key x)%Z then x :: l else y :: insert_by key x r
  end.

Definition newest_first {A} (key : A -> Z) (l : list A) : list A :=
  foldr (insert_by key) [] l.

(** [.limit(limit)]: 0 is no limit, a negative limit counts as its absolute
    value. *)
Definition limit_to {A} (limit : Z) (l : list A) : list A :=
  if (limit =? 0)%Z then l else take (Z.abs_nat limit) l.

(** [.skip(skip).limit(limit)] as the server answers it: a negative skip is
    refused. *)
Definition skip_limit {A} (skip limit : Z) (l : list A) : option (list A) :=
  if (skip <? 0)%Z then None
  else Some (limit_to limit (drop (Z.to_nat skip) l)).

(** The [pagination] object of the list responses, with the list. *)
Record Page (A : Type) := mkPage {
  items : list A;
  currentPage : Z;
  totalPages : option Z;
  totalItems : nat;
  hasNext : bool;
  hasPrev : bool;
}.
Arguments mkPage {A} _ _ _ _ _ _.
Arguments items {A} _.
Arguments currentPage {A} _.
Arguments totalPages {A} _.
Arguments totalItems {A} _.
Arguments hasNext {A} _.
Arguments hasPrev {A} _.

(** [Math.ceil(total / limit)]; with [limit] 0 the quotient is not a number
    and the JSON carries [null]. *)
Definition total_pages (total : nat) (limit : Z) : option Z :=
  if (limit =? 0)%Z then None else Some (- ((- Z.of_nat total) / limit))%Z.

(** [if (x) query.x = x] for a text of the query string. *)
Definition if_truthy (o : option string) : option string :=
  match o with
  | Some s => if truthy_str s then Some s else None
  | None => None
  end.

(** ** models/Notification.js *)
Module NotificationModel.

Definition types : list string :=
  ["task_assigned"; "task_updated"; "task_completed"; "task_reassigned";
   "comment_added"; "project_assigned"].

(** The object handed to [createNotification]. *)
Record Data := mkData {
  recipient : Ref;
  sender : Ref;
  type : string;
  title : string;
  message : string;
  relatedTask : Ref;
  relatedProject : Ref;
}.

(** [new this(data)] followed by the validation [save] runs: casts of the
    references, [required], and the enum of [type]; [isRead] takes its
    default and [readAt] stays unset. *)
Definition validate (d : Data) (t : Z) : option Notification :=
  r ← castRequired (recipient d);
  s ← castRequired (sender d);
  rt ← castObjectId (relatedTask d);
  rp ← castObjectId (relatedProject d);
  if (in_enum types (type d) && truthy_str (title d)
      && truthy_str (message d))%bool
  then Some (mkNotification r s (type d) (title d) (message d) rt rp
               false None t t)
  else None.

(** [NotificationSchema.statics.createNotification] *)
Definition createNotification (d : Data) : M (Stored Notification) :=
  let! t := now in
  let! n := orThrow ValidationError (validate d t) in
  do! db in
  let! w := get in
  let id := fresh (dom (notifications w)) in
  do! modify (set_notifications (insert id n)) in
  ret (id, n).

Definition read_at (t : Z) (n : Notification) : Notification :=
  mkNotification (n_recipient n) (n_sender n) (n_type n) (n_title n)
    (n_message n) (n_relatedTask n) (n_relatedProject n) true (Some t)
    (n_createdAt n) t.

(** [save] of a document loaded from the store: only the modified paths
    ([isRead], [readAt]) are validated, and they are well typed. *)
Definition save (doc : Stored Notification) : M unit :=
  do! db in
  modify (set_notifications (insert doc.1 doc.2)).

(** [NotificationSchema.methods.markAsRead] *)
Definition markAsRead (doc : Stored Notification) : M (Stored Notification) :=
  if negb (n_isRead doc.2) then
    let! t := now in
    let doc' := (doc.1, read_at t doc.2) in
    do! save doc' in
    ret doc'
  else ret doc.

Fixpoint cast_ids (ids : list string) : option (list ObjectId) :=
  match ids with
  | [] => Some []
  | s :: r =>
      i ← oid_of_string s;
      rest ← cast_ids r;
      Some (i :: rest)
  end.

(** The query [{ recipient, isRead: false }], with [_id: { $in: ids }]
    when ids are given. *)
Definition unread_of (recipientId : ObjectId) (ids : list ObjectId)
    (id : ObjectId) (n : Notification) : bool :=
  (N.eqb (n_recipient n) recipientId && negb (n_isRead n)
   && match ids with
      | [] => true
      | _ => existsb (N.eqb id) ids
      end)%bool.

(** [NotificationSchema.statics.markMultipleAsRead]; the result is the
    [modifiedCount] of [updateMany]. *)
Definition markMultipleAsRead (recipientId : ObjectId)
    (notificationIds : list string) : M nat :=
  let! t := now in
  let! ids := orThrow CastError (cast_ids notificationIds) in
  do! db in
  let! w := get in
  let sel := unread_of recipientId ids in
  do! modify (set_notifications
                (map_imap (fun id n =>
                   Some (if sel id n then read_at t n else n)))) in
  ret (size (filter (fun kv => sel kv.1 kv.2 = true) (notifications w))).

(** [Notification.findOne({ _id, recipient })] *)
Definition findOne (id : string) (recipientId : ObjectId)
    : M (option (Stored Notification)) :=
  let! i := orThrow CastError (oid_of_string id) in
  do! db in
  let! w := get in
  ret (match notifications w !! i with
       | Some n => if N.eqb (n_recipient n) recipientId then Some (i, n) else None
       | None => None
       end).

(** [Notification.findOneAndDelete({ _id, recipient })] *)
Definition findOneAndDelete (id : string) (recipientId : ObjectId)
    : M (option (Stored Notification)) :=
  let! i := orThrow CastError (oid_of_string id) in
  do! db in
  let! w := get in
  match notifications w !! i with
  | Some n =>
      if N.eqb (n_recipient n) recipientId then
        do! modify (set_notifications (delete i)) in
        ret (Some (i, n))
      else ret None
  | None => ret None
  end.

(** [Notification.deleteMany({ recipient, isRead: true })]; the result is
    the [deletedCount]. *)
Definition read_of (recipientId : ObjectId) (n : Notification) : bool :=
  (N.eqb (n_recipient n) recipientId && n_isRead n)%bool.

Definition deleteManyRead (recipientId : ObjectId) : M nat :=
  do! db in
  let! w := get in
  do! modify (set_notifications
                (filter (fun kv => read_of recipientId kv.2 = false))) in
  ret (size (filter (fun kv => read_of recipientId kv.2 = true)
               (notifications w))).

(** The query of [router.get("/")]: [{ recipient }], with [isRead: false]
    and [type] when asked for. *)
Definition listed (recipientId : ObjectId) (unreadOnly : bool)
    (type : option string) (n : Notification) : bool :=
  (N.eqb (n_recipient n) recipientId
   && (if unreadOnly then negb (n_isRead n) else true)
   && match type with
      | Some s => String.eqb (n_type n) s
      | None => true
      end)%bool.

(** [Notification.countDocuments(query)] *)
Definition countDocuments (sel : Notification -> bool) : M nat :=
  do! db in
  let! w := get in
  ret (size (filter (fun kv => sel kv.2 = true) (notifications w))).

(** [Notification.countDocuments({ recipient, isRead: false })] *)
Definition countUnread (recipientId : ObjectId) : M nat :=
  countDocuments (listed recipientId true None).

(** A listed notification: the document and what [populate] puts on
    [sender], [relatedTask] and [relatedProject]. *)
Record Listed := mkListed {
  notification : Stored Notification;
  senderDoc : Ref;
  relatedTaskDoc : Ref;
  relatedProjectDoc : Ref;
}.

Definition task_doc (select : list string) (i : ObjectId) (t : Task) : Doc :=
  mkDoc i
    (List.filter (fun kv => existsb (String.eqb kv.1) select)
       [("title", t_title t); ("status", t_status t);
        ("priority", t_priority t)]).

Definition populate_task (select : list string) (w : world)
    (o : option ObjectId) : Ref :=
  match o with
  | Some i =>
      match tasks w !! i with
      | Some t => RDoc (task_doc select i t)
      | None => RNull
      end
  | None => RNull
  end.

(** The notifications a filter selects. *)
Definition selected (sel : Notification -> bool) (w : world)
    : list (Stored Notification) :=
  List.filter (fun d => sel d.2) (map_to_list (notifications w)).

(** [Notification.find(query).populate("sender", "name email avatar")
    .populate("relatedTask", "title status priority")
    .populate("relatedProject", "title").sort({ createdAt: -1 })
    .skip(skip).limit(limit)] *)
Definition find (sel : Notification -> bool) (skip limit : Z) : M (list Listed) :=
  do! db in
  let! w := get in
  let! page :=
    orThrow MongoError
      (skip_limit skip limit
         (newest_first (fun d : Stored Notification => n_createdAt d.2)
            (selected sel w))) in
  match page with
  | [] => ret []
  | _ =>
      do! db in
      let! w' := get in
      ret (map (fun d : Stored Notification =>
                  mkListed d
                    (populate_user ["name"; "email"; "avatar"] w'
                       (ROid (n_sender d.2)))
                    (populate_task ["title"; "status"; "priority"] w'
                       (n_relatedTask d.2))
                    (populate_project ["title"] w'
                       (match n_relatedProject d.2 with
                        | Some i => ROid i
                        | None => RNull
                        end)))
             page)
  end.

End NotificationModel.

(** ** models/ActivityLog.js *)
Module ActivityLogModel.

Definition actions : list string :=
  ["user_login"; "user_logout"; "user_register";
   "project_created"; "project_updated"; "project_deleted";
   "task_created"; "task_updated"; "task_assigned"; "task_reassigned";
   "task_status_changed"; "task_completed"; "task_deleted";
   "task_commented"; "comment_updated"; "comment_deleted";
   "team_member_added"; "team_member_updated"; "team_member_removed"].

Definition entityTypes : list string :=
  ["user"; "project"; "task"; "comment"; "team_member"].

(** The [activityData] object handed to [logActivity]. *)
Record Data := mkData {
  userId : Ref;
  action : string;
  description : string;
  entityType : option string;
  entityId : Ref;
  entityName : option string;
  relatedEntityType : option string;
  relatedEntityId : Ref;
  relatedEntityName : option string;
  metadata : list (string * Meta);
  ipAddress : option string;
  userAgent : option string;
}.

(** The schema keeps the default [minimize]: an empty object inside the
    free-form [metadata] is not stored. *)
Definition is_empty_object (m : Meta) : bool :=
  match m with
  | MObject [] => true
  | _ => false
  end.

Definition minimize (md : list (string * Meta)) : list (string * Meta) :=
  List.filter (fun kv => negb (is_empty_object kv.2)) md.

(** [new this(data)] followed by the validation [save] runs; the document
    is taken as the store holds it. *)
Definition validate (d : Data) (t : Z) : option ActivityLog :=
  u ← castRequired (userId d);
  e ← castObjectId (entityId d);
  r ← castObjectId (relatedEntityId d);
  if (in_enum actions (action d) && truthy_str (description d)
      && opt_in_enum entityTypes (entityType d)
      && opt_in_enum entityTypes (relatedEntityType d))%bool
  then Some (mkActivityLog u (action d) (description d) (entityType d) e
               (entityName d) (relatedEntityType d) r (relatedEntityName d)
               (minimize (metadata d)) (ipAddress d) (userAgent d) t t)
  else None.

(** [ActivityLogSchema.statics.logActivity] *)
Definition logActivity (d : Data) : M (option (Stored ActivityLog)) :=
  try_catch
    (let! t := now in
     let! a := orThrow ValidationError (validate d t) in
     do! db in
     let! w := get in
     let id := fresh (dom (activitylogs w)) in
     do! modify (set_activitylogs (insert id a)) in
     ret (Some (id, a)))
    (fun _ =>
       do! console_error "Error creating activity log:" in
       ret None).

(** A [Date] holds a time within 8.64e15 milliseconds of the epoch; a
    computation that leaves this range gives an Invalid Date, which the
    cast of a query refuses. *)
Definition maxTime : Z := 8640000000000000.

Definition valid_date (time : Z) : bool := (Z.abs time <=? maxTime)%Z.

(** [ActivityLog.deleteMany({ createdAt: { $lt: cutoffDate } })]; the
    filter is cast before the store is contacted; the result is the
    [deletedCount]. *)
Definition deleteManyBefore (cutoffDate : Z) : M nat :=
  do! (if valid_date cutoffDate then ret tt else throw CastError) in
  do! db in
  let! w := get in
  do! modify (set_activitylogs
                (filter (fun kv => (cutoffDate <= a_createdAt kv.2)%Z))) in
  ret (size (filter (fun kv => (a_createdAt kv.2 < cutoffDate)%Z)
               (activitylogs w))).

End ActivityLogModel.

(** ** models/ActivityLog.js: the read side *)
Module ActivityLogQuery.

(** The [options] of [getUserActivity] and [getSystemActivity]; a date is
    [null] when the caller has none. *)
Record Options := mkOptions {
  limit : option Z;
  skip : option Z;
  action : option string;
  entityType : option string;
  startDate : option Z;
  endDate : option Z;
}.

(** The filter handed to [find] and to [countDocuments]: [userId] is
    absent, [null] or an id. *)
Record Query := mkQuery {
  q_userId : option (option ObjectId);
  q_action : option string;
  q_entityType : option string;
  q_gte : option Z;
  q_lte : option Z;
}.

(** [if (action) query.action = action; if (entityType) ...; if (startDate
    || endDate) { query.createdAt = {}; ... }] *)
Definition query_of (userId : option (option ObjectId))
    (action entityType : option string) (startDate endDate : option Z) : Query :=
  mkQuery userId (if_truthy action) (if_truthy entityType) startDate endDate.

Definition matches (q : Query) (a : ActivityLog) : bool :=
  (match q_userId q with
   | Some (Some u) => N.eqb (a_userId a) u
   | Some None => false
   | None => true
   end
   && match q_action q with
      | Some s => String.eqb (a_action a) s
      | None => true
      end
   && match q_entityType q with
      | Some s =>
          match a_entityType a with
          | Some e => String.eqb e s
          | None => false
          end
      | None => true
      end
   && match q_gte q with
      | Some d => (d <=? a_createdAt a)%Z
      | None => true
      end
   && match q_lte q with
      | Some d => (a_createdAt a <=? d)%Z
      | None => true
      end)%bool.

(** The entries a query selects. *)
Definition selected (q : Query) (w : world) : list (Stored ActivityLog) :=
  List.filter (fun d => matches q d.2) (map_to_list (activitylogs w)).

(** [this.find(query).populate("userId", select).sort({ createdAt: -1 })
    .limit(limit).skip(skip)]: each entry comes with the user it refers
    to; [populate] is a second round trip, made when there is something to
    populate. *)
Definition find (q : Query) (select : list string) (limit skip : Z)
    : M (list (Stored ActivityLog * Ref)) :=
  do! db in
  let! w := get in
  let! page :=
    orThrow MongoError
      (skip_limit skip limit
         (newest_first (fun d : Stored ActivityLog => a_createdAt d.2)
            (selected q w))) in
  match page with
  | [] => ret []
  | _ =>
      do! db in
      let! w' := get in
      ret (map (fun d : Stored ActivityLog =>
                  (d, populate_user select w' (ROid (a_userId d.2)))) page)
  end.

(** [ActivityLog.countDocuments(countQuery)] *)
Definition countDocuments (q : Query) : M nat :=
  do! db in
  let! w := get in
  ret (List.length (selected q w)).

(** [ActivityLogSchema.statics.getUserActivity] *)
Definition getUserActivity (userId : Ref) (o : Options)
    : M (list (Stored ActivityLog * Ref)) :=
  let! u := orThrow CastError (castObjectId userId) in
  find (query_of (Some u) (action o) (entityType o) (startDate o) (endDate o))
    ["name"; "email"] (default 50%Z (limit o)) (default 0%Z (skip o)).

(** [ActivityLogSchema.statics.getSystemActivity] *)
Definition getSystemActivity (o : Options)
    : M (list (Stored ActivityLog * Ref)) :=
  find (query_of None (action o) (entityType o) (startDate o) (endDate o))
    ["name"; "email"; "avatar"; "role"]
    (default 100%Z (limit o)) (default 0%Z (skip o)).

End ActivityLogQuery.

(** ** models/Task.js *)
Module TaskModel.

Definition statuses : list string := ["todo"; "in-progress"; "completed"].
Definition priorities : list string := ["low"; "medium"; "high"].

Definition set_completedAt (c : option Z) (t : Task) : Task :=
  mkTask (t_title t) (t_description t) (t_assignee_id t) (t_project_id t)
    (t_status t) (t_priority t) (t_dueDate t) (t_createdBy t) c
    (t_comments t) (t_createdAt t) (t_updatedAt t).

Definition set_comments (cs : list Comment) (t : Task) : Task :=
  mkTask (t_title t) (t_description t) (t_assignee_id t) (t_project_id t)
    (t_status t) (t_priority t) (t_dueDate t) (t_createdBy t)
    (t_completedAt t) cs (t_createdAt t) (t_updatedAt t).

Definition set_updatedAt (u : Z) (t : Task) : Task :=
  mkTask (t_title t) (t_description t) (t_assignee_id t) (t_project_id t)
    (t_status t) (t_priority t) (t_dueDate t) (t_createdBy t)
    (t_completedAt t) (t_comments t) (t_createdAt t) u.

(** [TaskSchema.pre("save")]; [statusModified] is
    [this.isModified("status")]. *)
Definition pre_save (statusModified : bool) (time : Z) (t : Task) : Task :=
  if statusModified then
    if (String.eqb (t_status t) "completed"
        && match t_completedAt t with None => true | Some _ => false end)%bool
    then set_completedAt (Some time) t
    else if negb (String.eqb (t_status t) "completed")
    then set_completedAt None t
    else t
  else t.

Definition opt_ref (o : option ObjectId) : Ref :=
  match o with
  | Some i => ROid i
  | None => RNull
  end.

(** Validation of a new task: casts, [required], the enums; the [trim]
    setters apply. *)
Definition validate (time : Z) (t : Task) : option Task :=
  a ← castRequired (t_assignee_id t);
  p ← castObjectId (t_project_id t);
  c ← castRequired (t_createdBy t);
  if (truthy_str (trim (t_title t)) && truthy_str (trim (t_description t))
      && in_enum statuses (t_status t) && in_enum priorities (t_priority t)
      && match t_dueDate t with Some _ => true | None => false end)%bool
  then Some (mkTask (trim (t_title t)) (trim (t_description t)) (ROid a)
               (opt_ref p) (t_status t) (t_priority t) (t_dueDate t)
               (ROid c) (t_completedAt t) (t_comments t) time time)
  else None.

(** [new Task({...})] followed by [task.save()]: every path that was set
    counts as modified, [status] among them. *)
Definition create (t : Task) : M (Stored Task) :=
  let! time := now in
  let! t1 := orThrow ValidationError (validate time t) in
  let t2 := pre_save true time t1 in
  do! db in
  let! w := get in
  let id := fresh (dom (tasks w)) in
  do! modify (set_tasks (insert id t2)) in
  ret (id, t2).

(** [Task.findById(id)] *)
Definition findById (id : string) : M (option (Stored Task)) :=
  let! i := orThrow CastError (oid_of_string id) in
  do! db in
  let! w := get in
  ret (pair i <$> tasks w !! i).

(** [task.comments.push(newComment); await task.save()] on a task loaded
    from the store: the new subdocument gets an [_id] and is validated,
    and the hook sees [status] unmodified. *)
Definition pushComment (doc : Stored Task) (author : Ref) (text : string)
    (timestamp : Z) : M (Stored Task) :=
  let! time := now in
  let! a := orThrow ValidationError (castRequired author) in
  if truthy_str (trim text) then
    let cid := fresh (list_to_set (map c_id (t_comments doc.2)) : gset ObjectId) in
    let c := mkComment cid (ROid a) (trim text) timestamp in
    let t1 := set_comments (t_comments doc.2 ++ [c]) doc.2 in
    let t2 := set_updatedAt time (pre_save false time t1) in
    do! db in
    do! modify (set_tasks (insert doc.1 t2)) in
    ret (doc.1, t2)
  else throw ValidationError.

(** The body of [PUT /api/tasks/:id] as far as it reaches the schema. *)
Record Updates := mkUpdates {
  title : option string;
  description : option string;
  assignee_id : option string;
  project_id : option string;
  status : option string;
  priority : option string;
  dueDate : option Z;
  completedAt : option (option Z);
}.

Definition set_update_completedAt (c : option Z) (u : Updates) : Updates :=
  mkUpdates (title u) (description u) (assignee_id u) (project_id u)
    (status u) (priority u) (dueDate u) (Some c).

(** [Object.keys(updates)].  A body is taken with its keys in the order
    of the schema, [completedAt] last, where the handler adds it when the
    body has none. *)
Definition key_of {A} (k : string) (o : option A) : list string :=
  match o with
  | Some _ => [k]
  | None => []
  end.

Definition keys (u : Updates) : list string :=
  key_of "title" (title u) ++ key_of "description" (description u)
  ++ key_of "assignee_id" (assignee_id u) ++ key_of "project_id" (project_id u)
  ++ key_of "status" (status u) ++ key_of "priority" (priority u)
  ++ key_of "dueDate" (dueDate u) ++ key_of "completedAt" (completedAt u).

(** Cast of the ids of an update. *)
Definition cast_opt (o : option string) : option (option ObjectId) :=
  match o with
  | None => Some None
  | Some s => Some <$> oid_of_string s
  end.

(** [runValidators: true]: [required] and the enums, on the paths that
    are set. *)
Definition valid_updates (u : Updates) : bool :=
  (match title u with Some s => truthy_str (trim s) | None => true end
   && match description u with Some s => truthy_str (trim s) | None => true end
   && opt_in_enum statuses (status u)
   && opt_in_enum priorities (priority u))%bool.

(** [$set] of the paths that are present. *)
Definition apply_updates (u : Updates) (a p : option ObjectId) (time : Z)
    (t : Task) : Task :=
  mkTask (default (t_title t) (trim <$> title u))
    (default (t_description t) (trim <$> description u))
    (default (t_assignee_id t) (ROid <$> a))
    (default (t_project_id t) (ROid <$> p))
    (default (t_status t) (status u))
    (default (t_priority t) (priority u))
    (match dueDate u with Some d => Some d | None => t_dueDate t end)
    (t_createdBy t)
    (default (t_completedAt t) (completedAt u))
    (t_comments t) (t_createdAt t) time.

(** [Task.findByIdAndUpdate(id, updates, { new: true, runValidators:
    true })]: no [save] hook runs. *)
Definition findByIdAndUpdate (id : string) (u : Updates)
    : M (option (Stored Task)) :=
  let! time := now in
  let! i := orThrow CastError (oid_of_string id) in
  let! a := orThrow CastError (cast_opt (assignee_id u)) in
  let! p := orThrow CastError (cast_opt (project_id u)) in
  if valid_updates u then
    do! db in
    let! w := get in
    match tasks w !! i with
    | Some t =>
        let t' := apply_updates u a p time t in
        do! modify (set_tasks (insert i t')) in
        ret (Some (i, t'))
    | None => ret None
    end
  else throw ValidationError.

(** [populate] of the three references of a task, one round trip. *)
Definition populateRefs (assigneeSel projectSel creatorSel : list string)
    (doc : Stored Task) : M (Stored Task) :=
  do! db in
  let! w := get in
  let t := doc.2 in
  ret (doc.1,
       mkTask (t_title t) (t_description t)
         (populate_user assigneeSel w (t_assignee_id t))
         (populate_project projectSel w (t_project_id t))
         (t_status t) (t_priority t) (t_dueDate t)
         (populate_user creatorSel w (t_createdBy t))
         (t_completedAt t) (t_comments t) (t_createdAt t) (t_updatedAt t)).

(** [task.populate("comments.author", "name email avatar")] *)
Definition populateAuthors (doc : Stored Task) : M (Stored Task) :=
  do! db in
  let! w := get in
  ret (doc.1,
       set_comments
         (map (fun c => mkComment (c_id c)
                          (populate_user ["name"; "email"; "avatar"] w (c_author c))
                          (c_text c) (c_timestamp c))
            (t_comments doc.2))
         doc.2).

(** [Task.findByIdAndDelete(id)] *)
Definition findByIdAndDelete (id : string) : M (option (Stored Task)) :=
  let! i := orThrow CastError (oid_of_string id) in
  do! db in
  let! w := get in
  match tasks w !! i with
  | Some t =>
      do! modify (set_tasks (delete i)) in
      ret (Some (i, t))
  | None => ret None
  end.

(** [task.comments.id(commentId)]: the first subdocument with that [_id],
    [null] when there is none or when [commentId] is not the text of an
    id. *)
Definition commentById (commentId : string) (cs : list Comment) : option Comment :=
  match oid_of_string commentId with
  | Some i => List.find (fun c => N.eqb (c_id c) i) cs
  | None => None
  end.

(** Assignments to the subdocument [task.comments.id(commentId)] gave. *)
Fixpoint update_comment (i : ObjectId) (f : Comment -> Comment)
    (cs : list Comment) : list Comment :=
  match cs with
  | [] => []
  | c :: r => if N.eqb (c_id c) i then f c :: r else c :: update_comment i f r
  end.

(** [task.comments.pull({ _id: commentId })] *)
Definition pull (i : ObjectId) (cs : list Comment) : list Comment :=
  List.filter (fun c => negb (N.eqb (c_id c) i)) cs.

(** [await task.save()] on a task loaded from the store whose comments
    were changed in memory.  Only modified paths are validated: the text
    the edit handler assigns is not empty, and [pull] assigns nothing, so
    the validation passes; the hook sees [status] unmodified. *)
Definition saveComments (doc : Stored Task) (cs : list Comment) : M (Stored Task) :=
  let! time := now in
  let t2 := set_updatedAt time (pre_save false time (set_comments cs doc.2)) in
  do! db in
  do! modify (set_tasks (insert doc.1 t2)) in
  ret (doc.1, t2).

(** [task.comments.sort((a, b) => b.timestamp - a.timestamp)] *)
Definition sortComments (cs : list Comment) : list Comment :=
  newest_first c_timestamp cs.

End TaskModel.

(** ** utils/notifications.js *)
Module notifications.

Definition quoted (s : string) : string := dq +:+ s +:+ dq.

(** The [switch (type)] that selects title and message. *)
Definition template (type title : string) : string * string :=
  if String.eqb type "task_assigned" then
    ("New Task Assigned",
     "You have been assigned a new task: " +:+ quoted title)
  else if String.eqb type "task_updated" then
    ("Task Updated", "Task " +:+ quoted title +:+ " has been updated")
  else if String.eqb type "task_completed" then
    ("Task Completed",
     "Task " +:+ quoted title +:+ " has been marked as completed")
  else if String.eqb type "task_reassigned" then
    ("Task Reassigned", "You have been assigned to task: " +:+ quoted title)
  else
    ("Task Notification", "Task " +:+ quoted title +:+ " has been updated").

(** [task.project_id || null] *)
Definition or_null (r : Ref) : Ref := if truthy r then r else RNull.

Definition createTaskNotification (recipientId senderId : Ref)
    (task : Stored Task) (type : string) : M (option (Stored Notification)) :=
  try_catch
    (let! r := toString recipientId in
     let! s := toString senderId in
     if String.eqb r s then ret None
     else
       let tm := template type (t_title task.2) in
       let! n := NotificationModel.createNotification
                   (NotificationModel.mkData recipientId senderId type
                      tm.1 tm.2 (ROid task.1) (or_null (t_project_id task.2))) in
       ret (Some n))
    (fun _ =>
       do! console_error "Error creating task notification:" in
       ret None).

Definition createCommentNotification (recipientId senderId : Ref)
    (task : Stored Task) (commentText : string)
    : M (option (Stored Notification)) :=
  try_catch
    (let! r := toString recipientId in
     let! s := toString senderId in
     if String.eqb r s then ret None
     else
       let truncatedText := ellipsis 50 commentText in
       let! n := NotificationModel.createNotification
                   (NotificationModel.mkData recipientId senderId
                      "comment_added" "New Comment on Task"
                      ("New comment on " +:+ quoted (t_title task.2) +:+ ": "
                       +:+ quoted truncatedText)
                      (ROid task.1) (or_null (t_project_id task.2))) in
       ret (Some n))
    (fun _ =>
       do! console_error "Error creating comment notification:" in
       ret None).

(** The [for ... of] loop of [createMultipleTaskNotifications]. *)
Fixpoint notify_each (recipientIds : list Ref) (senderId : Ref)
    (task : Stored Task) (type : string) (created : list (Stored Notification))
    : M (list (Stored Notification)) :=
  match recipientIds with
  | [] => ret created
  | recipientId :: rest =>
      let! notification := createTaskNotification recipientId senderId task type in
      notify_each rest senderId task type
        (match notification with
         | Some n => created ++ [n]
         | None => created
         end)
  end.

Definition createMultipleTaskNotifications (recipientIds : list Ref)
    (senderId : Ref) (task : Stored Task) (type : string)
    : M (list (Stored Notification)) :=
  try_catch
    (notify_each recipientIds senderId task type [])
    (fun _ =>
       do! console_error "Error creating multiple notifications:" in
       ret []).

End notifications.

(** ** utils/activityLogger.js *)

(** What the loggers read of the request. *)
Record Request := mkRequest {
  ip : option string;
  remoteAddress : option string;
  userAgent : option string;
}.

Module activityLogger.

Import notifications.

(** [metadata.key || fallback] for a text value. *)
Definition meta_or (k fallback : string) (md : list (string * Meta)) : string :=
  match List.find (fun kv => String.eqb kv.1 k) md with
  | Some (_, MStr s) => if truthy_str s then s else fallback
  | _ => fallback
  end.

Definition getTaskDescription (action : string) (task : Stored Task)
    (md : list (string * Meta)) : string :=
  let title := quoted (t_title task.2) in
  if String.eqb action "task_created" then "Created task " +:+ title
  else if String.eqb action "task_updated" then "Updated task " +:+ title
  else if String.eqb action "task_assigned" then
    "Assigned task " +:+ title +:+ " to " +:+ meta_or "assigneeName" "a user" md
  else if String.eqb action "task_reassigned" then
    "Reassigned task " +:+ title +:+ " to "
    +:+ meta_or "newAssigneeName" "a different user" md
  else if String.eqb action "task_status_changed" then
    "Changed status of task " +:+ title +:+ " to "
    +:+ meta_or "newStatus" "unknown" md
  else if String.eqb action "task_completed" then
    "Marked task " +:+ title +:+ " as completed"
  else if String.eqb action "task_deleted" then "Deleted task " +:+ title
  else "Task action: " +:+ action +:+ " on " +:+ title.

Definition getCommentDescription (action : string) (task : Stored Task)
    (comment : Comment) : string :=
  let commentPreview :=
    String.substring 0 30 (c_text comment)
    +:+ (if Nat.ltb 30 (String.length (c_text comment)) then "..." else empty) in
  let title := quoted (t_title task.2) in
  if String.eqb action "task_commented" then
    "Added comment on task " +:+ title +:+ ": " +:+ quoted commentPreview
  else if String.eqb action "comment_updated" then
    "Updated comment on task " +:+ title +:+ ": " +:+ quoted commentPreview
  else if String.eqb action "comment_deleted" then
    "Deleted comment on task " +:+ title
  else "Comment action: " +:+ action +:+ " on task " +:+ title.

(** [req.ip || req.connection.remoteAddress] and [req.get("User-Agent")],
    when a request is given. *)
Definition ip_of (req : option Request) : option string :=
  match req with
  | Some r =>
      match ip r with
      | Some s => if truthy_str s then Some s else remoteAddress r
      | None => remoteAddress r
      end
  | None => None
  end.

Definition agent_of (req : option Request) : option string :=
  match req with
  | Some r => userAgent r
  | None => None
  end.

Definition logTaskActivity (userId : Ref) (action : string)
    (task : Stored Task) (req : option Request) (md : list (string * Meta))
    : M (option (Stored ActivityLog)) :=
  let project := t_project_id task.2 in
  ActivityLogModel.logActivity
    (ActivityLogModel.mkData userId action
       (getTaskDescription action task md)
       (Some "task") (ROid task.1) (Some (t_title task.2))
       (if truthy project then Some "project" else None)
       (if truthy project then project else RNull)
       (if truthy project then
          match ref_field "title" project with
          | Some s => if truthy_str s then Some s else None
          | None => None
          end
        else None)
       md (ip_of req) (agent_of req)).

Definition logCommentActivity (userId : Ref) (action : string)
    (task : Stored Task) (comment : Comment) (req : option Request)
    (md : list (string * Meta)) : M (option (Stored ActivityLog)) :=
  ActivityLogModel.logActivity
    (ActivityLogModel.mkData userId action
       (getCommentDescription action task comment)
       (Some "comment") (ROid (c_id comment))
       (Some (String.substring 0 50 (c_text comment)
              +:+ (if Nat.ltb 50 (String.length (c_text comment))
                   then "..." else empty)))
       (Some "task") (ROid task.1) (Some (t_title task.2))
       md (ip_of req) (agent_of req)).

Definition getAuthDescription (action : string) : string :=
  if String.eqb action "user_login" then "User logged into the system"
  else if String.eqb action "user_logout" then "User logged out of the system"
  else if String.eqb action "user_register" then
    "New user registered in the system"
  else "User authentication: " +:+ action.

Definition getProjectDescription (action : string) (project : Stored Project)
    : string :=
  let title := quoted (p_title project.2) in
  if String.eqb action "project_created" then "Created project " +:+ title
  else if String.eqb action "project_updated" then "Updated project " +:+ title
  else if String.eqb action "project_deleted" then "Deleted project " +:+ title
  else "Project action: " +:+ action +:+ " on " +:+ title.

(** A team member as the logger reads it: [member._id] and
    [member.name]. *)
Definition getTeamMemberDescription (action : string) (member : Stored string)
    : string :=
  let name := quoted member.2 in
  if String.eqb action "team_member_added" then "Added team member " +:+ name
  else if String.eqb action "team_member_updated" then
    "Updated team member " +:+ name
  else if String.eqb action "team_member_removed" then
    "Removed team member " +:+ name
  else "Team member action: " +:+ action +:+ " on " +:+ name.

Definition logAuthActivity (userId : Ref) (action : string)
    (req : option Request) (md : list (string * Meta))
    : M (option (Stored ActivityLog)) :=
  ActivityLogModel.logActivity
    (ActivityLogModel.mkData userId action (getAuthDescription action)
       (Some "user") userId None None RNull None
       md (ip_of req) (agent_of req)).

Definition logProjectActivity (userId : Ref) (action : string)
    (project : Stored Project) (req : option Request)
    (md : list (string * Meta)) : M (option (Stored ActivityLog)) :=
  ActivityLogModel.logActivity
    (ActivityLogModel.mkData userId action
       (getProjectDescription action project)
       (Some "project") (ROid project.1) (Some (p_title project.2))
       None RNull None
       md (ip_of req) (agent_of req)).

Definition logTeamMemberActivity (userId : Ref) (action : string)
    (member : Stored string) (req : option Request)
    (md : list (string * Meta)) : M (option (Stored ActivityLog)) :=
  ActivityLogModel.logActivity
    (ActivityLogModel.mkData userId action
       (getTeamMemberDescription action member)
       (Some "team_member") (ROid member.1) (Some member.2)
       None RNull None
       md (ip_of req) (agent_of req)).

End activityLogger.

(** ** HTTP responses *)
Record Response (A : Type) := mkResponse {
  res_status : nat;
  res_message : string;
  res_body : option A;
}.
Arguments mkResponse {A} _ _ _.
Arguments res_status {A} _.
Arguments res_message {A} _.
Arguments res_body {A} _.

Definition reply {A} (code : nat) (msg : string) : M (Response A) :=
  ret (mkResponse code msg None).

Definition reply_with {A} (code : nat) (msg : string) (a : A) : M (Response A) :=
  ret (mkResponse code msg (Some a)).

(** [Model.findById(id)] used as an existence check. *)
Definition exists_by_id {A} (coll : world -> gmap ObjectId A) (id : string) : M bool :=
  let! i := orThrow CastError (oid_of_string id) in
  do! db in
  let! w := get in
  ret (match coll w !! i with Some _ => true | None => false end).

(** [if (body.field) { found = await Model.findById(body.field) }] *)
Definition check_ref {A} (coll : world -> gmap ObjectId A) (o : option string) : M bool :=
  match o with
  | Some s => if truthy_str s then exists_by_id coll s else ret true
  | None => ret true
  end.

Definition truthy_opt (o : option string) : bool :=
  match o with
  | Some s => truthy_str s
  | None => false
  end.

Definition body_ref (o : option string) : Ref :=
  match o with
  | Some s => RStr s
  | None => RNull
  end.

Definition meta_opt (o : option string) : Meta :=
  match o with
  | Some s => MStr s
  | None => MUndefined
  end.

(** ** The task router

    The handlers take the authenticated user ([req.user._id]) as set by the
    [auth] middleware, which is not among the sources; they are the bodies
    that run once [auth] and [authorize] let the request through. *)
Module TasksRoute.

Import notifications activityLogger.

Record CreateBody := mkCreateBody {
  title : option string;
  description : option string;
  assignee_id : option string;
  project_id : option string;
  priority : option string;
  dueDate : option Z;
}.

(** [router.post("/")] *)
Definition post (user : ObjectId) (req : Request) (body : CreateBody)
    : M (Response (Stored Task)) :=
  try_catch
    (if (negb (truthy_opt (title body)) || negb (truthy_opt (description body)))%bool
     then reply 400 "Title and description are required"
     else
       let! projectFound := check_ref projects (project_id body) in
       if negb projectFound then reply 404 "Project not found"
       else
         let! assigneeFound := check_ref users (assignee_id body) in
         if negb assigneeFound then reply 404 "Assignee not found"
         else
           let! saved :=
             TaskModel.create
               (mkTask (default empty (title body))
                  (default empty (description body))
                  (body_ref (assignee_id body)) (body_ref (project_id body))
                  "todo"
                  (if truthy_opt (priority body)
                   then default empty (priority body) else "medium")
                  (dueDate body) (ROid user) None [] 0 0) in
           let! task :=
             TaskModel.populateRefs ["name"; "email"] ["title"]
               ["name"; "email"] saved in
           do! (if truthy_opt (assignee_id body)
                then createTaskNotification (body_ref (assignee_id body))
                       (ROid user) task "task_assigned"
                else ret None) in
           let activityMetadata :=
             [("priority", MStr (t_priority task.2));
              ("dueDate", match t_dueDate task.2 with
                          | Some d => MDate d
                          | None => MUndefined
                          end);
              ("projectName", meta_opt (ref_field "title" (t_project_id task.2)));
              ("assigneeName", meta_opt (ref_field "name" (t_assignee_id task.2)))] in
           do! logTaskActivity (ROid user)
                 (if truthy_opt (assignee_id body)
                  then "task_assigned" else "task_created")
                 task (Some req) activityMetadata in
           reply_with 201 "Task created successfully" task)
    (fun e =>
       do! console_error "Create task error:" in
       match e with
       | ValidationError => reply 400 "Validation error"
       | _ => reply 500 "Server error creating task"
       end).

(** "Handle task completion" of [router.put("/:id")]. *)
Definition handle_completion (time : Z) (existingStatus : string)
    (updates : TaskModel.Updates) : TaskModel.Updates :=
  match TaskModel.status updates with
  | Some s =>
      if String.eqb s "completed" then
        if negb (String.eqb existingStatus "completed")
        then TaskModel.set_update_completedAt (Some time) updates
        else updates
      else TaskModel.set_update_completedAt None updates
  | None => TaskModel.set_update_completedAt None updates
  end.

(** [updates.status === "completed" && existingTask.status !== "completed"] *)
Definition completes (status : option string) (existingStatus : string) : bool :=
  match status with
  | Some s => (String.eqb s "completed"
               && negb (String.eqb existingStatus "completed"))%bool
  | None => false
  end.

(** [updates.assignee_id &&
     updates.assignee_id.toString() !== existingTask.assignee_id?.toString()] *)
Definition isReassignment (updates : TaskModel.Updates) (existing : Task) : bool :=
  match TaskModel.assignee_id updates with
  | Some s =>
      (truthy_str s
       && match toStringOpt (t_assignee_id existing) with
          | Some a => negb (String.eqb s a)
          | None => true
          end)%bool
  | None => false
  end.

(** "Create notifications for task updates" of [router.put("/:id")]. *)
Definition notify_update (user : ObjectId) (updates : TaskModel.Updates)
    (existingTask updatedTask : Stored Task) : M unit :=
  let me := toHexString user in
  if isReassignment updates existingTask.2 then
    do! createTaskNotification (body_ref (TaskModel.assignee_id updates))
          (ROid user) updatedTask "task_reassigned" in
    ret tt
  else if completes (TaskModel.status updates) (t_status existingTask.2) then
    if truthy (t_createdBy existingTask.2) then
      let! creator := toString (t_createdBy existingTask.2) in
      if negb (String.eqb creator me) then
        do! createTaskNotification (t_createdBy existingTask.2) (ROid user)
              updatedTask "task_completed" in
        ret tt
      else ret tt
    else ret tt
  else if truthy (t_assignee_id updatedTask.2) then
    let! assignee := toString (t_assignee_id updatedTask.2) in
    if negb (String.eqb assignee me) then
      do! createTaskNotification (t_assignee_id updatedTask.2) (ROid user)
            updatedTask "task_updated" in
      ret tt
    else ret tt
  else ret tt.

(** "Log task activity based on what was updated" of [router.put("/:id")]. *)
Definition log_update (user : ObjectId) (req : Request)
    (updates : TaskModel.Updates) (existingTask updatedTask : Stored Task)
    : M unit :=
  let activityMetadata :=
    [("updatedFields", MKeys (TaskModel.keys updates));
     ("oldValues", MObject []); ("newValues", MObject [])] in
  if isReassignment updates existingTask.2 then
    do! logTaskActivity (ROid user) "task_reassigned" updatedTask (Some req)
          (activityMetadata ++
           [("oldAssigneeName",
             MStr (match ref_field "name" (t_assignee_id existingTask.2) with
                   | Some s => if truthy_str s then s else "Unassigned"
                   | None => "Unassigned"
                   end));
            ("newAssigneeName",
             meta_opt (ref_field "name" (t_assignee_id updatedTask.2)))]) in
    ret tt
  else if completes (TaskModel.status updates) (t_status existingTask.2) then
    do! logTaskActivity (ROid user) "task_completed" updatedTask (Some req)
          (activityMetadata ++ [("newStatus", MStr "completed")]) in
    ret tt
  else
    match TaskModel.status updates with
    | Some s =>
        if (truthy_str s && negb (String.eqb s (t_status existingTask.2)))%bool
        then
          do! logTaskActivity (ROid user) "task_status_changed" updatedTask
                (Some req)
                (activityMetadata ++
                 [("oldStatus", MStr (t_status existingTask.2));
                  ("newStatus", MStr s)]) in
          ret tt
        else
          do! logTaskActivity (ROid user) "task_updated" updatedTask
                (Some req) activityMetadata in
          ret tt
    | None =>
        do! logTaskActivity (ROid user) "task_updated" updatedTask
              (Some req) activityMetadata in
        ret tt
    end.

(** [router.put("/:id")] *)
Definition put (user : ObjectId) (req : Request) (taskId : string)
    (body : TaskModel.Updates) : M (Response (Stored Task)) :=
  try_catch
    (let! found := TaskModel.findById taskId in
     match found with
     | None => reply 404 "Task not found"
     | Some existingTask =>
         let! projectFound := check_ref projects (TaskModel.project_id body) in
         if negb projectFound then reply 404 "Project not found"
         else
           let! assigneeFound := check_ref users (TaskModel.assignee_id body) in
           if negb assigneeFound then reply 404 "Assignee not found"
           else
             let! time := now in
             let updates :=
               handle_completion time (t_status existingTask.2) body in
             let! updated := TaskModel.findByIdAndUpdate taskId updates in
             match updated with
             | None => throw TypeError
             | Some stored =>
                 let! updatedTask :=
                   TaskModel.populateRefs ["name"; "email"] ["title"]
                     ["name"; "email"] stored in
                 do! notify_update user updates existingTask updatedTask in
                 do! log_update user req updates existingTask updatedTask in
                 reply_with 200 "Task updated successfully" updatedTask
             end
     end)
    (fun e =>
       do! console_error "Update task error:" in
       match e with
       | ValidationError => reply 400 "Validation error"
       | CastError => reply 400 "Invalid task ID format"
       | _ => reply 500 "Server error updating task"
       end).

(** [router.patch("/:id/status")] *)
Definition patch_status (user : ObjectId) (taskId : string)
    (status : option string) : M (Response (Stored Task)) :=
  try_catch
    (match status with
     | Some s =>
         if (truthy_str s && in_enum ["todo"; "in-progress"; "completed"] s)%bool
         then
           let! found := TaskModel.findById taskId in
           match found with
           | None => reply 404 "Task not found"
           | Some task =>
               let! time := now in
               let updates :=
                 TaskModel.mkUpdates None None None None (Some s) None None
                   (if (String.eqb s "completed"
                        && negb (String.eqb (t_status task.2) "completed"))%bool
                    then Some (Some time)
                    else if negb (String.eqb s "completed") then Some None
                    else None) in
               let! updated := TaskModel.findByIdAndUpdate taskId updates in
               match updated with
               | None => throw TypeError
               | Some stored =>
                   let! updatedTask :=
                     TaskModel.populateRefs ["name"; "email"] ["title"]
                       ["name"; "email"] stored in
                   do! (if completes (Some s) (t_status task.2) then
                          if truthy (t_createdBy task.2) then
                            let! creator := toString (t_createdBy task.2) in
                            if negb (String.eqb creator (toHexString user)) then
                              createTaskNotification (t_createdBy task.2)
                                (ROid user) updatedTask "task_completed"
                            else ret None
                          else ret None
                        else ret None) in
                   reply_with 200 "Task status updated successfully" updatedTask
               end
           end
         else reply 400 "Valid status is required (todo, in-progress, completed)"
     | None => reply 400 "Valid status is required (todo, in-progress, completed)"
     end)
    (fun e =>
       do! console_error "Update task status error:" in
       match e with
       | CastError => reply 400 "Invalid task ID format"
       | _ => reply 500 "Server error updating task status"
       end).

(** [router.get("/:id")]: the task with its references and the authors of
    its comments populated, the comments newest first. *)
Definition get_id (taskId : string) : M (Response (Stored Task)) :=
  try_catch
    (let! found := TaskModel.findById taskId in
     match found with
     | None => reply 404 "Task not found"
     | Some loaded =>
         let! withRefs :=
           TaskModel.populateRefs ["name"; "email"] ["title"; "description"]
             ["name"; "email"] loaded in
         let! task := TaskModel.populateAuthors withRefs in
         reply_with 200 empty
           (task.1,
            TaskModel.set_comments
              (TaskModel.sortComments (t_comments task.2)) task.2)
     end)
    (fun e =>
       do! console_error "Get task error:" in
       match e with
       | CastError => reply 400 "Invalid task ID format"
       | _ => reply 500 "Server error fetching task"
       end).

(** [router.delete("/:id")], behind [authorize("admin")]. *)
Definition delete_id (taskId : string) : M (Response (Stored Task)) :=
  try_catch
    (let! deletedTask := TaskModel.findByIdAndDelete taskId in
     match deletedTask with
     | None => reply 404 "Task not found"
     | Some task => reply_with 200 "Task deleted successfully" task
     end)
    (fun e =>
       do! console_error "Delete task error:" in
       match e with
       | CastError => reply 400 "Invalid task ID format"
       | _ => reply 500 "Server error deleting task"
       end).

End TasksRoute.

(** ** Comments: [router.post("/:id/comments")] of the task router *)
Module CommentsRoute.

Import notifications activityLogger.

(** [Set.prototype.add] on a [Set] of strings, kept in insertion order. *)
Definition set_add (s : string) (set : list string) : list string :=
  if existsb (String.eqb s) set then set else set ++ [s].

(** [if (ref && ref.toString() !== me) recipients.add(ref.toString())] *)
Definition add_unless_me (me : string) (r : Ref) (set : list string) : list string :=
  if truthy r then
    match toStringOpt r with
    | Some s => if negb (String.eqb s me) then set_add s set else set
    | None => set
    end
  else set.

(** [task.comments.forEach((comment) => { ... })]: a TypeError when a
    comment has no author. *)
Fixpoint add_commenters (me : string) (cs : list Comment) (set : list string)
    : M (list string) :=
  match cs with
  | [] => ret set
  | c :: rest =>
      let! a := toString (c_author c) in
      add_commenters me rest
        (if negb (String.eqb a me) then set_add a set else set)
  end.

(** [for (const recipientId of notificationRecipients) { await
    createCommentNotification(recipientId, req.user._id, task, text) }] *)
Fixpoint send_all (user : ObjectId) (task : Stored Task) (text : string)
    (recipients : list string) : M unit :=
  match recipients with
  | [] => ret tt
  | r :: rest =>
      do! createCommentNotification (RStr r) (ROid user) task text in
      send_all user task text rest
  end.

(** The recipients, computed on the task as the handler holds it once
    [comments.author] is populated. *)
Definition notificationRecipients (user : ObjectId) (task : Task)
    : M (list string) :=
  let me := toHexString user in
  add_commenters me (t_comments task)
    (add_unless_me me (t_createdBy task)
       (add_unless_me me (t_assignee_id task) [])).

Definition post (user : ObjectId) (req : Request) (taskId : string)
    (text : option string) : M (Response Comment) :=
  try_catch
    (match text with
     | Some txt =>
         if (truthy_str txt && negb (Nat.eqb (String.length (trim txt)) 0))%bool
         then
           let! found := TaskModel.findById taskId in
           match found with
           | None => reply 404 "Task not found"
           | Some loaded =>
               let! time := now in
               let! saved := TaskModel.pushComment loaded (ROid user) txt time in
               let! task := TaskModel.populateAuthors saved in
               let! addedComment := orThrow TypeError (last (t_comments task.2)) in
               let! recipients := notificationRecipients user task.2 in
               do! send_all user task txt recipients in
               do! logCommentActivity (ROid user) "task_commented" task
                     addedComment (Some req)
                     [("commentLength", MNum (Z.of_nat (String.length txt)));
                      ("taskAssignee",
                       meta_opt (ref_field "name" (t_assignee_id task.2)));
                      ("taskStatus", MStr (t_status task.2))] in
               reply_with 201 "Comment added successfully" addedComment
           end
         else reply 400 "Comment text is required"
     | None => reply 400 "Comment text is required"
     end)
    (fun e =>
       do! console_error "Add comment error:" in
       match e with
       | CastError => reply 400 "Invalid task ID format"
       | _ => reply 500 "Server error adding comment"
       end).

(** The body of the answer of [router.get("/:id/comments")]. *)
Record CommentList := mkCommentList {
  taskTitle : string;
  comments : list Comment;
  count : nat;
}.

(** [router.get("/:id/comments")] *)
Definition get_comments (taskId : string) : M (Response CommentList) :=
  try_catch
    (let! found := TaskModel.findById taskId in
     match found with
     | None => reply 404 "Task not found"
     | Some loaded =>
         let! task := TaskModel.populateAuthors loaded in
         let sortedComments := TaskModel.sortComments (t_comments task.2) in
         reply_with 200 empty
           (mkCommentList (t_title task.2) sortedComments
              (List.length sortedComments))
     end)
    (fun e =>
       do! console_error "Get task comments error:" in
       match e with
       | CastError => reply 400 "Invalid task ID format"
       | _ => reply 500 "Server error fetching comments"
       end).

(** [comment.author.toString() !== req.user._id.toString() &&
     req.user.role !== "admin"] *)
Definition mayNotTouch (author : string) (user : ObjectId) (role : string) : bool :=
  (negb (String.eqb author (toHexString user))
   && negb (String.eqb role "admin"))%bool.

(** [router.put("/:taskId/comments/:commentId")]; [role] is
    [req.user.role]. *)
Definition put (user : ObjectId) (role : string) (taskId commentId : string)
    (text : option string) : M (Response Comment) :=
  try_catch
    (match text with
     | Some txt =>
         if (truthy_str txt && negb (Nat.eqb (String.length (trim txt)) 0))%bool
         then
           let! found := TaskModel.findById taskId in
           match found with
           | None => reply 404 "Task not found"
           | Some task =>
               match TaskModel.commentById commentId (t_comments task.2) with
               | None => reply 404 "Comment not found"
               | Some comment =>
                   let! author := toString (c_author comment) in
                   if mayNotTouch author user role
                   then reply 403 "You can only edit your own comments"
                   else
                     let! time := now in
                     let edited :=
                       TaskModel.update_comment (c_id comment)
                         (fun c => mkComment (c_id c) (c_author c) (trim txt) time)
                         (t_comments task.2) in
                     let! saved := TaskModel.saveComments task edited in
                     let! populated := TaskModel.populateAuthors saved in
                     match TaskModel.commentById commentId
                             (t_comments populated.2) with
                     | Some updatedComment =>
                         reply_with 200 "Comment updated successfully"
                           updatedComment
                     | None => reply 200 "Comment updated successfully"
                     end
               end
           end
         else reply 400 "Comment text is required"
     | None => reply 400 "Comment text is required"
     end)
    (fun e =>
       do! console_error "Update comment error:" in
       match e with
       | CastError => reply 400 "Invalid ID format"
       | _ => reply 500 "Server error updating comment"
       end).

(** [router.delete("/:taskId/comments/:commentId")] *)
Definition delete_id (user : ObjectId) (role : string)
    (taskId commentId : string) : M (Response unit) :=
  try_catch
    (let! found := TaskModel.findById taskId in
     match found with
     | None => reply 404 "Task not found"
     | Some task =>
         match TaskModel.commentById commentId (t_comments task.2) with
         | None => reply 404 "Comment not found"
         | Some comment =>
             let! author := toString (c_author comment) in
             if mayNotTouch author user role
             then reply 403 "You can only delete your own comments"
             else
               do! TaskModel.saveComments task
                     (TaskModel.pull (c_id comment) (t_comments task.2)) in
               reply_with 200 "Comment deleted successfully" tt
         end
     end)
    (fun e =>
       do! console_error "Delete comment error:" in
       match e with
       | CastError => reply 400 "Invalid ID format"
       | _ => reply 500 "Server error deleting comment"
       end).

End CommentsRoute.

(** ** The notification router

    The bodies of the handlers, behind [auth]; [user] is [req.user._id]. *)
Module NotificationsRoute.

(** [router.patch("/:id/read")] *)
Definition patch_read (user : ObjectId) (id : string)
    : M (Response (Stored Notification)) :=
  try_catch
    (let! found := NotificationModel.findOne id user in
     match found with
     | None => reply 404 "Notification not found"
     | Some notification =>
         let! marked := NotificationModel.markAsRead notification in
         reply_with 200 "Notification marked as read" marked
     end)
    (fun e =>
       do! console_error "Mark notification read error:" in
       match e with
       | CastError => reply 400 "Invalid notification ID format"
       | _ => reply 500 "Server error marking notification as read"
       end).

(** [router.patch("/mark-all-read")]; the body carries the count. *)
Definition patch_mark_all_read (user : ObjectId)
    (notificationIds : option (list string)) : M (Response nat) :=
  try_catch
    (let! modifiedCount :=
       NotificationModel.markMultipleAsRead user (default [] notificationIds) in
     reply_with 200
       (match notificationIds with
        | Some (_ :: _) => pretty modifiedCount +:+ " notifications marked as read"
        | _ => "All unread notifications marked as read ("
               +:+ pretty modifiedCount +:+ " updated)"
        end)
       modifiedCount)
    (fun _ =>
       do! console_error "Mark all notifications read error:" in
       reply 500 "Server error marking notifications as read").

(** [router.delete("/:id")] *)
Definition delete_id (user : ObjectId) (id : string) : M (Response unit) :=
  try_catch
    (let! found := NotificationModel.findOneAndDelete id user in
     match found with
     | None => reply 404 "Notification not found"
     | Some _ => reply_with 200 "Notification deleted successfully" tt
     end)
    (fun e =>
       do! console_error "Delete notification error:" in
       match e with
       | CastError => reply 400 "Invalid notification ID format"
       | _ => reply 500 "Server error deleting notification"
       end).

(** [router.delete("/clear-all")]; the body carries the count. *)
Definition delete_clear_all (user : ObjectId) : M (Response nat) :=
  try_catch
    (let! deletedCount := NotificationModel.deleteManyRead user in
     reply_with 200 (pretty deletedCount +:+ " read notifications cleared")
       deletedCount)
    (fun _ =>
       do! console_error "Clear all notifications error:" in
       reply 500 "Server error clearing notifications").

(** [router.get("/")]; [page] and [limit] are the integers [parseInt] reads
    from the query string, 1 and 20 when it has none; the body carries the
    page and the [unreadCount]. *)
Definition get_root (user : ObjectId) (page limit : option Z)
    (unreadOnly type : option string)
    : M (Response (Page NotificationModel.Listed * nat)) :=
  try_catch
    (let p := default 1%Z page in
     let l := default 20%Z limit in
     let query :=
       NotificationModel.listed user
         (match unreadOnly with
          | Some s => String.eqb s "true"
          | None => false
          end)
         (if_truthy type) in
     let skip := ((p - 1) * l)%Z in
     let! notifications := NotificationModel.find query skip l in
     let! total := NotificationModel.countDocuments query in
     let! unreadCount := NotificationModel.countUnread user in
     reply_with 200 empty
       (mkPage notifications p (total_pages total l) total
          (skip + Z.of_nat (List.length notifications) <? Z.of_nat total)%Z
          (1 <? p)%Z,
        unreadCount))
    (fun _ =>
       do! console_error "Get notifications error:" in
       reply 500 "Server error fetching notifications").

(** [router.get("/unread-count")] *)
Definition get_unread_count (user : ObjectId) : M (Response nat) :=
  try_catch
    (let! unreadCount := NotificationModel.countUnread user in
     reply_with 200 empty unreadCount)
    (fun _ =>
       do! console_error "Get unread count error:" in
       reply 500 "Server error fetching unread count").

End NotificationsRoute.

(** ** The activity-log router

    The body of the handler, behind [auth] and [authorize("admin")]. *)
Module ActivityLogsRoute.

Definition msPerDay : Z := 86400000.

(** [cutoffDate.setDate(cutoffDate.getDate() - days)]: the same time of
    day, [days] calendar days earlier; with the server clock in UTC that
    is [days] times 24 hours.  This is the time value [setDate] computes;
    outside the range of [valid_date] the date it leaves is an Invalid
    Date. *)
Definition setDate_minus (date days : Z) : Z := (date - days * msPerDay)%Z.

(** [router.delete("/cleanup")]; [daysToKeep] is the integer the body
    gives, as a number (of fewer than 22 digits, so that its text is its
    digits) or as its decimal text, which is then what [parseInt] reads
    and what the message prints; 90 when the body has none.  A cutoff
    that is an Invalid Date fails the cast of the query.  The body of the
    response carries the [deletedCount]. *)
Definition cleanup (daysToKeep : option Z) : M (Response nat) :=
  try_catch
    (let days := default 90%Z daysToKeep in
     let! today := now in
     let cutoffDate := setDate_minus today days in
     let! deletedCount := ActivityLogModel.deleteManyBefore cutoffDate in
     reply_with 200
       ("Cleaned up activity logs older than " +:+ pretty days +:+ " days")
       deletedCount)
    (fun _ =>
       do! console_error "Cleanup activity logs error:" in
       reply 500 "Server error cleaning up activity logs").

(** The list answers of the router: one page of entries, each with its
    user. *)
Definition Activities := Page (Stored ActivityLog * Ref).

Definition page_of (activities : list (Stored ActivityLog * Ref))
    (p l skip : Z) (total : nat) : Activities :=
  mkPage activities p (total_pages total l) total
    (skip + Z.of_nat (List.length activities) <? Z.of_nat total)%Z
    (1 <? p)%Z.

(** [router.get("/")], behind [authorize("admin")]; [page] and [limit] are
    the integers [parseInt] reads from the query string, 1 and 50 when it
    has none; the dates are those [new Date] reads. *)
Definition get_root (page limit : option Z)
    (action entityType userId : option string) (startDate endDate : option Z)
    : M (Response Activities) :=
  try_catch
    (let p := default 1%Z page in
     let l := default 50%Z limit in
     let skip := ((p - 1) * l)%Z in
     let options :=
       ActivityLogQuery.mkOptions (Some l) (Some skip) action entityType
         startDate endDate in
     match if_truthy userId with
     | Some uid =>
         let! activities := ActivityLogQuery.getUserActivity (RStr uid) options in
         let! u := orThrow CastError (oid_of_string uid) in
         let! total :=
           ActivityLogQuery.countDocuments
             (ActivityLogQuery.query_of (Some (Some u)) action entityType
                startDate endDate) in
         reply_with 200 empty (page_of activities p l skip total)
     | None =>
         let! activities := ActivityLogQuery.getSystemActivity options in
         let! total :=
           ActivityLogQuery.countDocuments
             (ActivityLogQuery.query_of None action entityType
                startDate endDate) in
         reply_with 200 empty (page_of activities p l skip total)
     end)
    (fun _ =>
       do! console_error "Get activity logs error:" in
       reply 500 "Server error fetching activity logs").

(** [router.get("/my-activity")]; the defaults are 1 and 25. *)
Definition get_my_activity (user : ObjectId) (page limit : option Z)
    (action entityType : option string) (startDate endDate : option Z)
    : M (Response Activities) :=
  try_catch
    (let p := default 1%Z page in
     let l := default 25%Z limit in
     let skip := ((p - 1) * l)%Z in
     let! activities :=
       ActivityLogQuery.getUserActivity (ROid user)
         (ActivityLogQuery.mkOptions (Some l) (Some skip) action entityType
            startDate endDate) in
     let! total :=
       ActivityLogQuery.countDocuments
         (ActivityLogQuery.query_of (Some (Some user)) action entityType
            startDate endDate) in
     reply_with 200 empty (page_of activities p l skip total))
    (fun _ =>
       do! console_error "Get my activity error:" in
       reply 500 "Server error fetching your activity").

(** [router.get("/recent")], behind [authorize("admin", "manager")]: the
    system activity of the last day (one day before a time the clock
    gives is a valid date); the body carries the entries and their
    count. *)
Definition get_recent (limit : option Z)
    : M (Response (list (Stored ActivityLog * Ref) * nat)) :=
  try_catch
    (let l := default 20%Z limit in
     let! today := now in
     let yesterday := setDate_minus today 1 in
     let! recentActivities :=
       ActivityLogQuery.getSystemActivity
         (ActivityLogQuery.mkOptions (Some l) None None None
            (Some yesterday) None) in
     reply_with 200 empty (recentActivities, List.length recentActivities))
    (fun _ =>
       do! console_error "Get recent activity error:" in
       reply 500 "Server error fetching recent activity").

End ActivityLogsRoute.

(** ** The order of the routes

    What the routers rely on of Express: a request goes to the first route,
    in the order of registration, whose method and path match; a named
    segment ([:id]) matches any one segment.  A path is the list of its
    segments below the mount point of the router (in lower case, as the
    literals of the routes are). *)
Module Express.

Inductive Method := GET | POST | PUT | PATCH | DELETE.

Definition method_eqb (a b : Method) : bool :=
  match a, b with
  | GET, GET | POST, POST | PUT, PUT | PATCH, PATCH | DELETE, DELETE => true
  | _, _ => false
  end.

Inductive Segment :=
| Lit (s : string)
| Param.

(** The values of the named segments, when the path matches. *)
Fixpoint matches (pattern : list Segment) (path : list string)
    : option (list string) :=
  match pattern, path with
  | [], [] => Some []
  | Lit s :: pattern', x :: path' =>
      if String.eqb s x then matches pattern' path' else None
  | Param :: pattern', x :: path' =>
      if truthy_str x then cons x <$> matches pattern' path' else None
  | _, _ => None
  end.

Fixpoint dispatch {H} (routes : list (Method * list Segment * H))
    (m : Method) (path : list string) : option (H * list string) :=
  match routes with
  | [] => None
  | (m', pattern, h) :: rest =>
      if method_eqb m' m then
        match matches pattern path with
        | Some params => Some (h, params)
        | None => dispatch rest m path
        end
      else dispatch rest m path
  end.

(** The routes of the notification router, as registered. *)
Inductive NotificationHandler :=
| NGetRoot | NGetUnreadCount | NPatchRead | NPatchMarkAllRead
| NDeleteId | NDeleteClearAll.

Definition notification_routes
    : list (Method * list Segment * NotificationHandler) :=
  [(GET, [], NGetRoot);
   (GET, [Lit "unread-count"], NGetUnreadCount);
   (PATCH, [Param; Lit "read"], NPatchRead);
   (PATCH, [Lit "mark-all-read"], NPatchMarkAllRead);
   (DELETE, [Param], NDeleteId);
   (DELETE, [Lit "clear-all"], NDeleteClearAll)].

(** The routes of the task router, as registered. *)
Inductive TaskHandler :=
| TGetRoot | TGetUsers | TGetId | TPost | TPutId | TPatchStatus | TDeleteId
| TGetStatsOverview | TGetMyTasks | TGetComments | TPostComment
| TPutComment | TDeleteComment.

Definition task_routes : list (Method * list Segment * TaskHandler) :=
  [(GET, [], TGetRoot);
   (GET, [Lit "users"], TGetUsers);
   (GET, [Param], TGetId);
   (POST, [], TPost);
   (PUT, [Param], TPutId);
   (PATCH, [Param; Lit "status"], TPatchStatus);
   (DELETE, [Param], TDeleteId);
   (GET, [Lit "stats"; Lit "overview"], TGetStatsOverview);
   (GET, [Lit "my-tasks"], TGetMyTasks);
   (GET, [Param; Lit "comments"], TGetComments);
   (POST, [Param; Lit "comments"], TPostComment);
   (PUT, [Param; Lit "comments"; Param], TPutComment);
   (DELETE, [Param; Lit "comments"; Param], TDeleteComment)].

End Express.

(** ** Vocabulary of the statements *)

(** [wp m w Q]: the run of [m] from the store [w] ends in a result and a
    store that satisfy [Q]. *)
Definition wp {A} (m : M A) (w : world) (Q : result A -> world -> Prop) : Prop :=
  Q (m w).1 (m w).2.

(** The notifications of the users other than [u]. *)
Definition others (u : ObjectId) (m : gmap ObjectId Notification)
    : gmap ObjectId Notification :=
  filter (fun kv => n_recipient kv.2 <> u) m.

(** [u]'s operation left every notification of another user as it was,
    and gave the others none. *)
Definition keeps_others (u : ObjectId) (w w' : world) : Prop :=
  others u (notifications w') = others u (notifications w).

(** [readAt] is set exactly on the notifications that are read. *)
Definition read_inv (n : Notification) : Prop :=
  n_isRead n = true <-> n_readAt n <> None.

Definition store_read_inv (w : world) : Prop :=
  map_Forall (fun _ n => read_inv n) (notifications w).

(** [completedAt] is set exactly on the completed tasks. *)
Definition completed_inv (t : Task) : Prop :=
  t_completedAt t <> None <-> t_status t = "completed".

(** [r] is the identifier of the user [u]: the ObjectId, or its text. *)
Definition names (r : Ref) (u : ObjectId) : Prop :=
  r = ROid u \/ r = RStr (toHexString u).

(** A best-effort write to the collection [coll]: it always returns, with
    the created document, which is then the one new entry of the
    collection, or with [null], and then the collection is as before; a
    failing store gives [null]; the tasks are never touched. *)
Definition best_effort {A} (coll : world -> gmap ObjectId A)
    (m : M (option (Stored A))) : Prop :=
  forall w, exists v w',
    m w = (Ok v, w') /\ tasks w' = tasks w
    /\ match v with
       | None => coll w' = coll w
       | Some doc => coll w !! doc.1 = None /\ coll w' = <[doc.1 := doc.2]> (coll w)
       end
    /\ (forall fs, faults w = true :: fs -> v = None).

(** The operations of the notification router. *)
Inductive NotificationOp :=
| MarkRead (id : string)
| MarkAllRead (notificationIds : option (list string))
| Delete (id : string)
| ClearAll.

(** The store after the user [u] ran the operation. *)
Definition after_op (u : ObjectId) (op : NotificationOp) (w : world) : world :=
  match op with
  | MarkRead id => (NotificationsRoute.patch_read u id w).2
  | MarkAllRead ids => (NotificationsRoute.patch_mark_all_read u ids w).2
  | Delete id => (NotificationsRoute.delete_id u id w).2
  | ClearAll => (NotificationsRoute.delete_clear_all u w).2
  end.

(** The event types [createTaskNotification] has a template for. *)
Definition task_event_types : list string :=
  ["task_assigned"; "task_updated"; "task_completed"; "task_reassigned"].

(** The project reference of a task in memory is an id, a populated
    document or null, as [findById] and [populate] leave it. *)
Definition project_ref_ok (t : Task) : Prop :=
  match t_project_id t with
  | RStr _ => False
  | _ => True
  end.


(** A computation keeps a relation between the store it starts from and
    the store it ends in, whatever it returns or raises. *)
Definition preserves (R : world -> world -> Prop) {A} (m : M A) : Prop :=
  forall w, R w (m w).2.

(** The relations that every computation keeps unless it writes: a
    preorder that the use of a store access and a line on the console
    respect. *)
Class Frame (R : world -> world -> Prop) : Prop := {
  frame_refl : forall w, R w w;
  frame_trans : forall w1 w2 w3, R w1 w2 -> R w2 w3 -> R w1 w3;
  frame_faults : forall b fs w, faults w = b :: fs -> R w (set_faults fs w);
  frame_console : forall line w, R w (add_console line w);
}.

(** Nothing was written to the audit trail, or to the notifications. *)
Definition same_audit (w w' : world) : Prop :=
  activitylogs w' = activitylogs w.

Definition same_notifications (w w' : world) : Prop :=
  notifications w' = notifications w.

(** Users, projects and the clock are as before, and so is every task
    other than the one the request names. *)
Definition touches_task (taskId : string) (w w' : world) : Prop :=
  users w' = users w /\ projects w' = projects w /\ clock w' = clock w
  /\ forall j, oid_of_string taskId <> Some j -> tasks w' !! j = tasks w !! j.

(** Users, projects, clock and all the tasks there were are as before. *)
Definition keeps_tasks (w w' : world) : Prop :=
  users w' = users w /\ projects w' = projects w /\ clock w' = clock w
  /\ tasks w ⊆ tasks w'.

(** All but the notifications (and the console) is as before, and a
    healthy store stays healthy; likewise for the audit trail. *)
Definition only_notifies (w w' : world) : Prop :=
  users w' = users w /\ projects w' = projects w /\ tasks w' = tasks w
  /\ activitylogs w' = activitylogs w /\ clock w' = clock w
  /\ (faults w = [] -> faults w' = []).

Definition only_logs (w w' : world) : Prop :=
  users w' = users w /\ projects w' = projects w /\ tasks w' = tasks w
  /\ notifications w' = notifications w /\ clock w' = clock w
  /\ (faults w = [] -> faults w' = []).

(** ** A small organisation, for the examples

    A manager, the assignee A, the creator C, a commenter X and a further
    member U; one task of C's, assigned to A, on which A, C and X have
    commented. *)
Module Example.

Definition boss : ObjectId := 1%N.
Definition userA : ObjectId := 2%N.
Definition userC : ObjectId := 3%N.
Definition userX : ObjectId := 4%N.
Definition userU : ObjectId := 5%N.
Definition taskT : ObjectId := 16%N.

Definition member (name : string) : User :=
  mkUser name (name +:+ "@example.com") None "member".

Definition people : gmap ObjectId User :=
  <[boss := mkUser "Bo" "bo@example.com" None "manager"]>
    (<[userA := member "Ann"]>
       (<[userC := member "Cy"]>
          (<[userX := member "Xi"]> (<[userU := member "Uma"]> ∅)))).

Definition task (status : string) (completedAt : option Z) : Task :=
  mkTask "Ship the release" "Tag and publish" (ROid userA) RNull status
    "medium" (Some 2000000%Z) (ROid userC) completedAt
    [mkComment 0%N (ROid userA) "on it" 100%Z;
     mkComment 1%N (ROid userC) "thanks" 200%Z;
     mkComment 2%N (ROid userX) "need help?" 300%Z]
    50%Z 300%Z.

(** The store with the task in the given state, at time 1000. *)
Definition store (status : string) (completedAt : option Z) : world :=
  mkWorld people ∅ (<[taskT := task status completedAt]> ∅) ∅ ∅ 1000%Z [] [].

Definition request : Request :=
  mkRequest (Some "127.0.0.1") None (Some "curl/8").

(** The id of the task as it appears in the URL. *)
Definition taskT_param : string := "000000000000000000000010".

(** A body that only renames the task. *)
Definition rename : TaskModel.Updates :=
  TaskModel.mkUpdates (Some "Ship the release today") None None None None
    None None None.


(** The recipients and types of the notifications of a store. *)
Definition notices (w : world) : list (ObjectId * string) :=
  (fun kv => (n_recipient kv.2, n_type kv.2)) <$> map_to_list (notifications w).

(** Notifications and audit entries for the examples of the read side:
    three notifications for A (one of them read), one for C; four audit
    entries, three of A's. *)
Definition notice (recipient sender : ObjectId) (isRead : bool)
    (createdAt : Z) : Notification :=
  mkNotification recipient sender "task_updated" "Task Updated"
    "Task updated" (Some taskT) None isRead
    (if isRead then Some (createdAt + 1)%Z else None) createdAt createdAt.

Definition entry (user : ObjectId) (action : string) (createdAt : Z)
    : ActivityLog :=
  mkActivityLog user action "Updated task" (Some "task") (Some taskT)
    (Some "Ship the release") None None None [] None None createdAt createdAt.

Definition office : world :=
  mkWorld people ∅ (<[taskT := task "todo" None]> ∅)
    (<[20%N := notice userA userC false 100%Z]>
       (<[21%N := notice userA userC true 200%Z]>
          (<[22%N := notice userC userA false 300%Z]>
             (<[23%N := notice userA userX false 400%Z]> ∅))))
    (<[30%N := entry userA "task_updated" 100%Z]>
       (<[31%N := entry userC "task_updated" 200%Z]>
          (<[32%N := entry userA "task_completed" 300%Z]>
             (<[33%N := entry userA "task_updated" 400%Z]> ∅))))
    1000%Z [] [].

(** A task of C's that the manager has assigned to themselves. *)
Definition taskB : ObjectId := 17%N.

Definition taskB_param : string := "000000000000000000000011".

Definition own_task : Task :=
  mkTask "Plan the sprint" "Agenda and estimates" (ROid boss) RNull
    "in-progress" "medium" (Some 2000000%Z) (ROid userC) None [] 50%Z 300%Z.

Definition managed : world :=
  mkWorld people ∅ (<[taskB := own_task]> ∅) ∅ ∅ 1000%Z [] [].

(** Recipient, sender and type of the notifications of a store. *)
Definition sent (w : world) : list (ObjectId * ObjectId * string) :=
  (fun kv => (n_recipient kv.2, n_sender kv.2, n_type kv.2))
    <$> map_to_list (notifications w).

End Example.

(** * Properties *)

(** ** The text of an ObjectId *)

Lemma hex_digit_inj (a b : N) :
  (a < 16)%N -> (b < 16)%N -> hex_digit a = hex_digit b -> a = b.
Proof.
  intros Ha Hb.
  assert (Hcases : forall d, (d < 16)%N ->
            d = 0%N \/ d = 1%N \/ d = 2%N \/ d = 3%N \/ d = 4%N \/ d = 5%N
            \/ d = 6%N \/ d = 7%N \/ d = 8%N \/ d = 9%N \/ d = 10%N
            \/ d = 11%N \/ d = 12%N \/ d = 13%N \/ d = 14%N \/ d = 15%N) by lia.
  destruct (Hcases a Ha) as [->|[->|[->|[->|[->|[->|[->|[->|[->|[->|[->|[->|[->|[->|[->| ->]]]]]]]]]]]]]]];
  destruct (Hcases b Hb) as [->|[->|[->|[->|[->|[->|[->|[->|[->|[->|[->|[->|[->|[->|[->| ->]]]]]]]]]]]]]]];
  simpl; intros H; try reflexivity; discriminate H.
Qed.

Lemma hex_digits_inj (n : nat) (a b : N) :
  (a < 16 ^ N.of_nat n)%N -> (b < 16 ^ N.of_nat n)%N ->
  hex_digits n a = hex_digits n b -> a = b.
Proof.
  revert a b. induction n as [|n IH]; intros a b Ha Hb H.
  - simpl in Ha, Hb. lia.
  - rewrite Nat2N.inj_succ, N.pow_succ_r' in Ha, Hb.
    simpl in H. apply app_inj_tail in H as [Hhi Hlo].
    assert (Hd : (a mod 16 = b mod 16)%N).
    { apply hex_digit_inj; [apply N.mod_lt; lia .. | exact Hlo]. }
    assert (Hq : (a / 16 = b / 16)%N).
    { apply IH; [apply N.Div0.div_lt_upper_bound; lia .. | exact Hhi]. }
    rewrite (N.div_mod a 16), (N.div_mod b 16) by lia. congruence.
Qed.

Lemma toHexString_inj (a b : ObjectId) :
  oid_ok a -> oid_ok b -> toHexString a = toHexString b -> a = b.
Proof.
  unfold oid_ok, toHexString. intros Ha Hb H.
  apply (hex_digits_inj 24); [exact Ha | exact Hb |].
  rewrite <- (list_ascii_of_string_of_list_ascii (hex_digits 24 a)),
          <- (list_ascii_of_string_of_list_ascii (hex_digits 24 b)).
  now rewrite H.
Qed.

Lemma toHexString_eqb (a b : ObjectId) :
  oid_ok a -> oid_ok b -> a <> b ->
  String.eqb (toHexString a) (toHexString b) = false.
Proof.
  intros Ha Hb Hne. apply String.eqb_neq. intros H.
  apply Hne, toHexString_inj; assumption.
Qed.

(** ** The handler monad: rules of [wp] *)


Lemma wp_mono {A} (m : M A) (w : world) (Q Q' : result A -> world -> Prop) :
  wp m w Q -> (forall r w', Q r w' -> Q' r w') -> wp m w Q'.
Proof. unfold wp. auto. Qed.

Lemma wp_ret {A} (a : A) (w : world) (Q : result A -> world -> Prop) :
  Q (Ok a) w -> wp (ret a) w Q.
Proof. exact (fun H => H). Qed.

Lemma wp_throw {A} (e : exn) (w : world) (Q : result A -> world -> Prop) :
  Q (Throw e) w -> wp (throw e) w Q.
Proof. exact (fun H => H). Qed.

Lemma wp_bind {A B} (m : M A) (k : A -> M B) (w : world)
    (Q : result B -> world -> Prop) :
  wp m w (fun r w' =>
            match r with
            | Ok a => wp (k a) w' Q
            | Throw e => Q (Throw e) w'
            end) ->
  wp (bind m k) w Q.
Proof. unfold wp, bind. now destruct (m w) as [[a|e] w']. Qed.

Lemma wp_try_catch {A} (m : M A) (h : exn -> M A) (w : world)
    (Q : result A -> world -> Prop) :
  wp m w (fun r w' =>
            match r with
            | Ok a => Q (Ok a) w'
            | Throw e => wp (h e) w' Q
            end) ->
  wp (try_catch m h) w Q.
Proof. unfold wp, try_catch. now destruct (m w) as [[a|e] w']. Qed.

Lemma wp_get (w : world) (Q : result world -> world -> Prop) :
  Q (Ok w) w -> wp get w Q.
Proof. exact (fun H => H). Qed.

Lemma wp_now (w : world) (Q : result Z -> world -> Prop) :
  Q (Ok (clock w)) w -> wp now w Q.
Proof. exact (fun H => H). Qed.

Lemma wp_modify (f : world -> world) (w : world)
    (Q : result unit -> world -> Prop) :
  Q (Ok tt) (f w) -> wp (modify f) w Q.
Proof. exact (fun H => H). Qed.

Lemma wp_console_error (line : string) (w : world)
    (Q : result unit -> world -> Prop) :
  Q (Ok tt) (add_console line w) -> wp (console_error line) w Q.
Proof. exact (fun H => H). Qed.

Lemma wp_orThrow {A} (e : exn) (o : option A) (w : world)
    (Q : result A -> world -> Prop) :
  match o with
  | Some a => Q (Ok a) w
  | None => Q (Throw e) w
  end ->
  wp (orThrow e o) w Q.
Proof. now destruct o. Qed.

(** A store access: it succeeds or fails as the schedule says, and uses up
    one entry of it. *)
Lemma wp_db (w : world) (Q : result unit -> world -> Prop) :
  (faults w = [] -> Q (Ok tt) w) ->
  (forall fs, faults w = false :: fs -> Q (Ok tt) (set_faults fs w)) ->
  (forall fs, faults w = true :: fs -> Q (Throw MongoError) (set_faults fs w)) ->
  wp db w Q.
Proof.
  unfold wp, db. intros H0 H1 H2.
  destruct (faults w) as [|[|] fs]; cbn; auto.
Qed.

Lemma wp_db_healthy (w : world) (Q : result unit -> world -> Prop) :
  faults w = [] -> Q (Ok tt) w -> wp db w Q.
Proof. unfold wp, db. now intros ->. Qed.

(** One step of symbolic execution. *)
Ltac wp_step :=
  lazymatch goal with
  | |- wp (bind _ _) _ _ => apply wp_bind
  | |- wp (try_catch _ _) _ _ => apply wp_try_catch
  | |- wp (ret _) _ _ => apply wp_ret
  | |- wp (throw _) _ _ => apply wp_throw
  | |- wp (reply _ _) _ _ => apply wp_ret
  | |- wp (reply_with _ _ _) _ _ => apply wp_ret
  | |- wp get _ _ => apply wp_get
  | |- wp now _ _ => apply wp_now
  | |- wp (modify _) _ _ => apply wp_modify
  | |- wp (console_error _) _ _ => apply wp_console_error
  | |- wp (toString ?r) _ _ => unfold toString
  | |- wp (orThrow _ ?o) _ _ => apply wp_orThrow; destruct o eqn:?
  | |- wp db _ _ => apply wp_db; [intros ? | intros ? ? | intros ? ?]
  | |- wp (if ?b then _ else _) _ _ => destruct b eqn:?
  | |- wp (match ?x with _ => _ end) _ _ => destruct x eqn:?
  end; cbv beta iota.

Ltac wp_run := repeat wp_step.

Lemma wp_elim {A} (m : M A) (w : world) (Q : result A -> world -> Prop) :
  wp m w Q -> exists r w', m w = (r, w') /\ Q r w'.
Proof. unfold wp. destruct (m w) as [r w']. eauto. Qed.

Lemma fresh_lookup {A} (m : gmap ObjectId A) : m !! fresh (dom m) = None.
Proof. apply not_elem_of_dom, is_fresh. Qed.

Ltac unfold_store :=
  cbn [users projects tasks notifications activitylogs clock faults console
       set_tasks set_notifications set_activitylogs set_faults add_console
       set_clock fst snd].

(** ** Best-effort side effects *)

(** [best_effort] as a postcondition. *)
Lemma best_effort_intro {A} (coll : world -> gmap ObjectId A)
    (m : M (option (Stored A))) :
  (forall w,
     wp m w (fun res w' =>
       exists v, res = Ok v /\ tasks w' = tasks w
         /\ match v with
            | None => coll w' = coll w
            | Some doc => coll w !! doc.1 = None
                          /\ coll w' = <[doc.1 := doc.2]> (coll w)
            end
         /\ (forall fs, faults w = true :: fs -> v = None))) ->
  best_effort coll m.
Proof.
  intros H w. destruct (wp_elim _ _ _ (H w)) as (res & w' & E & v & -> & H').
  eauto.
Qed.

Ltac faults_clash :=
  match goal with
  | H : faults ?w = _, H' : faults ?w = _ |- _ =>
      rewrite H in H'; discriminate H'
  end.

Ltac best_effort_leaf :=
  unfold_store; eexists; split; [reflexivity|];
  unfold_store; repeat split; auto using fresh_lookup;
  intros; try reflexivity; faults_clash.

Lemma createTaskNotification_best_effort (r s : Ref) (task : Stored Task)
    (type : string) :
  best_effort notifications (notifications.createTaskNotification r s task type).
Proof.
  apply best_effort_intro. intros w.
  unfold notifications.createTaskNotification,
    NotificationModel.createNotification.
  wp_run; best_effort_leaf.
Qed.

Lemma createCommentNotification_best_effort (r s : Ref) (task : Stored Task)
    (text : string) :
  best_effort notifications
    (notifications.createCommentNotification r s task text).
Proof.
  apply best_effort_intro. intros w.
  unfold notifications.createCommentNotification,
    NotificationModel.createNotification.
  wp_run; best_effort_leaf.
Qed.

Lemma logActivity_best_effort (d : ActivityLogModel.Data) :
  best_effort activitylogs (ActivityLogModel.logActivity d).
Proof.
  apply best_effort_intro. intros w.
  unfold ActivityLogModel.logActivity.
  wp_run; best_effort_leaf.
Qed.

(** ** Read notifications carry the time they were read *)

Lemma validate_unread (d : NotificationModel.Data) (t : Z) (n : Notification) :
  NotificationModel.validate d t = Some n ->
  n_isRead n = false /\ n_readAt n = None.
Proof.
  unfold NotificationModel.validate. intros H.
  destruct (castRequired (NotificationModel.recipient d)); cbn in H; [|discriminate].
  destruct (castRequired (NotificationModel.sender d)); cbn in H; [|discriminate].
  destruct (castObjectId (NotificationModel.relatedTask d)); cbn in H; [|discriminate].
  destruct (castObjectId (NotificationModel.relatedProject d)); cbn in H; [|discriminate].
  match type of H with
  | (if ?b then _ else _) = _ => destruct b; [|discriminate]
  end.
  now injection H as <-.
Qed.

Lemma unread_read_inv (n : Notification) :
  n_isRead n = false -> n_readAt n = None -> read_inv n.
Proof. unfold read_inv. intros -> ->. split; [discriminate | congruence]. Qed.

Lemma read_at_read_inv (t : Z) (n : Notification) :
  read_inv (NotificationModel.read_at t n).
Proof. unfold read_inv. cbn. split; [discriminate | reflexivity]. Qed.

Lemma createNotification_read_inv (d : NotificationModel.Data) (w : world) :
  wp (NotificationModel.createNotification d) w
     (fun res w' =>
        (store_read_inv w -> store_read_inv w')
        /\ forall doc, res = Ok doc -> n_isRead doc.2 = false /\ n_readAt doc.2 = None).
Proof.
  unfold NotificationModel.createNotification, store_read_inv.
  wp_run; unfold_store; (split; [|try discriminate]); auto;
    match goal with
    | H : NotificationModel.validate _ _ = Some _ |- _ =>
        apply validate_unread in H as [H1 H2]
    end;
    try (intros Hinv; apply map_Forall_insert_2;
         [now apply unread_read_inv | exact Hinv]);
    now intros ? [= <-].
Qed.

Lemma createTaskNotification_read_inv (r s : Ref) (task : Stored Task)
    (type : string) (w : world) :
  wp (notifications.createTaskNotification r s task type) w
     (fun res w' =>
        (store_read_inv w -> store_read_inv w')
        /\ forall doc, res = Ok (Some doc) ->
             n_isRead doc.2 = false /\ n_readAt doc.2 = None).
Proof.
  unfold notifications.createTaskNotification.
  wp_run; try (split; [auto | discriminate]).
  - eapply wp_mono; [apply createNotification_read_inv|].
    intros [doc|e] w' [Hinv Hdoc]; cbv beta iota.
    + apply wp_ret. split; [exact Hinv | intros ? [= <-]; now apply Hdoc].
    + wp_run. unfold_store. split; [exact Hinv | discriminate].
Qed.

Lemma createCommentNotification_read_inv (r s : Ref) (task : Stored Task)
    (text : string) (w : world) :
  wp (notifications.createCommentNotification r s task text) w
     (fun res w' =>
        (store_read_inv w -> store_read_inv w')
        /\ forall doc, res = Ok (Some doc) ->
             n_isRead doc.2 = false /\ n_readAt doc.2 = None).
Proof.
  unfold notifications.createCommentNotification.
  wp_run; try (split; [auto | discriminate]).
  - eapply wp_mono; [apply createNotification_read_inv|].
    intros [doc|e] w' [Hinv Hdoc]; cbv beta iota.
    + apply wp_ret. split; [exact Hinv | intros ? [= <-]; now apply Hdoc].
    + wp_run. unfold_store. split; [exact Hinv | discriminate].
Qed.

Lemma markAsRead_read_inv (doc : Stored Notification) (w : world) :
  read_inv doc.2 ->
  wp (NotificationModel.markAsRead doc) w
     (fun res w' =>
        (store_read_inv w -> store_read_inv w')
        /\ forall doc', res = Ok doc' -> read_inv doc'.2).
Proof.
  intros Hdoc.
  unfold NotificationModel.markAsRead, NotificationModel.save, store_read_inv.
  wp_run; unfold_store; (split; [|try discriminate]); auto;
    try (intros Hinv; apply map_Forall_insert_2;
         [apply read_at_read_inv | exact Hinv]);
    intros ? [= <-]; cbn [fst snd]; auto using read_at_read_inv.
Qed.

Lemma markMultipleAsRead_read_inv (u : ObjectId) (ids : list string) (w : world) :
  wp (NotificationModel.markMultipleAsRead u ids) w
     (fun _ w' => store_read_inv w -> store_read_inv w').
Proof.
  unfold NotificationModel.markMultipleAsRead, store_read_inv.
  wp_run; unfold_store; auto;
    (intros Hinv i n; rewrite map_lookup_imap;
     destruct (notifications w !! i) as [n0|] eqn:Hi; [|discriminate];
     cbn; intros [= <-];
     destruct (NotificationModel.unread_of _ _ _ _);
     [apply read_at_read_inv | exact (Hinv i n0 Hi)]).
Qed.

(** ** A user's operations on notifications touch only that user's *)
Section Scoped.

Variable u : ObjectId.

Lemma others_insert (m : gmap ObjectId Notification) (i : ObjectId)
    (n n' : Notification) :
  m !! i = Some n -> n_recipient n = u -> n_recipient n' = u ->
  others u (<[i := n']> m) = others u m.
Proof.
  intros Hi Hn Hn'. unfold others. apply map_eq. intros j.
  apply option_eq. intros x.
  rewrite !map_lookup_filter_Some. simpl.
  destruct (decide (i = j)) as [->|Hne].
  - rewrite lookup_insert_eq, Hi. split; intros [[= <-] H]; congruence.
  - now rewrite lookup_insert_ne.
Qed.

Lemma others_delete (m : gmap ObjectId Notification) (i : ObjectId)
    (n : Notification) :
  m !! i = Some n -> n_recipient n = u -> others u (delete i m) = others u m.
Proof.
  intros Hi Hn. unfold others. apply map_eq. intros j.
  apply option_eq. intros x.
  rewrite !map_lookup_filter_Some. simpl.
  destruct (decide (i = j)) as [->|Hne].
  - rewrite lookup_delete_eq, Hi. split; [intros [[=] _] | intros [[= <-] H]; congruence].
  - now rewrite lookup_delete_ne.
Qed.

Lemma others_imap (m : gmap ObjectId Notification)
    (f : ObjectId -> Notification -> Notification) :
  (forall i n, n_recipient n <> u -> f i n = n) ->
  (forall i n, n_recipient n = u -> n_recipient (f i n) = u) ->
  others u (map_imap (fun i n => Some (f i n)) m) = others u m.
Proof.
  intros Hother Hmine. unfold others. apply map_eq. intros j.
  apply option_eq. intros x.
  rewrite !map_lookup_filter_Some, map_lookup_imap. simpl.
  destruct (m !! j) as [n|] eqn:Hj; simpl.
  - destruct (decide (n_recipient n = u)) as [Hu|Hu].
    + split; intros [[= <-] H]; [exfalso; apply H, Hmine, Hu | congruence].
    + rewrite (Hother j n Hu). tauto.
  - split; intros [[=] _].
Qed.

Lemma others_filter (m : gmap ObjectId Notification)
    (keep : ObjectId * Notification -> Prop) `{!forall kv, Decision (keep kv)} :
  (forall kv, n_recipient kv.2 <> u -> keep kv) ->
  others u (filter keep m) = others u m.
Proof.
  intros Hkeep. unfold others. apply map_eq. intros j.
  apply option_eq. intros x.
  rewrite !map_lookup_filter_Some. simpl.
  split; [tauto | intros [H1 H2]; repeat split; auto].
Qed.

Lemma found_mine (m : gmap ObjectId Notification) (i : ObjectId)
    (doc : Stored Notification) :
  match m !! i with
  | Some n => if N.eqb (n_recipient n) u then Some (i, n) else None
  | None => None
  end = Some doc ->
  m !! doc.1 = Some doc.2 /\ n_recipient doc.2 = u.
Proof.
  destruct (m !! i) as [n|] eqn:Hi; [|discriminate].
  destruct (N.eqb (n_recipient n) u) eqn:Hu; [|discriminate].
  intros [= <-]. split; [exact Hi | now apply N.eqb_eq].
Qed.

Lemma patch_read_scoped (id : string) (w : world) :
  wp (NotificationsRoute.patch_read u id) w (fun _ w' => keeps_others u w w').
Proof.
  unfold NotificationsRoute.patch_read, NotificationModel.findOne,
    NotificationModel.markAsRead, NotificationModel.save.
  wp_run; unfold keeps_others; unfold_store; try reflexivity;
    match goal with
    | H : _ = Some ?p |- others u (<[_ := _]> _) = _ =>
        apply found_mine in H as [Hin Hmine];
        cbn [notifications set_faults] in Hin;
        now apply (others_insert _ _ p.2)
    end.
Qed.

Lemma patch_mark_all_read_scoped (ids : option (list string)) (w : world) :
  wp (NotificationsRoute.patch_mark_all_read u ids) w
     (fun _ w' => keeps_others u w w').
Proof.
  unfold NotificationsRoute.patch_mark_all_read,
    NotificationModel.markMultipleAsRead.
  wp_run; unfold keeps_others; unfold_store; try reflexivity;
    (apply others_imap; intros i n Hn; unfold NotificationModel.unread_of;
     [ apply N.eqb_neq in Hn; now rewrite Hn
     | now destruct (_ && _)%bool ]).
Qed.

Lemma delete_id_scoped (id : string) (w : world) :
  wp (NotificationsRoute.delete_id u id) w (fun _ w' => keeps_others u w w').
Proof.
  unfold NotificationsRoute.delete_id, NotificationModel.findOneAndDelete.
  wp_run; unfold keeps_others; unfold_store; try reflexivity;
    match goal with
    | Hin : _ !! _ = Some ?n, Hu : N.eqb _ u = true |- _ =>
        apply N.eqb_eq in Hu; cbn [notifications set_faults] in Hin;
        now apply (others_delete _ _ n)
    end.
Qed.

Lemma delete_clear_all_scoped (w : world) :
  wp (NotificationsRoute.delete_clear_all u) w (fun _ w' => keeps_others u w w').
Proof.
  unfold NotificationsRoute.delete_clear_all, NotificationModel.deleteManyRead.
  wp_run; unfold keeps_others; unfold_store; try reflexivity;
    (apply others_filter; intros kv Hkv; unfold NotificationModel.read_of;
     apply N.eqb_neq in Hkv; now rewrite Hkv).
Qed.

End Scoped.

(** ** Runs against a healthy store *)

Lemma wp_equation {A} (m : M A) (w w' : world) (r : result A) :
  wp m w (fun r0 w0 => r0 = r /\ w0 = w') -> m w = (r, w').
Proof. unfold wp. destruct (m w) as [r0 w0]. cbn. now intros [-> ->]. Qed.

(** Symbolic execution that follows the hypotheses where they decide a
    branch. *)
Ltac use_known :=
  repeat match goal with
         | H : ?l = _ |- context [?l] => rewrite H
         end;
  rewrite ?N.eqb_refl; cbn [negb andb orb fst snd]; cbv beta iota.

Ltac wp_known :=
  unfold_store; use_known;
  lazymatch goal with
  | |- wp (bind _ _) _ _ => apply wp_bind
  | |- wp (try_catch _ _) _ _ => apply wp_try_catch
  | |- wp (ret _) _ _ => apply wp_ret
  | |- wp (throw _) _ _ => apply wp_throw
  | |- wp (reply _ _) _ _ => apply wp_ret
  | |- wp (reply_with _ _ _) _ _ => apply wp_ret
  | |- wp get _ _ => apply wp_get
  | |- wp now _ _ => apply wp_now
  | |- wp (modify _) _ _ => apply wp_modify
  | |- wp (console_error _) _ _ => apply wp_console_error
  | |- wp (toString ?r) _ _ => unfold toString
  | |- wp (orThrow _ (Some _)) _ _ => apply wp_orThrow
  | |- wp (orThrow _ None) _ _ => apply wp_orThrow
  | |- wp (orThrow _ ?o) _ _ => apply wp_orThrow; destruct o eqn:?
  | |- wp db _ _ =>
      first [ apply wp_db_healthy; [unfold_store; assumption |]
            | apply wp_db; [intros ? | intros ? ? | intros ? ?] ]
  | |- wp (if ?b then _ else _) _ _ => destruct b eqn:?
  | |- wp (match ?x with _ => _ end) _ _ => destruct x eqn:?
  end; cbv beta iota.

Ltac wp_follow := repeat wp_known.



Lemma size_filter_split {A} (P : ObjectId * A -> Prop) (Q : ObjectId * A -> Prop)
    `{!forall kv, Decision (P kv)} `{!forall kv, Decision (Q kv)}
    (m : gmap ObjectId A) :
  (forall kv, Q kv <-> ~ P kv) ->
  size m = (size (filter P m) + size (filter Q m))%nat.
Proof.
  intros HPQ.
  rewrite <- (map_filter_union_complement P m) at 1.
  rewrite map_size_disj_union by apply map_disjoint_filter_complement.
  f_equal. f_equal. apply map_filter_ext. intros i x _. symmetry. apply (HPQ (i, x)).
Qed.

Lemma markAsRead_unread (doc : Stored Notification) (w : world) :
  faults w = [] -> n_isRead doc.2 = false ->
  NotificationModel.markAsRead doc w
  = (Ok (doc.1, NotificationModel.read_at (clock w) doc.2),
     set_notifications
       (insert doc.1 (NotificationModel.read_at (clock w) doc.2)) w).
Proof.
  intros Hw Hdoc. apply wp_equation.
  unfold NotificationModel.markAsRead, NotificationModel.save.
  rewrite Hdoc. cbn [negb]. wp_follow. now split.
Qed.

Lemma markAsRead_read (doc : Stored Notification) (w : world) :
  n_isRead doc.2 = true -> NotificationModel.markAsRead doc w = (Ok doc, w).
Proof.
  intros Hdoc. unfold NotificationModel.markAsRead. now rewrite Hdoc.
Qed.

Lemma patch_read_unread (user : ObjectId) (id : string) (i : ObjectId)
    (n : Notification) (w : world) :
  faults w = [] -> oid_of_string id = Some i ->
  notifications w !! i = Some n -> n_recipient n = user ->
  n_isRead n = false ->
  NotificationsRoute.patch_read user id w
  = (Ok (mkResponse 200 "Notification marked as read"
           (Some (i, NotificationModel.read_at (clock w) n))),
     set_notifications (insert i (NotificationModel.read_at (clock w) n)) w).
Proof.
  intros Hw Hid Hi Hn Hread. apply wp_equation.
  unfold NotificationsRoute.patch_read, NotificationModel.findOne,
    NotificationModel.markAsRead, NotificationModel.save.
  wp_follow. now split.
Qed.

Lemma patch_read_already (user : ObjectId) (id : string) (i : ObjectId)
    (n : Notification) (w : world) :
  faults w = [] -> oid_of_string id = Some i ->
  notifications w !! i = Some n -> n_recipient n = user ->
  n_isRead n = true ->
  NotificationsRoute.patch_read user id w
  = (Ok (mkResponse 200 "Notification marked as read" (Some (i, n))), w).
Proof.
  intros Hw Hid Hi Hn Hread. apply wp_equation.
  unfold NotificationsRoute.patch_read, NotificationModel.findOne,
    NotificationModel.markAsRead, NotificationModel.save.
  wp_follow. now split.
Qed.

(** ** Notification creation *)

Lemma names_toString (r : Ref) (u : ObjectId) :
  names r u -> toStringOpt r = Some (toHexString u).
Proof. now intros [-> | ->]. Qed.

Lemma createTaskNotification_self (u : ObjectId) (r s : Ref)
    (task : Stored Task) (type : string) (w : world) :
  names r u -> names s u ->
  notifications.createTaskNotification r s task type w = (Ok None, w).
Proof.
  intros Hr%names_toString Hs%names_toString.
  unfold notifications.createTaskNotification, try_catch, bind, toString.
  rewrite Hr, Hs. cbn [orThrow ret]. now rewrite String.eqb_refl.
Qed.

Lemma createCommentNotification_self (u : ObjectId) (r s : Ref)
    (task : Stored Task) (text : string) (w : world) :
  names r u -> names s u ->
  notifications.createCommentNotification r s task text w = (Ok None, w).
Proof.
  intros Hr%names_toString Hs%names_toString.
  unfold notifications.createCommentNotification, try_catch, bind, toString.
  rewrite Hr, Hs. cbn [orThrow ret]. now rewrite String.eqb_refl.
Qed.

Lemma template_generic (type title : string) :
  in_enum task_event_types type = false ->
  notifications.template type title
  = ("Task Notification",
     "Task " +:+ notifications.quoted title +:+ " has been updated").
Proof.
  unfold in_enum, task_event_types, notifications.template. cbn [existsb].
  intros H. repeat (apply orb_false_elim in H as [? H]).
  now repeat match goal with
             | E : String.eqb _ _ = false |- _ => rewrite E; clear E
             end.
Qed.

Lemma cast_project_ok (t : Task) :
  project_ref_ok t ->
  exists p, castObjectId (notifications.or_null (t_project_id t)) = Some p.
Proof.
  unfold project_ref_ok, notifications.or_null.
  destruct (t_project_id t); cbn; intros H; try contradiction; eauto.
Qed.

(** A notification whose recipient and sender are distinct ids, whose type
    the schema knows and whose texts are not empty is written to a healthy
    store. *)
Lemma createNotification_healthy (ri si : ObjectId) (type title message : string)
    (rt : ObjectId) (project : Ref) (p : option ObjectId) (w : world) :
  faults w = [] ->
  in_enum NotificationModel.types type = true ->
  truthy_str title = true -> truthy_str message = true ->
  castObjectId project = Some p ->
  let n := mkNotification ri si type title message (Some rt) p false None
             (clock w) (clock w) in
  let id := fresh (dom (notifications w)) in
  NotificationModel.createNotification
    (NotificationModel.mkData (ROid ri) (ROid si) type title message
       (ROid rt) project) w
  = (Ok (id, n), set_notifications (insert id n) w).
Proof.
  intros Hw Htype Htitle Hmsg Hp n id. apply wp_equation.
  unfold NotificationModel.createNotification, NotificationModel.validate.
  cbn [NotificationModel.recipient NotificationModel.sender
       NotificationModel.type NotificationModel.title
       NotificationModel.message NotificationModel.relatedTask
       NotificationModel.relatedProject castRequired castObjectId
       mbind option_bind].
  rewrite Hp, Htype, Htitle, Hmsg. cbn [mbind option_bind andb].
  wp_follow. now split.
Qed.

Lemma validate_type (d : NotificationModel.Data) (t : Z) (n : Notification) :
  NotificationModel.validate d t = Some n ->
  in_enum NotificationModel.types (NotificationModel.type d) = true.
Proof.
  unfold NotificationModel.validate. intros H.
  destruct (castRequired (NotificationModel.recipient d));
    cbn [mbind option_bind] in H; [|discriminate].
  destruct (castRequired (NotificationModel.sender d));
    cbn [mbind option_bind] in H; [|discriminate].
  destruct (castObjectId (NotificationModel.relatedTask d));
    cbn [mbind option_bind] in H; [|discriminate].
  destruct (castObjectId (NotificationModel.relatedProject d));
    cbn [mbind option_bind] in H; [|discriminate].
  destruct (in_enum NotificationModel.types (NotificationModel.type d));
    [reflexivity | discriminate].
Qed.

(** A type the schema does not list: nothing is written, whoever the
    recipient and the sender are. *)
Lemma createTaskNotification_rejected (r s : Ref) (task : Stored Task)
    (type : string) (w : world) :
  in_enum NotificationModel.types type = false ->
  exists w', notifications.createTaskNotification r s task type w = (Ok None, w')
             /\ notifications w' = notifications w.
Proof.
  intros Htype.
  enough (H : wp (notifications.createTaskNotification r s task type) w
                (fun res w' => res = Ok None /\ notifications w' = notifications w)).
  { apply wp_elim in H as (res & w' & E & -> & H). eauto. }
  unfold notifications.createTaskNotification,
    NotificationModel.createNotification.
  wp_run; unfold_store; try (split; reflexivity);
    match goal with
    | H : NotificationModel.validate _ _ = Some _ |- _ =>
        apply validate_type in H; cbn [NotificationModel.type] in H;
        rewrite Htype in H; discriminate H
    end.
Qed.

Lemma truthy_generic_message (title : string) :
  truthy_str ("Task " +:+ notifications.quoted title +:+ " has been updated")
  = true.
Proof. reflexivity. Qed.

(** A type outside the templates that the schema lists: one record, with
    the generic title. *)
Lemma createTaskNotification_generic (ri si : ObjectId) (task : Stored Task)
    (type : string) (w : world) :
  faults w = [] -> oid_ok ri -> oid_ok si -> ri <> si ->
  project_ref_ok task.2 ->
  in_enum task_event_types type = false ->
  in_enum NotificationModel.types type = true ->
  exists p,
    let n := mkNotification ri si type "Task Notification"
               ("Task " +:+ notifications.quoted (t_title task.2)
                +:+ " has been updated")
               (Some task.1) p false None (clock w) (clock w) in
    let id := fresh (dom (notifications w)) in
    notifications.createTaskNotification (ROid ri) (ROid si) task type w
    = (Ok (Some (id, n)), set_notifications (insert id n) w).
Proof.
  intros Hw Hri Hsi Hne Hproj Hgeneric Htype.
  destruct (cast_project_ok _ Hproj) as [p Hp]. exists p. intros n id.
  unfold notifications.createTaskNotification, try_catch, bind, toString.
  cbn [toStringOpt orThrow ret].
  rewrite (toHexString_eqb _ _ Hri Hsi Hne), (template_generic _ _ Hgeneric).
  cbn [fst snd].
  rewrite (createNotification_healthy ri si type "Task Notification" _ task.1
             _ p w Hw Htype eq_refl (truthy_generic_message _) Hp).
  reflexivity.
Qed.

(** ** Completion notifications *)

Lemma wp_eq {A} (m : M A) (w w' : world) (r : result A)
    (Q : result A -> world -> Prop) :
  m w = (r, w') -> Q r w' -> wp m w Q.
Proof. unfold wp. now intros ->. Qed.

Lemma findById_healthy (id : string) (i : ObjectId) (w : world) :
  faults w = [] -> oid_of_string id = Some i ->
  TaskModel.findById id w = (Ok (pair i <$> tasks w !! i), w).
Proof.
  intros Hw Hid. apply wp_equation. unfold TaskModel.findById.
  wp_follow. now split.
Qed.

Lemma findByIdAndUpdate_healthy (id : string) (i : ObjectId)
    (u : TaskModel.Updates) (a p : option ObjectId) (t : Task) (w : world) :
  faults w = [] -> oid_of_string id = Some i ->
  TaskModel.cast_opt (TaskModel.assignee_id u) = Some a ->
  TaskModel.cast_opt (TaskModel.project_id u) = Some p ->
  TaskModel.valid_updates u = true ->
  tasks w !! i = Some t ->
  let t' := TaskModel.apply_updates u a p (clock w) t in
  TaskModel.findByIdAndUpdate id u w
  = (Ok (Some (i, t')), set_tasks (insert i t') w).
Proof.
  intros Hw Hid Ha Hp Hv Ht t'. apply wp_equation.
  unfold TaskModel.findByIdAndUpdate.
  wp_follow. now split.
Qed.

Lemma populateRefs_healthy (sa sp sc : list string) (doc : Stored Task)
    (w : world) :
  faults w = [] ->
  exists t',
    TaskModel.populateRefs sa sp sc doc w = (Ok (doc.1, t'), w)
    /\ t_title t' = t_title doc.2 /\ t_status t' = t_status doc.2
    /\ t_project_id t' = populate_project sp w (t_project_id doc.2)
    /\ t_assignee_id t' = populate_user sa w (t_assignee_id doc.2).
Proof.
  intros Hw. eexists. split.
  - apply wp_equation. unfold TaskModel.populateRefs. wp_follow.
    split; reflexivity.
  - repeat split.
Qed.




Ltac wp_by E :=
  apply wp_bind; eapply wp_eq; [E|]; cbv beta iota.


Lemma check_ref_healthy {A} (coll : world -> gmap ObjectId A)
    (o : option string) (w : world) :
  faults w = [] ->
  exists r, check_ref coll o w = (r, w)
            /\ (r = Ok true \/ r = Ok false \/ r = Throw CastError).
Proof.
  intros Hw. unfold check_ref.
  destruct o as [s|]; [|eexists; split; [reflexivity | auto]].
  destruct (truthy_str s); [|eexists; split; [reflexivity | auto]].
  destruct (oid_of_string s) as [i|] eqn:Hs.
  - destruct (coll w !! i) eqn:Hi; eexists;
      (split; [apply wp_equation; unfold exists_by_id; wp_follow;
               split; reflexivity | auto]).
  - eexists. split; [|auto].
    apply wp_equation. unfold exists_by_id. wp_follow. split; reflexivity.
Qed.

Lemma completes_true (status : option string) (existing : string) :
  TasksRoute.completes status existing = true ->
  status = Some "completed" /\ String.eqb existing "completed" = false.
Proof.
  unfold TasksRoute.completes. destruct status as [s|]; [|discriminate].
  intros [H1 H2]%andb_prop. apply String.eqb_eq in H1 as ->.
  split; [reflexivity | now apply negb_true_iff].
Qed.

Lemma findByIdAndUpdate_cases (id : string) (i : ObjectId)
    (u : TaskModel.Updates) (t : Task) (w : world) :
  faults w = [] -> oid_of_string id = Some i -> tasks w !! i = Some t ->
  (exists a p,
     TaskModel.findByIdAndUpdate id u w
     = (Ok (Some (i, TaskModel.apply_updates u a p (clock w) t)),
        set_tasks (insert i (TaskModel.apply_updates u a p (clock w) t)) w))
  \/ (exists e, TaskModel.findByIdAndUpdate id u w = (Throw e, w)
                /\ (e = CastError \/ e = ValidationError)).
Proof.
  intros Hw Hid Ht.
  destruct (TaskModel.cast_opt (TaskModel.assignee_id u)) as [a|] eqn:Ha;
    [destruct (TaskModel.cast_opt (TaskModel.project_id u)) as [p|] eqn:Hp;
     [destruct (TaskModel.valid_updates u) eqn:Hv|]|].
  - left. exists a, p. now apply findByIdAndUpdate_healthy.
  - right. exists ValidationError. split; [|auto].
    unfold TaskModel.findByIdAndUpdate, bind, now, orThrow.
    now rewrite Hid, Ha, Hp, Hv.
  - right. exists CastError. split; [|auto].
    unfold TaskModel.findByIdAndUpdate, bind, now, orThrow.
    now rewrite Hid, Ha, Hp.
  - right. exists CastError. split; [|auto].
    unfold TaskModel.findByIdAndUpdate, bind, now, orThrow.
    now rewrite Hid, Ha.
Qed.

(** Activity logging returns and leaves tasks and notifications alone. *)
Lemma logActivity_frame (d : ActivityLogModel.Data) (w : world)
    (Q : result (option (Stored ActivityLog)) -> world -> Prop) :
  (forall v w', notifications w' = notifications w -> tasks w' = tasks w ->
                Q (Ok v) w') ->
  wp (ActivityLogModel.logActivity d) w Q.
Proof.
  intros HQ. unfold ActivityLogModel.logActivity.
  wp_run; apply HQ; reflexivity.
Qed.

Lemma log_update_frame (user : ObjectId) (req : Request)
    (updates : TaskModel.Updates) (existingTask updatedTask : Stored Task)
    (w : world) (Q : result unit -> world -> Prop) :
  (forall w', notifications w' = notifications w -> tasks w' = tasks w ->
              Q (Ok tt) w') ->
  wp (TasksRoute.log_update user req updates existingTask updatedTask) w Q.
Proof.
  intros HQ. unfold TasksRoute.log_update, activityLogger.logTaskActivity.
  repeat match goal with
         | |- wp (if ?b then _ else _) _ _ => destruct b
         | |- wp (match ?x with _ => _ end) _ _ => destruct x
         end;
    (apply wp_bind, logActivity_frame; intros v w' Hn Ht;
     apply wp_ret, HQ; assumption).
Qed.

Ltac not_200 :=
  let resp := fresh "resp" in
  let E := fresh "E" in
  let H := fresh "H" in
  intros resp E H; injection E as <-; discriminate H.


(** ** The completion timestamp under [save] *)

Lemma pre_save_completed_inv (time : Z) (t : Task) :
  completed_inv (TaskModel.pre_save true time t).
Proof.
  unfold completed_inv, TaskModel.pre_save.
  destruct (String.eqb (t_status t) "completed") eqn:Hs.
  - apply String.eqb_eq in Hs.
    destruct (t_completedAt t) eqn:Hc; cbn; rewrite ?Hc; split; congruence.
  - apply String.eqb_neq in Hs. cbn. split; congruence.
Qed.

(** ** Further facts on reading and on scoping *)

Lemma markAsRead_marks (doc : Stored Notification) (w : world) :
  read_inv doc.2 ->
  wp (NotificationModel.markAsRead doc) w
     (fun res _ => forall doc', res = Ok doc' ->
                     n_isRead doc'.2 = true /\ n_readAt doc'.2 <> None).
Proof.
  intros Hdoc. unfold NotificationModel.markAsRead, NotificationModel.save.
  wp_run; intros doc' E; try discriminate E; injection E as <-;
    cbn [fst snd NotificationModel.read_at n_isRead n_readAt];
    try (split; [reflexivity | discriminate]).
  apply negb_false_iff in Heqb. split; [exact Heqb | now apply Hdoc].
Qed.

Lemma keeps_others_lookup (u : ObjectId) (w w' : world) (i : ObjectId)
    (n : Notification) :
  keeps_others u w w' ->
  notifications w !! i = Some n -> n_recipient n <> u ->
  notifications w' !! i = Some n.
Proof.
  unfold keeps_others, others. intros Heq Hi Hn.
  assert (H : filter (fun kv => n_recipient kv.2 <> u) (notifications w) !! i
              = Some n)
    by (apply map_lookup_filter_Some; split; assumption).
  rewrite <- Heq in H. now apply map_lookup_filter_Some in H as [H _].
Qed.

Lemma after_op_keeps_others (u : ObjectId) (op : NotificationOp) (w : world) :
  keeps_others u w (after_op u op w).
Proof.
  destruct op as [id|ids|id|]; cbn [after_op].
  - apply (patch_read_scoped u id w).
  - apply (patch_mark_all_read_scoped u ids w).
  - apply (delete_id_scoped u id w).
  - apply (delete_clear_all_scoped u w).
Qed.

(** ** The completion timestamp on the other paths *)

Lemma create_completed_inv (t : Task) (w : world) :
  wp (TaskModel.create t) w
     (fun res w' => forall doc, res = Ok doc ->
                      completed_inv doc.2 /\ tasks w' !! doc.1 = Some doc.2).
Proof.
  unfold TaskModel.create.
  wp_run; intros doc E; try discriminate E; injection E as <-;
    unfold_store; (split; [apply pre_save_completed_inv | apply lookup_insert_eq]).
Qed.

Lemma createTaskNotification_frame (r s : Ref) (task : Stored Task)
    (type : string) (w : world)
    (Q : result (option (Stored Notification)) -> world -> Prop) :
  (forall v w', tasks w' = tasks w -> Q (Ok v) w') ->
  wp (notifications.createTaskNotification r s task type) w Q.
Proof.
  intros HQ.
  destruct (createTaskNotification_best_effort r s task type w)
    as (v & w' & E & Ht & _).
  eapply wp_eq; [exact E|]. now apply HQ.
Qed.

Lemma truthy_toString (r : Ref) :
  truthy r = true -> exists s, toStringOpt r = Some s.
Proof. destruct r; cbn; intros H; try discriminate H; eauto. Qed.

Lemma notify_update_frame (user : ObjectId) (updates : TaskModel.Updates)
    (existingTask updatedTask : Stored Task) (w : world)
    (Q : result unit -> world -> Prop) :
  (forall w', tasks w' = tasks w -> Q (Ok tt) w') ->
  wp (TasksRoute.notify_update user updates existingTask updatedTask) w Q.
Proof.
  intros HQ. unfold TasksRoute.notify_update.
  destruct (TasksRoute.isReassignment updates existingTask.2).
  { apply wp_bind, createTaskNotification_frame. intros v w' Ht.
    now apply wp_ret, HQ. }
  destruct (TasksRoute.completes (TaskModel.status updates)
              (t_status existingTask.2)).
  - destruct (truthy (t_createdBy existingTask.2)) eqn:Htr;
      [|now apply wp_ret, HQ].
    destruct (truthy_toString _ Htr) as [s Hs].
    unfold toString. rewrite Hs. apply wp_bind, wp_ret. cbv beta iota.
    destruct (negb (String.eqb s (toHexString user))); [|now apply wp_ret, HQ].
    apply wp_bind, createTaskNotification_frame. intros v w' Ht.
    now apply wp_ret, HQ.
  - destruct (truthy (t_assignee_id updatedTask.2)) eqn:Htr;
      [|now apply wp_ret, HQ].
    destruct (truthy_toString _ Htr) as [s Hs].
    unfold toString. rewrite Hs. apply wp_bind, wp_ret. cbv beta iota.
    destruct (negb (String.eqb s (toHexString user))); [|now apply wp_ret, HQ].
    apply wp_bind, createTaskNotification_frame. intros v w' Ht.
    now apply wp_ret, HQ.
Qed.

(** Every PUT that succeeds on a completed task with a body that has no
    [status] leaves the task completed and without [completedAt]. *)
Lemma put_without_status (user : ObjectId) (req : Request) (taskId : string)
    (tid : ObjectId) (body : TaskModel.Updates) (t : Task) (w : world) :
  faults w = [] -> oid_of_string taskId = Some tid ->
  tasks w !! tid = Some t ->
  TaskModel.status body = None ->
  wp (TasksRoute.put user req taskId body) w
     (fun res w' =>
        forall resp, res = Ok resp -> res_status resp = 200 ->
          exists t', tasks w' !! tid = Some t'
                     /\ t_status t' = t_status t /\ t_completedAt t' = None).
Proof.
  intros Hw Hid Ht Hbody.
  unfold TasksRoute.put.
  apply wp_try_catch.
  wp_by ltac:(apply (findById_healthy _ tid); assumption).
  rewrite Ht. cbn [fmap option_fmap option_map snd fst].
  destruct (check_ref_healthy projects (TaskModel.project_id body) w Hw)
    as (r1 & E1 & [-> | [-> | ->]]); wp_by ltac:(exact E1); cbn [negb];
    [| apply wp_ret; not_200
     | apply wp_bind, wp_console_error; cbv beta iota; apply wp_ret; not_200].
  destruct (check_ref_healthy users (TaskModel.assignee_id body) w Hw)
    as (r2 & E2 & [-> | [-> | ->]]); wp_by ltac:(exact E2); cbn [negb];
    [| apply wp_ret; not_200
     | apply wp_bind, wp_console_error; cbv beta iota; apply wp_ret; not_200].
  apply wp_bind, wp_now. cbv beta iota.
  assert (Hupd : TasksRoute.handle_completion (clock w) (t_status t) body
                 = TaskModel.set_update_completedAt None body).
  { unfold TasksRoute.handle_completion. now rewrite Hbody. }
  rewrite Hupd. set (updates := TaskModel.set_update_completedAt _ body).
  destruct (findByIdAndUpdate_cases taskId tid updates t w Hw Hid Ht)
    as [(a & p & Eu) | (e & Eu & [-> | ->])]; wp_by ltac:(exact Eu);
    [| apply wp_bind, wp_console_error; cbv beta iota; apply wp_ret; not_200
     | apply wp_bind, wp_console_error; cbv beta iota; apply wp_ret; not_200].
  set (t1 := TaskModel.apply_updates updates a p (clock w) t).
  assert (Hw' : faults (set_tasks (insert tid t1) w) = []) by exact Hw.
  destruct (populateRefs_healthy ["name"; "email"] ["title"] ["name"; "email"]
              (tid, t1) _ Hw') as (t' & Epop & _).
  wp_by ltac:(exact Epop).
  apply wp_bind, notify_update_frame. intros w1 Ht1.
  apply wp_bind, log_update_frame. intros w2 _ Ht2. apply wp_ret.
  intros resp _ _. exists t1. rewrite Ht2, Ht1. unfold_store.
  rewrite lookup_insert_eq. repeat split.
  unfold t1, updates. cbn. now rewrite Hbody.
Qed.

(** The status PATCH keeps the invariant, whichever valid status it sets. *)
Lemma patch_status_completed_inv (user : ObjectId) (taskId : string)
    (tid : ObjectId) (t : Task) (s : string) (w : world) :
  faults w = [] -> oid_of_string taskId = Some tid ->
  tasks w !! tid = Some t -> completed_inv t ->
  in_enum ["todo"; "in-progress"; "completed"] s = true ->
  wp (TasksRoute.patch_status user taskId (Some s)) w
     (fun res w' =>
        exists t', tasks w' !! tid = Some t' /\ t_status t' = s
                   /\ completed_inv t').
Proof.
  intros Hw Hid Ht Hinv Hs.
  assert (Htruthy : truthy_str s = true).
  { unfold in_enum in Hs. cbn [existsb] in Hs.
    destruct s; [discriminate Hs | reflexivity]. }
  unfold TasksRoute.patch_status. rewrite Htruthy, Hs. cbn [andb].
  apply wp_try_catch.
  wp_by ltac:(apply (findById_healthy _ tid); assumption).
  rewrite Ht. cbn [fmap option_fmap option_map snd fst].
  apply wp_bind, wp_now. cbv beta iota.
  set (updates := TaskModel.mkUpdates _ _ _ _ _ _ _ _).
  assert (Hvalid : TaskModel.valid_updates updates = true).
  { unfold TaskModel.valid_updates, updates.
    cbn [TaskModel.title TaskModel.description TaskModel.status
         TaskModel.priority opt_in_enum andb].
    rewrite andb_true_r. exact Hs. }
  wp_by ltac:(eapply (findByIdAndUpdate_healthy _ tid updates None None t);
              try eassumption; reflexivity).
  set (t1 := TaskModel.apply_updates updates None None (clock w) t).
  assert (Hw' : faults (set_tasks (insert tid t1) w) = []) by exact Hw.
  destruct (populateRefs_healthy ["name"; "email"] ["title"] ["name"; "email"]
              (tid, t1) _ Hw') as (t' & Epop & _).
  wp_by ltac:(exact Epop).
  assert (Hdone : forall w', tasks w' = tasks (set_tasks (insert tid t1) w) ->
            exists t2, tasks w' !! tid = Some t2 /\ t_status t2 = s
                       /\ completed_inv t2).
  { intros w' ->. exists t1. unfold_store. rewrite lookup_insert_eq.
    split; [reflexivity|]. split; [reflexivity|].
    unfold completed_inv, t1, updates. cbn.
    destruct (String.eqb s "completed") eqn:Hc.
    - apply String.eqb_eq in Hc.
      destruct (String.eqb (t_status t) "completed") eqn:Hc'; cbn.
      + apply String.eqb_eq in Hc'. split; [now intros _|].
        intros _. now apply Hinv.
      + split; [now intros _ | discriminate].
    - apply String.eqb_neq in Hc. cbn. split; [congruence | intros H; contradiction]. }
  apply wp_bind. cbn [fst snd].
  destruct (TasksRoute.completes (Some s) (t_status t)).
  - destruct (truthy (t_createdBy t)) eqn:Htr.
    + destruct (truthy_toString _ Htr) as [c Hc].
      unfold toString. rewrite Hc. cbn [orThrow].
      apply wp_bind, wp_ret. cbv beta iota.
      destruct (negb (String.eqb c (toHexString user))).
      * apply createTaskNotification_frame. intros v w' Hw1.
        apply wp_ret. now apply Hdone.
      * apply wp_ret, wp_ret. now apply Hdone.
    + apply wp_ret, wp_ret. now apply Hdone.
  - apply wp_ret, wp_ret. now apply Hdone.
Qed.

(** The guards of the "other update" branch of PUT compare the text of a
    populated document with an id: an assignee who edits their own task is
    notified of it by themselves. *)
Remark put_by_assignee_notifies_self :
  let run := TasksRoute.put Example.userA Example.request Example.taskT_param
               Example.rename (Example.store "in-progress" None) in
  (fun kv => (n_recipient kv.2, n_sender kv.2, n_type kv.2))
    <$> map_to_list (notifications run.2)
  = [(Example.userA, Example.userA, "task_updated")].
Proof. vm_compute. reflexivity. Qed.

(** ** What the comment handler adds for a prior commenter *)

Lemma length_append (a b : string) :
  String.length (a +:+ b) = (String.length a + String.length b)%nat.
Proof.
  induction a as [|c a IH]; [reflexivity|].
  change (String.length (String c (a +:+ b))
          = S (String.length a + String.length b)).
  cbn [String.length]. now rewrite IH.
Qed.

Lemma hex_digits_length (n : nat) (i : N) : List.length (hex_digits n i) = n.
Proof.
  revert i. induction n as [|n IH]; intros i; [reflexivity|].
  cbn [hex_digits]. rewrite List.length_app, IH. cbn. lia.
Qed.

Lemma string_of_list_length (l : list ascii) :
  String.length (string_of_list_ascii l) = List.length l.
Proof. induction l as [|c l IH]; cbn; [reflexivity | now rewrite IH]. Qed.

Lemma toHexString_length (i : ObjectId) : String.length (toHexString i) = 24%nat.
Proof.
  unfold toHexString. now rewrite string_of_list_length, hex_digits_length.
Qed.

(** The text of a populated document is no id. *)
Lemma inspect_not_an_id (d : Doc) : oid_of_string (inspect d) = None.
Proof.
  unfold oid_of_string, inspect.
  rewrite !length_append, toHexString_length.
  change (String.length "{ _id: new ObjectId('") with 21%nat.
  destruct (Nat.eqb_spec (21 + (24 + (String.length "')" +
              (String.length (String.concat empty
                                (map inspect_field (doc_fields d)))
               + String.length " }")))) 24) as [H|H]; [lia | reflexivity].
Qed.

Lemma cast_inspect (d : Doc) : castRequired (RStr (inspect d)) = None.
Proof.
  unfold castRequired, castObjectId. now rewrite inspect_not_an_id.
Qed.

(** So a recipient taken from [comment.author.toString()] of a populated
    comment is rejected by the cast, and nothing is written for it. *)
Lemma createCommentNotification_populated (d : Doc) (s : Ref)
    (task : Stored Task) (text : string) (w : world) :
  exists w',
    notifications.createCommentNotification (RStr (inspect d)) s task text w
    = (Ok None, w')
    /\ notifications w' = notifications w.
Proof.
  enough (H : wp (notifications.createCommentNotification (RStr (inspect d)) s
                    task text) w
                (fun res w' => res = Ok None /\ notifications w' = notifications w)).
  { apply wp_elim in H as (res & w' & E & -> & H). eauto. }
  unfold notifications.createCommentNotification,
    NotificationModel.createNotification.
  wp_run; unfold_store; try (split; reflexivity);
    match goal with
    | H : NotificationModel.validate _ _ = Some _ |- _ =>
        unfold NotificationModel.validate in H;
        cbn [NotificationModel.recipient] in H;
        rewrite cast_inspect in H; discriminate H
    end.
Qed.

(** ** What the helpers create *)

(** Data that passes the validation of the schema is written to a healthy
    store, under a new id, unread. *)
Lemma createNotification_created (d : NotificationModel.Data)
    (ri si : ObjectId) (rt rp : option ObjectId) (w : world) :
  faults w = [] ->
  castRequired (NotificationModel.recipient d) = Some ri ->
  castRequired (NotificationModel.sender d) = Some si ->
  castObjectId (NotificationModel.relatedTask d) = Some rt ->
  castObjectId (NotificationModel.relatedProject d) = Some rp ->
  in_enum NotificationModel.types (NotificationModel.type d) = true ->
  truthy_str (NotificationModel.title d) = true ->
  truthy_str (NotificationModel.message d) = true ->
  let n := mkNotification ri si (NotificationModel.type d)
             (NotificationModel.title d) (NotificationModel.message d)
             rt rp false None (clock w) (clock w) in
  let id := fresh (dom (notifications w)) in
  NotificationModel.createNotification d w
  = (Ok (id, n), set_notifications (insert id n) w).
Proof.
  intros Hw Hr Hs Ht Hp Htype Htitle Hmsg n id. apply wp_equation.
  unfold NotificationModel.createNotification, NotificationModel.validate.
  rewrite Hr, Hs, Ht, Hp, Htype, Htitle, Hmsg. cbn [mbind option_bind andb].
  wp_follow. now split.
Qed.

Lemma template_truthy (type title : string) :
  truthy_str (notifications.template type title).1 = true
  /\ truthy_str (notifications.template type title).2 = true.
Proof.
  unfold notifications.template.
  repeat match goal with
         | |- context [if String.eqb ?a ?b then _ else _] =>
             destruct (String.eqb a b)
         end; split; reflexivity.
Qed.

Lemma truthy_comment_message (title text : string) :
  truthy_str ("New comment on " +:+ notifications.quoted title +:+ ": "
              +:+ notifications.quoted text) = true.
Proof. reflexivity. Qed.

(** Where the guard lets the call through, that is, where the texts of
    recipient and sender differ, and recipient, sender and project cast,
    [createTaskNotification] creates the record on a healthy store and
    returns it. *)
Lemma createTaskNotification_created (r s : Ref) (ri si : ObjectId)
    (p : option ObjectId) (task : Stored Task) (type : string) (w : world) :
  faults w = [] ->
  castRequired r = Some ri -> castRequired s = Some si ->
  toStringOpt r <> toStringOpt s ->
  castObjectId (notifications.or_null (t_project_id task.2)) = Some p ->
  in_enum NotificationModel.types type = true ->
  let tm := notifications.template type (t_title task.2) in
  let n := mkNotification ri si type tm.1 tm.2 (Some task.1) p false None
             (clock w) (clock w) in
  let id := fresh (dom (notifications w)) in
  notifications.createTaskNotification r s task type w
  = (Ok (Some (id, n)), set_notifications (insert id n) w).
Proof.
  intros Hw Hr Hs Hne Hp Htype tm n id.
  unfold notifications.createTaskNotification, try_catch, bind, toString.
  destruct (toStringOpt r) as [tr|] eqn:Etr;
    [|destruct r; discriminate].
  destruct (toStringOpt s) as [ts|] eqn:Ets;
    [|destruct s; discriminate].
  cbn [orThrow ret].
  destruct (String.eqb_spec tr ts) as [->|_]; [contradiction|].
  destruct (template_truthy type (t_title task.2)) as [Htitle Hmsg].
  subst tm n id. cbv zeta.
  rewrite (createNotification_created
             (NotificationModel.mkData r s type
                (notifications.template type (t_title task.2)).1
                (notifications.template type (t_title task.2)).2 (ROid task.1)
                (notifications.or_null (t_project_id task.2)))
             ri si (Some task.1) p w Hw Hr Hs eq_refl Hp Htype Htitle Hmsg).
  reflexivity.
Qed.

Lemma createCommentNotification_created (r s : Ref) (ri si : ObjectId)
    (p : option ObjectId) (task : Stored Task) (text : string) (w : world) :
  faults w = [] ->
  castRequired r = Some ri -> castRequired s = Some si ->
  toStringOpt r <> toStringOpt s ->
  castObjectId (notifications.or_null (t_project_id task.2)) = Some p ->
  let n := mkNotification ri si "comment_added" "New Comment on Task"
             ("New comment on " +:+ notifications.quoted (t_title task.2)
              +:+ ": " +:+ notifications.quoted (ellipsis 50 text))
             (Some task.1) p false None (clock w) (clock w) in
  let id := fresh (dom (notifications w)) in
  notifications.createCommentNotification r s task text w
  = (Ok (Some (id, n)), set_notifications (insert id n) w).
Proof.
  intros Hw Hr Hs Hne Hp n id.
  unfold notifications.createCommentNotification, try_catch, bind, toString.
  destruct (toStringOpt r) as [tr|] eqn:Etr;
    [|destruct r; discriminate].
  destruct (toStringOpt s) as [ts|] eqn:Ets;
    [|destruct s; discriminate].
  cbn [orThrow ret].
  destruct (String.eqb_spec tr ts) as [->|_]; [contradiction|].
  subst n id. cbv zeta.
  rewrite (createNotification_created
             (NotificationModel.mkData r s "comment_added" "New Comment on Task"
                _ (ROid task.1)
                (notifications.or_null (t_project_id task.2)))
             ri si (Some task.1) p w Hw Hr Hs eq_refl Hp eq_refl eq_refl
             (truthy_comment_message _ _)).
  reflexivity.
Qed.

(** Data that passes the validation of the schema is logged on a healthy
    store, and the entry is returned. *)
Lemma logActivity_created (d : ActivityLogModel.Data) (a : ActivityLog)
    (w : world) :
  faults w = [] ->
  ActivityLogModel.validate d (clock w) = Some a ->
  let id := fresh (dom (activitylogs w)) in
  ActivityLogModel.logActivity d w
  = (Ok (Some (id, a)), set_activitylogs (insert id a) w).
Proof.
  intros Hw Hv id. apply wp_equation.
  unfold ActivityLogModel.logActivity.
  apply wp_try_catch, wp_bind, wp_now. cbv beta iota. rewrite Hv.
  wp_follow. now split.
Qed.

(** ** A PUT that names an assignee with another text *)






(** What the handler takes for a reassignment, when the task has an
    assignee: a body that names an assignee by a text other than that of
    the stored id. *)
Lemma isReassignment_by_text (body : TaskModel.Updates) (t : Task)
    (a : ObjectId) (s : string) :
  t_assignee_id t = ROid a -> TaskModel.assignee_id body = Some s ->
  truthy_str s = true ->
  TasksRoute.isReassignment body t = negb (String.eqb s (toHexString a)).
Proof.
  intros Ht Hs Htruthy. unfold TasksRoute.isReassignment.
  now rewrite Hs, Ht, Htruthy.
Qed.

(** ** Where the guard against self-notification does not hold *)

Lemma inspect_not_hex (d : Doc) (i : ObjectId) : inspect d <> toHexString i.
Proof.
  intros H. apply (f_equal String.length) in H.
  unfold inspect in H.
  rewrite !length_append, !toHexString_length in H.
  change (String.length "{ _id: new ObjectId('") with 21%nat in H. lia.
Qed.

(** The guard of the two helpers compares texts.  Whenever recipient and
    sender are the same user but their texts differ (a populated document
    against an id; an id text in another spelling), the notification is
    written to a healthy store, from the user to themselves. *)
Lemma self_notification_created (u : ObjectId) (r s : Ref)
    (p : option ObjectId) (task : Stored Task) (type text : string) (w : world) :
  faults w = [] ->
  castRequired r = Some u -> castRequired s = Some u ->
  toStringOpt r <> toStringOpt s ->
  castObjectId (notifications.or_null (t_project_id task.2)) = Some p ->
  in_enum NotificationModel.types type = true ->
  (exists id n,
     notifications.createTaskNotification r s task type w
     = (Ok (Some (id, n)), set_notifications (insert id n) w)
     /\ notifications w !! id = None
     /\ n_recipient n = u /\ n_sender n = u)
  /\ (exists id n,
        notifications.createCommentNotification r s task text w
        = (Ok (Some (id, n)), set_notifications (insert id n) w)
        /\ notifications w !! id = None
        /\ n_recipient n = u /\ n_sender n = u).
Proof.
  intros Hw Hr Hs Hne Hp Htype. split.
  - eexists _, _. split;
      [exact (createTaskNotification_created r s u u p task type w
                Hw Hr Hs Hne Hp Htype)|].
    repeat split. apply fresh_lookup.
  - eexists _, _. split;
      [exact (createCommentNotification_created r s u u p task text w
                Hw Hr Hs Hne Hp)|].
    repeat split. apply fresh_lookup.
Qed.

(** A populated document as recipient, the id of the same user as
    sender. *)
Lemma populated_recipient_not_suppressed (d : Doc) (p : option ObjectId)
    (task : Stored Task) (type text : string) (w : world) :
  faults w = [] ->
  castObjectId (notifications.or_null (t_project_id task.2)) = Some p ->
  in_enum NotificationModel.types type = true ->
  exists id n,
    notifications.createTaskNotification (RDoc d) (ROid (doc_id d)) task type w
    = (Ok (Some (id, n)), set_notifications (insert id n) w)
    /\ n_recipient n = doc_id d /\ n_sender n = doc_id d.
Proof.
  intros Hw Hp Htype.
  destruct (self_notification_created (doc_id d) (RDoc d) (ROid (doc_id d)) p
              task type text w Hw eq_refl eq_refl) as [(id & n & E & _ & H) _];
    try assumption.
  - cbn [toStringOpt]. intros Heq.
    apply (inspect_not_hex d (doc_id d)). congruence.
  - eauto.
Qed.

(** ** What marking does to a notification *)

(** [markMultipleAsRead] changes a notification in one way only: an unread
    one of the user's gets [isRead] and [readAt], together. *)
Lemma markMultipleAsRead_effect (u : ObjectId) (ids : list string) (w : world) :
  wp (NotificationModel.markMultipleAsRead u ids) w
     (fun _ w' =>
        forall i n, notifications w !! i = Some n ->
          notifications w' !! i = Some n
          \/ (n_recipient n = u /\ n_isRead n = false
              /\ notifications w' !! i
                 = Some (NotificationModel.read_at (clock w) n))).
Proof.
  unfold NotificationModel.markMultipleAsRead.
  wp_run; unfold_store; auto;
    (intros i n Hi; rewrite map_lookup_imap, Hi; cbn;
     destruct (NotificationModel.unread_of u _ i n) eqn:Hsel; [|now left];
     right; unfold NotificationModel.unread_of in Hsel;
     apply andb_prop in Hsel as [Hsel _];
     apply andb_prop in Hsel as [Hu Hr];
     apply N.eqb_eq in Hu; apply negb_true_iff in Hr; auto).
Qed.

Lemma markMultipleAsRead_healthy (u : ObjectId) (ids : list string)
    (ids' : list ObjectId) (w : world) :
  faults w = [] -> NotificationModel.cast_ids ids = Some ids' ->
  NotificationModel.markMultipleAsRead u ids w
  = (Ok (size (filter (fun kv => NotificationModel.unread_of u ids' kv.1 kv.2 = true)
                 (notifications w))),
     set_notifications
       (map_imap (fun id n =>
          Some (if NotificationModel.unread_of u ids' id n
                then NotificationModel.read_at (clock w) n else n))) w).
Proof.
  intros Hw Hids. apply wp_equation.
  unfold NotificationModel.markMultipleAsRead.
  apply wp_bind, wp_now. cbv beta iota. rewrite Hids.
  wp_follow. now split.
Qed.

Lemma created_is_stored {A} (coll : world -> gmap ObjectId A)
    (m : M (option (Stored A))) (w : world) (doc : Stored A) :
  best_effort coll m -> (m w).1 = Ok (Some doc) ->
  coll (m w).2 !! doc.1 = Some doc.2.
Proof.
  intros H E. destruct (H w) as (v & w' & Em & _ & Hv & _).
  rewrite Em in E |- *. cbn in E |- *. injection E as ->.
  destruct Hv as [_ ->]. apply lookup_insert_eq.
Qed.

(** ** The handlers at work on the small organisation *)

(** A completes the task of C through PUT: one [task_completed] for C. *)
Example put_completed_by_assignee :
  let run := TasksRoute.put Example.userA Example.request Example.taskT_param
               (TaskModel.mkUpdates None None None None (Some "completed")
                  None None None)
               (Example.store "in-progress" None) in
  (res_status <$> (match run.1 with Ok r => Some r | Throw _ => None end)) = Some 200
  /\ Example.notices run.2 = [(Example.userC, "task_completed")].
Proof. cbv zeta. split; vm_compute; reflexivity. Qed.

(** C completes their own task through the status PATCH: no notification. *)
Example patch_completed_by_creator :
  let run := TasksRoute.patch_status Example.userC Example.taskT_param
               (Some "completed") (Example.store "in-progress" None) in
  (res_status <$> (match run.1 with Ok r => Some r | Throw _ => None end)) = Some 200
  /\ (t_completedAt <$> tasks run.2 !! Example.taskT) = Some (Some 1000%Z)
  /\ Example.notices run.2 = [].
Proof. cbv zeta. repeat split; vm_compute; reflexivity. Qed.

(** The spec's walk through the statuses, by PATCH:
    todo, in-progress, completed, todo. *)
Example completedAt_follows_status :
  let w0 := Example.store "todo" None in
  let w1 := (TasksRoute.patch_status Example.userA Example.taskT_param
               (Some "in-progress") w0).2 in
  let w2 := (TasksRoute.patch_status Example.userA Example.taskT_param
               (Some "completed") (set_clock 2000%Z w1)).2 in
  let w3 := (TasksRoute.patch_status Example.userA Example.taskT_param
               (Some "todo") (set_clock 3000%Z w2)).2 in
  (fun w => (fun t => (t_status t, t_completedAt t)) <$> tasks w !! Example.taskT)
    <$> [w0; w1; w2; w3]
  = [Some ("todo", None); Some ("in-progress", None);
     Some ("completed", Some 2000%Z); Some ("todo", None)].
Proof. vm_compute. reflexivity. Qed.

(** A type of the schema without a template gets the generic texts. *)
Example project_assigned_is_generic :
  let run := notifications.createTaskNotification (ROid Example.userA)
               (ROid Example.boss) (Example.taskT, Example.task "todo" None)
               "project_assigned" (Example.store "todo" None) in
  ((fun doc => (n_title doc.2, n_type doc.2)) <$>
     (match run.1 with Ok v => v | Throw _ => None end))
  = Some ("Task Notification", "project_assigned")
  /\ size (notifications run.2) = 1%nat.
Proof. cbv zeta. split; vm_compute; reflexivity. Qed.

(** The same user under another spelling of the id: the task of the
    manager whose id ends in the digit a is completed, through PUT, by a
    body that names that assignee in upper case.  The handler takes it for
    a reassignment: the assignee, who is assigned already, gets a
    [task_reassigned], and the creator C hears nothing of the completion. *)
Example completion_with_assignee_in_upper_case :
  let t := mkTask "Plan the sprint" "Agenda and estimates" (ROid 10%N) RNull
             "in-progress" "medium" (Some 2000000%Z) (ROid Example.userC) None
             [] 50%Z 300%Z in
  let w := mkWorld (<[10%N := Example.member "Lee"]> Example.people) ∅
             (<[Example.taskT := t]> ∅) ∅ ∅ 1000%Z [] [] in
  let body := TaskModel.mkUpdates None None (Some "00000000000000000000000A")
                None (Some "completed") None None None in
  let run := TasksRoute.put Example.boss Example.request Example.taskT_param
               body w in
  oid_of_string "00000000000000000000000A" = Some 10%N
  /\ TasksRoute.isReassignment body t = true
  /\ (res_status <$> (match run.1 with Ok r => Some r | Throw _ => None end))
     = Some 200
  /\ ((fun t' => (t_status t', t_assignee_id t')) <$> tasks run.2 !! Example.taskT)
     = Some ("completed", ROid 10%N)
  /\ Example.notices run.2 = [(10%N, "task_reassigned")].
Proof. cbv zeta. repeat split; vm_compute; reflexivity. Qed.

(** Marking all of A's notifications at the office: the two unread ones
    get the time of the call, the read one keeps its time, and C's stays
    unread. *)
Example office_marked :
  let run := NotificationModel.markMultipleAsRead Example.userA []
               Example.office in
  run.1 = Ok 2%nat
  /\ (fun i => (fun n => (n_recipient n, n_isRead n, n_readAt n))
                 <$> notifications run.2 !! i) <$> [20%N; 21%N; 22%N; 23%N]
     = [Some (Example.userA, true, Some 1000%Z);
        Some (Example.userA, true, Some 201%Z);
        Some (Example.userC, false, None);
        Some (Example.userA, true, Some 1000%Z)].
Proof. cbv zeta. split; vm_compute; reflexivity. Qed.

(** * The claims *)

(** C1 (defect of the code).  A PUT whose body has no [status] sets
    [completedAt] to null whatever the status of the task: on a completed
    task it leaves [status = "completed"] with [completedAt] unset, so the
    invariant "completedAt is non-null iff status is completed" is lost by
    an update that does not change the status.  [put_without_status] is
    the general fact.  The other paths keep the invariant: the [save] hook
    on creation ([create_completed_inv]) and the status PATCH
    ([patch_status_completed_inv]). *)
Theorem put_without_status_clears_completedAt :
  let before := Example.store "completed" (Some 900%Z) in
  let run := TasksRoute.put Example.boss Example.request Example.taskT_param
               Example.rename before in
  (exists t, tasks before !! Example.taskT = Some t /\ completed_inv t)
  /\ (res_status <$> (match run.1 with Ok r => Some r | Throw _ => None end)) = Some 200
  /\ exists t', tasks run.2 !! Example.taskT = Some t'
                /\ t_status t' = "completed" /\ t_completedAt t' = None
                /\ ~ completed_inv t'.
Proof.
  cbv zeta. split; [|split].
  - eexists. split; [vm_compute; reflexivity|].
    unfold completed_inv. cbn. split; [reflexivity | discriminate].
  - vm_compute. reflexivity.
  - eexists. split; [vm_compute; reflexivity|].
    split; [reflexivity|]. split; [reflexivity|].
    unfold completed_inv. cbn. intros [_ H]. now apply H.
Qed.

(** C2 (defect of the code).  The guard of [createTaskNotification] and
    [createCommentNotification] compares the texts of recipient and
    sender, and the text of a populated document, or of an id written in
    upper case, is not the text [toString] gives for the id.  Handed the
    populated document of A as recipient and the id of A as sender, both
    helpers write a notification from A to A; so does
    [createTaskNotification] for an id given in upper case.  The "other
    update" branch of [PUT /:id] makes such a call: a manager who edits a
    task assigned to themselves is notified of it by themselves.
    [self_notification_created] is the general fact.  Where recipient and
    sender are both the id or its text, the guard holds
    ([createTaskNotification_self], [createCommentNotification_self]). *)
Theorem self_notification_not_suppressed :
  let w := Example.store "in-progress" None in
  let task := (Example.taskT, Example.task "in-progress" None) in
  let ann := populate_user ["name"; "email"] w (ROid Example.userA) in
  let upper := RStr "00000000000000000000000A" in
  castRequired ann = Some Example.userA
  /\ Example.sent
       (notifications.createTaskNotification ann (ROid Example.userA) task
          "task_updated" w).2
     = [(Example.userA, Example.userA, "task_updated")]
  /\ Example.sent
       (notifications.createCommentNotification ann (ROid Example.userA) task
          "fine" w).2
     = [(Example.userA, Example.userA, "comment_added")]
  /\ castRequired upper = Some 10%N
  /\ Example.sent
       (notifications.createTaskNotification upper (ROid 10%N) task
          "task_assigned" w).2
     = [(10%N, 10%N, "task_assigned")]
  /\ (let run := TasksRoute.put Example.boss Example.request
                   Example.taskB_param Example.rename Example.managed in
      (res_status <$> (match run.1 with Ok r => Some r | Throw _ => None end))
      = Some 200
      /\ Example.sent run.2 = [(Example.boss, Example.boss, "task_updated")]).
Proof. cbv zeta. repeat split; vm_compute; reflexivity. Qed.

(** C3 (defect of the code).  U comments on the task of creator C assigned
    to A, on which A, C and X commented before.  The handler has populated
    [comments.author] by then, so [comment.author.toString()] is the text
    of a document, not of an id ([inspect_not_an_id]): the entries it adds
    to the set are no ids, each [createCommentNotification] for them fails
    its cast and is swallowed ([createCommentNotification_populated]), and
    the only notifications are the two for A and C.  X, a prior commenter,
    gets none. *)
Theorem comment_does_not_reach_prior_commenter :
  let before := Example.store "in-progress" None in
  let run := CommentsRoute.post Example.userU Example.request
               Example.taskT_param (Some "looks good") before in
  (res_status <$> (match run.1 with Ok r => Some r | Throw _ => None end)) = Some 201
  /\ Example.notices run.2
     = [(Example.userC, "comment_added"); (Example.userA, "comment_added")]
  /\ (forall id n, notifications run.2 !! id = Some n ->
                   n_recipient n <> Example.userX).
Proof.
  cbv zeta. split; [vm_compute; reflexivity|].
  assert (H : Example.notices
                (CommentsRoute.post Example.userU Example.request
                   Example.taskT_param (Some "looks good")
                   (Example.store "in-progress" None)).2
              = [(Example.userC, "comment_added"); (Example.userA, "comment_added")])
    by (vm_compute; reflexivity).
  split; [exact H|].
  intros id n Hn Hx.
  assert (Hin : (n_recipient n, n_type n) ∈
                Example.notices
                  (CommentsRoute.post Example.userU Example.request
                     Example.taskT_param (Some "looks good")
                     (Example.store "in-progress" None)).2).
  { unfold Example.notices. apply list_elem_of_fmap.
    exists (id, n). split; [reflexivity|]. now apply elem_of_map_to_list. }
  rewrite H, Hx in Hin.
  apply elem_of_cons in Hin as [Hin|Hin]; [discriminate Hin|].
  apply elem_of_cons in Hin as [Hin|Hin]; [discriminate Hin|].
  now apply elem_of_nil in Hin.
Qed.

(** C4 (as the code has it).  For an event type outside the four templates,
    with distinct recipient and sender, [createTaskNotification] never
    raises and selects the generic "Task Notification" title.  Whether a
    record is written is the schema's decision: a type outside the enum of
    [NotificationSchema] is rejected by validation, the error is swallowed,
    null is returned and nothing is written; for the two remaining values
    of the enum ([comment_added], [project_assigned]) and a healthy store,
    exactly one record is written, with the generic title. *)
Theorem unknown_event_type_fallback (ri si : ObjectId) (task : Stored Task)
    (type : string) (w : world) :
  oid_ok ri -> oid_ok si -> ri <> si -> project_ref_ok task.2 ->
  in_enum task_event_types type = false ->
  let run := notifications.createTaskNotification (ROid ri) (ROid si) task type w in
  (notifications.template type (t_title task.2)).1 = "Task Notification"
  /\ (exists v, run.1 = Ok v)
  /\ (in_enum NotificationModel.types type = false ->
      run.1 = Ok None /\ notifications run.2 = notifications w)
  /\ (in_enum NotificationModel.types type = true -> faults w = [] ->
      exists id n,
        run.1 = Ok (Some (id, n))
        /\ notifications w !! id = None
        /\ notifications run.2 = <[id := n]> (notifications w)
        /\ n_title n = "Task Notification" /\ n_type n = type
        /\ n_recipient n = ri /\ n_sender n = si).
Proof.
  intros Hri Hsi Hne Hproj Hgeneric run. repeat split.
  - now rewrite template_generic.
  - destruct (createTaskNotification_best_effort (ROid ri) (ROid si) task type w)
      as (v & w' & E & _). exists v. unfold run. now rewrite E.
  - destruct (createTaskNotification_rejected (ROid ri) (ROid si) task type w H)
      as (w' & E & _). unfold run. now rewrite E.
  - destruct (createTaskNotification_rejected (ROid ri) (ROid si) task type w H)
      as (w' & E & Hn). unfold run. now rewrite E.
  - intros Htype Hw.
    destruct (createTaskNotification_generic ri si task type w Hw Hri Hsi Hne
                Hproj Hgeneric Htype) as (p & E).
    cbv zeta in E. unfold run. rewrite E. cbn [fst snd].
    eexists _, _. repeat split. apply fresh_lookup.
Qed.

Lemma unknown_event_type_fallback_witness :
  let task := (Example.taskT, Example.task "todo" None) in
  let w := Example.store "todo" None in
  let run := notifications.createTaskNotification (ROid Example.userA)
               (ROid Example.boss) task "project_assigned" w in
  (notifications.template "project_assigned" (t_title task.2)).1
  = "Task Notification"
  /\ (exists v, run.1 = Ok v)
  /\ (in_enum NotificationModel.types "project_assigned" = false ->
      run.1 = Ok None /\ notifications run.2 = notifications w)
  /\ (in_enum NotificationModel.types "project_assigned" = true ->
      faults w = [] ->
      exists id n,
        run.1 = Ok (Some (id, n))
        /\ notifications w !! id = None
        /\ notifications run.2 = <[id := n]> (notifications w)
        /\ n_title n = "Task Notification" /\ n_type n = "project_assigned"
        /\ n_recipient n = Example.userA /\ n_sender n = Example.boss).
Proof.
  apply (unknown_event_type_fallback Example.userA Example.boss
           (Example.taskT, Example.task "todo" None) "project_assigned"
           (Example.store "todo" None)).
  - vm_compute. reflexivity.
  - vm_compute. reflexivity.
  - unfold Example.userA, Example.boss. lia.
  - simpl. exact I.
  - reflexivity.
Defined.

(** C4, the claim as stated fails: for the type "task_deleted", outside the
    four templates, with distinct recipient and sender and a healthy
    store, no record is created. *)
Lemma unknown_event_type_creates_nothing :
  let w := Example.store "todo" None in
  let run := notifications.createTaskNotification (ROid Example.userA)
               (ROid Example.boss) (Example.taskT, Example.task "todo" None)
               "task_deleted" w in
  in_enum task_event_types "task_deleted" = false
  /\ faults w = []
  /\ run.1 = Ok None
  /\ notifications run.2 = notifications w
  /\ size (notifications run.2) = 0%nat.
Proof. cbv zeta. repeat split; vm_compute; reflexivity. Qed.




(** C6.  [createTaskNotification], [createCommentNotification] and
    [ActivityLog.logActivity] never raise, whatever their arguments and
    whatever the store does: each returns the created document, which is
    then the one new entry of its collection, or null, and then the
    collection is as it was; a store that fails gives null; and the tasks
    are never touched.  On success they return the record: against a
    healthy store, a notification whose recipient and sender cast to ids
    and differ in their text, and whose type the schema lists, is created
    under a new id and returned, and so is an audit entry whose data pass
    the validation of the schema. *)
Theorem side_effects_best_effort :
  (forall r s task type,
     best_effort notifications
       (notifications.createTaskNotification r s task type))
  /\ (forall r s task text,
        best_effort notifications
          (notifications.createCommentNotification r s task text))
  /\ (forall d, best_effort activitylogs (ActivityLogModel.logActivity d))
  /\ (forall r s ri si p task type w,
        faults w = [] ->
        castRequired r = Some ri -> castRequired s = Some si ->
        toStringOpt r <> toStringOpt s ->
        castObjectId (notifications.or_null (t_project_id task.2)) = Some p ->
        in_enum NotificationModel.types type = true ->
        exists id n,
          notifications.createTaskNotification r s task type w
          = (Ok (Some (id, n)), set_notifications (insert id n) w)
          /\ notifications w !! id = None
          /\ n_recipient n = ri /\ n_sender n = si /\ n_type n = type
          /\ n_relatedTask n = Some task.1)
  /\ (forall r s ri si p task text w,
        faults w = [] ->
        castRequired r = Some ri -> castRequired s = Some si ->
        toStringOpt r <> toStringOpt s ->
        castObjectId (notifications.or_null (t_project_id task.2)) = Some p ->
        exists id n,
          notifications.createCommentNotification r s task text w
          = (Ok (Some (id, n)), set_notifications (insert id n) w)
          /\ notifications w !! id = None
          /\ n_recipient n = ri /\ n_sender n = si
          /\ n_type n = "comment_added" /\ n_relatedTask n = Some task.1)
  /\ (forall d a w,
        faults w = [] -> ActivityLogModel.validate d (clock w) = Some a ->
        exists id,
          ActivityLogModel.logActivity d w
          = (Ok (Some (id, a)), set_activitylogs (insert id a) w)
          /\ activitylogs w !! id = None).
Proof.
  split; [|split; [|split; [|split; [|split]]]].
  - exact createTaskNotification_best_effort.
  - exact createCommentNotification_best_effort.
  - exact logActivity_best_effort.
  - intros r s ri si p task type w Hw Hr Hs Hne Hp Htype.
    eexists _, _. split;
      [exact (createTaskNotification_created r s ri si p task type w
                Hw Hr Hs Hne Hp Htype)|].
    repeat split. apply fresh_lookup.
  - intros r s ri si p task text w Hw Hr Hs Hne Hp.
    eexists _, _. split;
      [exact (createCommentNotification_created r s ri si p task text w
                Hw Hr Hs Hne Hp)|].
    repeat split. apply fresh_lookup.
  - intros d a w Hw Hv.
    eexists. split; [exact (logActivity_created d a w Hw Hv)|].
    apply fresh_lookup.
Qed.

Lemma side_effects_best_effort_witness :
  let w := Example.store "todo" None in
  let task := (Example.taskT, Example.task "todo" None) in
  let d := ActivityLogModel.mkData (ROid Example.boss) "task_assigned"
             "Assigned task" (Some "task") (ROid Example.taskT)
             (Some "Ship the release") None RNull None [] None None in
  (exists id n,
     notifications.createTaskNotification (ROid Example.userA)
       (ROid Example.boss) task "task_assigned" w
     = (Ok (Some (id, n)), set_notifications (insert id n) w)
     /\ notifications w !! id = None
     /\ n_recipient n = Example.userA /\ n_sender n = Example.boss
     /\ n_type n = "task_assigned" /\ n_relatedTask n = Some task.1)
  /\ (exists id n,
        notifications.createCommentNotification (ROid Example.userC)
          (ROid Example.userA) task "looks good" w
        = (Ok (Some (id, n)), set_notifications (insert id n) w)
        /\ notifications w !! id = None
        /\ n_recipient n = Example.userC /\ n_sender n = Example.userA
        /\ n_type n = "comment_added" /\ n_relatedTask n = Some task.1)
  /\ (exists id a,
        ActivityLogModel.logActivity d w
        = (Ok (Some (id, a)), set_activitylogs (insert id a) w)
        /\ activitylogs w !! id = None
        /\ a_userId a = Example.boss /\ a_action a = "task_assigned")
  /\ (notifications.createTaskNotification (ROid Example.userA)
        (ROid Example.boss) task "task_assigned" (set_faults [true] w)).1
     = Ok None.
Proof.
  intros w task d.
  destruct side_effects_best_effort as (Hbest & _ & _ & Htask & Hcomment & Hlog).
  split; [|split; [|split]].
  - apply (Htask (ROid Example.userA) (ROid Example.boss) Example.userA
             Example.boss None task "task_assigned" w); try reflexivity.
    vm_compute. discriminate.
  - apply (Hcomment (ROid Example.userC) (ROid Example.userA) Example.userC
             Example.userA None task "looks good" w); try reflexivity.
    vm_compute. discriminate.
  - destruct (Hlog d
                (mkActivityLog Example.boss "task_assigned" "Assigned task"
                   (Some "task") (Some Example.taskT) (Some "Ship the release")
                   None None None [] None None 1000%Z 1000%Z) w)
      as (id & E & Hid); try reflexivity.
    exists id. eexists. split; [exact E|]. split; [exact Hid|].
    split; reflexivity.
  - destruct (Hbest (ROid Example.userA) (ROid Example.boss) task
                "task_assigned" (set_faults [true] w))
      as (v & w' & E & _ & _ & Hnone).
    rewrite E. cbn [fst]. f_equal. now apply (Hnone []).
Defined.

(** C7.  On a store where [readAt] is set exactly on the read
    notifications, creating a notification, [markAsRead] of a document
    that satisfies the invariant, and [markMultipleAsRead] all leave a
    store with that property, whatever their arguments and whether or not
    the store fails.  A notification that is created is stored unread,
    with [readAt] unset.  [markAsRead] returns a document that is read and
    has [readAt] set; on a healthy store an unread one is stored with
    [isRead] and [readAt] = now.  [markMultipleAsRead] leaves each
    notification as it was or, an unread one of the user's, sets [isRead]
    and [readAt] = now together; on a healthy store it does so for every
    unread notification of the user (among the ids given, when ids are
    given), and returns their number. *)
Theorem read_inv_preserved (w : world) :
  store_read_inv w ->
  (forall r s task type,
     let run := notifications.createTaskNotification r s task type w in
     store_read_inv run.2
     /\ forall doc, run.1 = Ok (Some doc) ->
          n_isRead doc.2 = false /\ n_readAt doc.2 = None
          /\ notifications run.2 !! doc.1 = Some doc.2)
  /\ (forall r s task text,
        let run := notifications.createCommentNotification r s task text w in
        store_read_inv run.2
        /\ forall doc, run.1 = Ok (Some doc) ->
             n_isRead doc.2 = false /\ n_readAt doc.2 = None
             /\ notifications run.2 !! doc.1 = Some doc.2)
  /\ (forall doc,
        read_inv doc.2 ->
        let run := NotificationModel.markAsRead doc w in
        store_read_inv run.2
        /\ (forall doc', run.1 = Ok doc' ->
              n_isRead doc'.2 = true /\ n_readAt doc'.2 <> None)
        /\ (faults w = [] -> n_isRead doc.2 = false ->
            exists n',
              run.1 = Ok (doc.1, n')
              /\ notifications run.2 !! doc.1 = Some n'
              /\ n_isRead n' = true /\ n_readAt n' = Some (clock w)))
  /\ (forall u ids,
        let run := NotificationModel.markMultipleAsRead u ids w in
        store_read_inv run.2
        /\ (forall i n, notifications w !! i = Some n ->
              notifications run.2 !! i = Some n
              \/ (n_recipient n = u /\ n_isRead n = false
                  /\ exists n',
                       notifications run.2 !! i = Some n'
                       /\ n_isRead n' = true /\ n_readAt n' = Some (clock w)))
        /\ (faults w = [] ->
            forall ids', NotificationModel.cast_ids ids = Some ids' ->
            run.1 = Ok (size (filter
                               (fun kv => NotificationModel.unread_of u ids'
                                            kv.1 kv.2 = true)
                               (notifications w)))
            /\ forall i n, notifications w !! i = Some n ->
                 n_recipient n = u -> n_isRead n = false ->
                 (ids' = [] \/ In i ids') ->
                 exists n',
                   notifications run.2 !! i = Some n'
                   /\ n_isRead n' = true /\ n_readAt n' = Some (clock w))).
Proof.
  intros Hinv. split; [|split; [|split]].
  - intros r s task type run.
    pose proof (createTaskNotification_read_inv r s task type w) as H.
    unfold wp in H. destruct H as [H1 H2]. split; [now apply H1|].
    intros doc E. destruct (H2 doc E) as [Ha Hb].
    split; [exact Ha|]. split; [exact Hb|].
    exact (created_is_stored notifications _ w doc
             (createTaskNotification_best_effort r s task type) E).
  - intros r s task text run.
    pose proof (createCommentNotification_read_inv r s task text w) as H.
    unfold wp in H. destruct H as [H1 H2]. split; [now apply H1|].
    intros doc E. destruct (H2 doc E) as [Ha Hb].
    split; [exact Ha|]. split; [exact Hb|].
    exact (created_is_stored notifications _ w doc
             (createCommentNotification_best_effort r s task text) E).
  - intros doc Hdoc run.
    pose proof (markAsRead_read_inv doc w Hdoc) as H.
    unfold wp in H. destruct H as [H1 _]. split; [now apply H1|].
    split; [exact (markAsRead_marks doc w Hdoc)|].
    intros Hw Hunread. unfold run.
    rewrite (markAsRead_unread doc w Hw Hunread). unfold_store.
    eexists. split; [reflexivity|]. split; [apply lookup_insert_eq|].
    split; reflexivity.
  - intros u ids run. split; [|split].
    + pose proof (markMultipleAsRead_read_inv u ids w) as H.
      unfold wp in H. now apply H.
    + intros i n Hi.
      destruct (markMultipleAsRead_effect u ids w i n Hi) as [H|(Hu & Hr & H)];
        [now left|right].
      split; [exact Hu|]. split; [exact Hr|].
      eexists. split; [exact H|]. split; reflexivity.
    + intros Hw ids' Hids. unfold run.
      rewrite (markMultipleAsRead_healthy u ids ids' w Hw Hids). unfold_store.
      split; [reflexivity|].
      intros i n Hi Hu Hr Hlisted.
      rewrite map_lookup_imap, Hi. cbn.
      assert (Hsel : NotificationModel.unread_of u ids' i n = true).
      { unfold NotificationModel.unread_of.
        rewrite Hu, N.eqb_refl, Hr. cbn [negb andb].
        destruct Hlisted as [->|Hin]; [reflexivity|].
        destruct ids' as [|j l]; [reflexivity|].
        apply existsb_exists. exists i. split; [exact Hin | apply N.eqb_refl]. }
      rewrite Hsel. eexists. split; [reflexivity|]. split; reflexivity.
Qed.

Lemma read_inv_preserved_witness :
  let w := Example.office in
  (forall r s task type,
     let run := notifications.createTaskNotification r s task type w in
     store_read_inv run.2
     /\ forall doc, run.1 = Ok (Some doc) ->
          n_isRead doc.2 = false /\ n_readAt doc.2 = None
          /\ notifications run.2 !! doc.1 = Some doc.2)
  /\ (forall r s task text,
        let run := notifications.createCommentNotification r s task text w in
        store_read_inv run.2
        /\ forall doc, run.1 = Ok (Some doc) ->
             n_isRead doc.2 = false /\ n_readAt doc.2 = None
             /\ notifications run.2 !! doc.1 = Some doc.2)
  /\ (forall doc,
        read_inv doc.2 ->
        let run := NotificationModel.markAsRead doc w in
        store_read_inv run.2
        /\ (forall doc', run.1 = Ok doc' ->
              n_isRead doc'.2 = true /\ n_readAt doc'.2 <> None)
        /\ (faults w = [] -> n_isRead doc.2 = false ->
            exists n',
              run.1 = Ok (doc.1, n')
              /\ notifications run.2 !! doc.1 = Some n'
              /\ n_isRead n' = true /\ n_readAt n' = Some (clock w)))
  /\ (forall u ids,
        let run := NotificationModel.markMultipleAsRead u ids w in
        store_read_inv run.2
        /\ (forall i n, notifications w !! i = Some n ->
              notifications run.2 !! i = Some n
              \/ (n_recipient n = u /\ n_isRead n = false
                  /\ exists n',
                       notifications run.2 !! i = Some n'
                       /\ n_isRead n' = true /\ n_readAt n' = Some (clock w)))
        /\ (faults w = [] ->
            forall ids', NotificationModel.cast_ids ids = Some ids' ->
            run.1 = Ok (size (filter
                               (fun kv => NotificationModel.unread_of u ids'
                                            kv.1 kv.2 = true)
                               (notifications w)))
            /\ forall i n, notifications w !! i = Some n ->
                 n_recipient n = u -> n_isRead n = false ->
                 (ids' = [] \/ In i ids') ->
                 exists n',
                   notifications run.2 !! i = Some n'
                   /\ n_isRead n' = true /\ n_readAt n' = Some (clock w))).
Proof.
  apply (read_inv_preserved Example.office).
  unfold store_read_inv, Example.office. cbn [notifications].
  repeat (apply map_Forall_insert_2;
          [unfold read_inv, Example.notice; cbn; split; congruence|]).
  apply map_Forall_empty.
Defined.

(** C8.  Marking an unread notification read, through the model method and
    through [PATCH /:id/read] by its recipient against a healthy store,
    sets [isRead] and sets [readAt] to the time of the call; marking it
    read again, at whatever later time, changes nothing: the document and
    the store stay as the first call left them. *)
Theorem markAsRead_idempotent (user : ObjectId) (id : string) (i : ObjectId)
    (n : Notification) (w : world) :
  faults w = [] -> oid_of_string id = Some i ->
  notifications w !! i = Some n -> n_recipient n = user ->
  n_isRead n = false ->
  let n1 := NotificationModel.read_at (clock w) n in
  let w1 := set_notifications (insert i n1) w in
  n_isRead n1 = true /\ n_readAt n1 = Some (clock w)
  /\ NotificationModel.markAsRead (i, n) w = (Ok (i, n1), w1)
  /\ (forall w2, NotificationModel.markAsRead (i, n1) w2 = (Ok (i, n1), w2))
  /\ NotificationsRoute.patch_read user id w
     = (Ok (mkResponse 200 "Notification marked as read" (Some (i, n1))), w1)
  /\ (forall later,
        NotificationsRoute.patch_read user id (set_clock later w1)
        = (Ok (mkResponse 200 "Notification marked as read" (Some (i, n1))),
           set_clock later w1)).
Proof.
  intros Hw Hid Hi Hn Hread n1 w1.
  split; [reflexivity|]. split; [reflexivity|].
  split; [|split; [|split]].
  - now apply (markAsRead_unread (i, n)).
  - intros w2. now apply markAsRead_read.
  - now apply patch_read_unread.
  - intros later. apply patch_read_already; try assumption; try reflexivity.
    unfold w1. cbn [notifications set_clock set_notifications].
    apply lookup_insert_eq.
Qed.

Lemma markAsRead_idempotent_witness :
  let n := mkNotification Example.userA Example.boss "task_assigned"
             "New Task Assigned" "You have been assigned a new task" None None
             false None 500%Z 500%Z in
  let w := set_notifications (insert 7%N n) (Example.store "todo" None) in
  let n1 := NotificationModel.read_at (clock w) n in
  let w1 := set_notifications (insert 7%N n1) w in
  n_isRead n1 = true /\ n_readAt n1 = Some (clock w)
  /\ NotificationModel.markAsRead (7%N, n) w = (Ok (7%N, n1), w1)
  /\ (forall w2, NotificationModel.markAsRead (7%N, n1) w2 = (Ok (7%N, n1), w2))
  /\ NotificationsRoute.patch_read Example.userA "000000000000000000000007" w
     = (Ok (mkResponse 200 "Notification marked as read" (Some (7%N, n1))), w1)
  /\ (forall later,
        NotificationsRoute.patch_read Example.userA "000000000000000000000007"
          (set_clock later w1)
        = (Ok (mkResponse 200 "Notification marked as read" (Some (7%N, n1))),
           set_clock later w1)).
Proof.
  apply (markAsRead_idempotent Example.userA "000000000000000000000007" 7%N).
  - reflexivity.
  - vm_compute. reflexivity.
  - vm_compute. reflexivity.
  - reflexivity.
  - reflexivity.
Defined.



(** The cleanup of the witness at work: with 30 days to keep, at day 100,
    the entry of day 5 goes and the entry of day 95 stays. *)
Example cleanup_at_work :
  let entry (at_ : Z) :=
    mkActivityLog Example.boss "user_login" "User logged into the system"
      (Some "user") (Some Example.boss) None None None None [] None None
      at_ at_ in
  let w := set_clock (100 * 86400000)%Z
             (set_activitylogs
                (fun _ => <[1%N := entry (5 * 86400000)%Z]>
                            (<[2%N := entry (95 * 86400000)%Z]> ∅))
                (Example.store "todo" None)) in
  let run := ActivityLogsRoute.cleanup (Some 30%Z) w in
  (res_body <$> (match run.1 with Ok r => Some r | Throw _ => None end))
  = Some (Some 1%nat)
  /\ map_to_list (activitylogs run.2) = [(2%N, entry (95 * 86400000)%Z)].
Proof. cbv zeta. split; vm_compute; reflexivity. Qed.


(** C10.  Whatever operation of the notification router the user [u] runs
    (mark one read, mark all or some read, delete one, clear the read
    ones), with whatever arguments and whether or not the store fails, a
    notification whose recipient is not [u] is in the store afterwards,
    under the same id and unchanged. *)
Theorem notification_operations_scoped (u : ObjectId) (op : NotificationOp)
    (w : world) (i : ObjectId) (n : Notification) :
  notifications w !! i = Some n -> n_recipient n <> u ->
  notifications (after_op u op w) !! i = Some n.
Proof.
  intros Hi Hn.
  exact (keeps_others_lookup u w _ i n (after_op_keeps_others u op w) Hi Hn).
Qed.

Lemma notification_operations_scoped_witness :
  let n := mkNotification Example.userC Example.boss "task_assigned"
             "New Task Assigned" "You have been assigned a new task" None None
             true (Some 600%Z) 500%Z 600%Z in
  let w := set_notifications (insert 7%N n) (Example.store "todo" None) in
  notifications (after_op Example.userA (Delete "000000000000000000000007") w)
    !! 7%N = Some n.
Proof.
  intros n w.
  apply (notification_operations_scoped Example.userA
           (Delete "000000000000000000000007") w 7%N n).
  - vm_compute. reflexivity.
  - simpl. unfold Example.userC, Example.userA. lia.
Defined.

(** * Further properties of the handlers

    The remaining helpers, the read side of the routers, the handlers that
    delete and edit, the order of the routes, and what each handler leaves
    alone. *)

(** ** Fan-out to several recipients *)

Lemma notify_each_creates (rs : list Ref) (s : Ref) (task : Stored Task)
    (type : string) (acc : list (Stored Notification)) (w : world) :
  exists l w',
    notifications.notify_each rs s task type acc w = (Ok (acc ++ l)%list, w')
    /\ tasks w' = tasks w
    /\ (List.length l <= List.length rs)%nat
    /\ size (notifications w') = (size (notifications w) + List.length l)%nat
    /\ notifications w ⊆ notifications w'
    /\ Forall (fun doc : Stored Notification =>
                 notifications w !! doc.1 = None
                 /\ notifications w' !! doc.1 = Some doc.2) l.
Proof.
  revert acc w. induction rs as [|r rs IH]; intros acc w.
  - exists [], w. cbn. rewrite app_nil_r. repeat split; auto.
  - destruct (createTaskNotification_best_effort r s task type w)
      as (v & w1 & E & Ht & Hv & _).
    cbn [notifications.notify_each]. unfold bind at 1. rewrite E.
    destruct v as [doc|].
    + destruct Hv as [Hnew Hins].
      destruct (IH (acc ++ [doc])%list w1) as (l & w' & E' & Ht' & Hlen & Hsize & Hsub & Hall).
      exists (doc :: l), w'. rewrite E', <- app_assoc. cbn [app].
      split; [reflexivity|]. split; [congruence|]. split; [cbn; lia|].
      assert (Hsub1 : notifications w ⊆ notifications w1).
      { rewrite Hins. now apply insert_subseteq. }
      split.
      { rewrite Hsize, Hins, map_size_insert_None by exact Hnew. cbn. lia. }
      split; [etrans; eassumption|].
      constructor.
      * split; [exact Hnew|].
        eapply lookup_weaken; [|exact Hsub]. rewrite Hins. apply lookup_insert_eq.
      * eapply Forall_impl; [exact Hall|]. intros d [H1 H2]. split; [|exact H2].
        destruct (notifications w !! d.1) eqn:Hd; [|reflexivity].
        eapply lookup_weaken in Hd; [|exact Hsub1]. congruence.
    + destruct (IH acc w1) as (l & w' & E' & Ht' & Hlen & Hsize & Hsub & Hall).
      exists l, w'. rewrite E'. rewrite Hv in *.
      repeat split; auto; try congruence. cbn. lia.
Qed.

(** X1.  [createMultipleTaskNotifications] never raises, whatever the
    recipients, the event type and the state of the store: it returns the
    list of the notifications it created.  Each of them is a new entry of
    the store, no notification that existed is changed or removed, the
    store grows by exactly the length of the list, the list is no longer
    than the list of recipients, and no task is touched.  (So the [catch]
    of the function is never entered.) *)
Theorem createMultipleTaskNotifications_creates (recipientIds : list Ref)
    (senderId : Ref) (task : Stored Task) (type : string) (w : world) :
  exists created w',
    notifications.createMultipleTaskNotifications recipientIds senderId task type w
    = (Ok created, w')
    /\ tasks w' = tasks w
    /\ (List.length created <= List.length recipientIds)%nat
    /\ size (notifications w')
       = (size (notifications w) + List.length created)%nat
    /\ notifications w ⊆ notifications w'
    /\ Forall (fun doc : Stored Notification =>
                 notifications w !! doc.1 = None
                 /\ notifications w' !! doc.1 = Some doc.2) created.
Proof.
  destruct (notify_each_creates recipientIds senderId task type [] w)
    as (l & w' & E & H).
  exists l, w'. split; [|exact H].
  unfold notifications.createMultipleTaskNotifications, try_catch.
  now rewrite E.
Qed.

Lemma createTaskNotification_sent (r s : ObjectId) (task : Stored Task)
    (type : string) (w : world) :
  faults w = [] -> oid_ok r -> oid_ok s -> r <> s ->
  in_enum NotificationModel.types type = true ->
  project_ref_ok task.2 ->
  exists n,
    notifications.createTaskNotification (ROid r) (ROid s) task type w
    = (Ok (Some (fresh (dom (notifications w)), n)),
       set_notifications (insert (fresh (dom (notifications w))) n) w)
    /\ n_recipient n = r /\ n_sender n = s /\ n_type n = type
    /\ n_relatedTask n = Some task.1 /\ n_isRead n = false.
Proof.
  intros Hw Hr Hs Hne Htype Hproj.
  destruct (cast_project_ok _ Hproj) as [p Hp].
  destruct (template_truthy type (t_title task.2)) as [H1 H2].
  eexists. split.
  - unfold notifications.createTaskNotification, try_catch, bind, toString.
    cbn [toStringOpt orThrow ret]. rewrite (toHexString_eqb _ _ Hr Hs Hne).
    rewrite (createNotification_healthy r s type _ _ task.1 _ p w Hw Htype H1 H2 Hp).
    reflexivity.
  - repeat split.
Qed.

Lemma notify_each_fans_out (rs : list ObjectId) (s : ObjectId)
    (task : Stored Task) (type : string) (acc : list (Stored Notification))
    (w : world) :
  faults w = [] -> Forall oid_ok rs -> oid_ok s ->
  in_enum NotificationModel.types type = true ->
  project_ref_ok task.2 ->
  exists l w',
    notifications.notify_each (ROid <$> rs) (ROid s) task type acc w
    = (Ok (acc ++ l)%list, w')
    /\ map (fun doc : Stored Notification => n_recipient doc.2) l
       = List.filter (fun r => negb (N.eqb r s)) rs
    /\ Forall (fun doc : Stored Notification =>
                 n_sender doc.2 = s /\ n_type doc.2 = type
                 /\ n_relatedTask doc.2 = Some task.1 /\ n_isRead doc.2 = false) l.
Proof.
  intros Hw Hrs Hs Htype Hproj. revert acc w Hw.
  induction Hrs as [|r rs Hr Hrs IH]; intros acc w Hw.
  - exists [], w. cbn. rewrite app_nil_r. auto.
  - cbn [fmap list_fmap notifications.notify_each]. unfold bind at 1.
    cbn [List.filter].
    destruct (N.eqb_spec r s) as [->|Hne]; cbn [negb].
    + rewrite (createTaskNotification_self s (ROid s) (ROid s))
        by (left; reflexivity).
      cbv beta iota. apply IH, Hw.
    + destruct (createTaskNotification_sent r s task type w Hw Hr Hs Hne Htype Hproj)
        as (n & E & Hn1 & Hn2 & Hn3 & Hn4 & Hn5).
      rewrite E. cbv beta iota.
      match goal with
      | |- context [notifications.notify_each _ _ _ _ ?acc' ?w1] =>
          destruct (IH acc' w1 Hw) as (l & w' & E' & Hmap & Hall)
      end.
      eexists (_ :: l), w'. rewrite E', <- app_assoc. cbn [app map].
      split; [reflexivity|]. split; [cbn [snd]; now rewrite Hn1, Hmap|].
      constructor; auto.
Qed.

(** X2.  On a healthy store, for recipients and a sender given as ObjectIds,
    an event type of the schema and a task whose project is an id, a
    populated document or null, [createMultipleTaskNotifications] creates
    one unread notification of that type per entry of the recipient list
    that is not the sender, in the order of the list: the sender is left
    out, and a recipient listed twice is notified twice (the list is not
    deduplicated). *)
Theorem createMultipleTaskNotifications_fans_out (recipientIds : list ObjectId)
    (senderId : ObjectId) (task : Stored Task) (type : string) (w : world) :
  faults w = [] -> Forall oid_ok recipientIds -> oid_ok senderId ->
  in_enum NotificationModel.types type = true ->
  project_ref_ok task.2 ->
  exists created w',
    notifications.createMultipleTaskNotifications (ROid <$> recipientIds)
      (ROid senderId) task type w
    = (Ok created, w')
    /\ map (fun doc : Stored Notification => n_recipient doc.2) created
       = List.filter (fun r => negb (N.eqb r senderId)) recipientIds
    /\ Forall (fun doc : Stored Notification =>
                 n_sender doc.2 = senderId /\ n_type doc.2 = type
                 /\ n_relatedTask doc.2 = Some task.1
                 /\ n_isRead doc.2 = false) created.
Proof.
  intros Hw Hrs Hs Htype Hproj.
  destruct (notify_each_fans_out recipientIds senderId task type [] w
              Hw Hrs Hs Htype Hproj) as (l & w' & E & H).
  exists l, w'. split; [|exact H].
  unfold notifications.createMultipleTaskNotifications, try_catch.
  now rewrite E.
Qed.

Lemma oid_ok_small (i : ObjectId) : (i < 1000)%N -> oid_ok i.
Proof. unfold oid_ok. intros H. eapply N.lt_trans; [exact H|]. reflexivity. Qed.

Lemma createMultipleTaskNotifications_fans_out_witness :
  exists created w',
    notifications.createMultipleTaskNotifications
      (ROid <$> [Example.userA; Example.userC; Example.userA; Example.userX])
      (ROid Example.userC) (Example.taskT, Example.task "todo" None)
      "task_updated" (Example.store "todo" None)
    = (Ok created, w')
    /\ map (fun doc : Stored Notification => n_recipient doc.2) created
       = [Example.userA; Example.userA; Example.userX]
    /\ Forall (fun doc : Stored Notification =>
                 n_sender doc.2 = Example.userC /\ n_type doc.2 = "task_updated"
                 /\ n_relatedTask doc.2 = Some Example.taskT
                 /\ n_isRead doc.2 = false) created.
Proof.
  apply (createMultipleTaskNotifications_fans_out
           [Example.userA; Example.userC; Example.userA; Example.userX]
           Example.userC (Example.taskT, Example.task "todo" None)
           "task_updated" (Example.store "todo" None)).
  - reflexivity.
  - repeat (constructor; [reflexivity|]). constructor.
  - reflexivity.
  - reflexivity.
  - exact I.
Defined.

(** ** The loggers and the enum of the schema *)

Lemma logActivity_rejects (d : ActivityLogModel.Data) (w : world) :
  in_enum ActivityLogModel.actions (ActivityLogModel.action d) = false ->
  ActivityLogModel.logActivity d w
  = (Ok None, add_console "Error creating activity log:" w).
Proof.
  intros Ha.
  assert (Hv : ActivityLogModel.validate d (clock w) = None).
  { unfold ActivityLogModel.validate.
    destruct (castRequired (ActivityLogModel.userId d)); [|reflexivity].
    destruct (castObjectId (ActivityLogModel.entityId d)); [|reflexivity].
    destruct (castObjectId (ActivityLogModel.relatedEntityId d)); [|reflexivity].
    cbn [mbind option_bind]. now rewrite Ha. }
  unfold ActivityLogModel.logActivity, try_catch, bind, now.
  now rewrite Hv.
Qed.

(** X3.  With an action that is not in the [enum] of the [ActivityLog]
    schema, each of the five loggers of [utils/activityLogger.js] returns
    [null] and writes nothing: the description falls back to the generic
    text, the validation of [save] rejects the entry before the store is
    contacted, and the only trace is the line on the console. *)
Theorem loggers_reject_unknown_action (action : string) (userId : Ref)
    (req : option Request) (md : list (string * Meta))
    (project : Stored Project) (task : Stored Task) (comment : Comment)
    (member : Stored string) (w : world) :
  in_enum ActivityLogModel.actions action = false ->
  Forall (fun log : M (option (Stored ActivityLog)) =>
            log w = (Ok None, add_console "Error creating activity log:" w))
    [activityLogger.logAuthActivity userId action req md;
     activityLogger.logProjectActivity userId action project req md;
     activityLogger.logTaskActivity userId action task req md;
     activityLogger.logCommentActivity userId action task comment req md;
     activityLogger.logTeamMemberActivity userId action member req md].
Proof.
  intros Ha. repeat constructor; now apply logActivity_rejects.
Qed.

Lemma loggers_reject_unknown_action_witness :
  Forall (fun log : M (option (Stored ActivityLog)) =>
            log (Example.store "todo" None)
            = (Ok None,
               add_console "Error creating activity log:"
                 (Example.store "todo" None)))
    [activityLogger.logAuthActivity (ROid Example.userA) "password_changed"
       (Some Example.request) [];
     activityLogger.logProjectActivity (ROid Example.userA) "password_changed"
       (7%N, mkProject "Site" "The web site" Example.boss)
       (Some Example.request) [];
     activityLogger.logTaskActivity (ROid Example.userA) "password_changed"
       (Example.taskT, Example.task "todo" None) (Some Example.request) [];
     activityLogger.logCommentActivity (ROid Example.userA) "password_changed"
       (Example.taskT, Example.task "todo" None)
       (mkComment 0%N (ROid Example.userA) "on it" 100%Z)
       (Some Example.request) [];
     activityLogger.logTeamMemberActivity (ROid Example.userA)
       "password_changed" (Example.userX, "Xi") (Some Example.request) []].
Proof.
  apply (loggers_reject_unknown_action "password_changed"). reflexivity.
Defined.

Ltac enum_cases H :=
  unfold in_enum in H; cbn [existsb ActivityLogModel.actions] in H;
  repeat match type of H with
         | (String.eqb ?a ?b || _)%bool = true =>
             apply orb_prop in H as [H | H];
             [apply String.eqb_eq in H; subst a |]
         | false = true => discriminate H
         end.

(** X4.  Every action of the schema's [enum] has a description of its own in
    the logger of its family: for each of the nineteen actions, one of the
    five description functions gives a text other than its generic
    fallback ("... action: <action> on ..."). *)
Theorem every_action_has_a_template (action : string) :
  in_enum ActivityLogModel.actions action = true ->
  activityLogger.getAuthDescription action <> "User authentication: " +:+ action
  \/ (forall project,
        activityLogger.getProjectDescription action project
        <> "Project action: " +:+ action +:+ " on "
           +:+ notifications.quoted (p_title project.2))
  \/ (forall task md,
        activityLogger.getTaskDescription action task md
        <> "Task action: " +:+ action +:+ " on "
           +:+ notifications.quoted (t_title task.2))
  \/ (forall task comment,
        activityLogger.getCommentDescription action task comment
        <> "Comment action: " +:+ action +:+ " on task "
           +:+ notifications.quoted (t_title task.2))
  \/ (forall member,
        activityLogger.getTeamMemberDescription action member
        <> "Team member action: " +:+ action +:+ " on "
           +:+ notifications.quoted member.2).
Proof.
  intros H. enum_cases H.
  all: try (left; intros E; vm_compute in E; discriminate E).
  all: try (right; left; intros p E; cbv in E; discriminate E).
  all: try (right; right; left; intros t md E; cbv in E; discriminate E).
  all: try (right; right; right; left; intros t c E; cbv in E; discriminate E).
  all: try (right; right; right; right; intros m E; cbv in E; discriminate E).
Qed.

Lemma every_action_has_a_template_witness :
  activityLogger.getAuthDescription "task_completed"
  <> "User authentication: " +:+ "task_completed"
  \/ (forall project,
        activityLogger.getProjectDescription "task_completed" project
        <> "Project action: " +:+ "task_completed" +:+ " on "
           +:+ notifications.quoted (p_title project.2))
  \/ (forall task md,
        activityLogger.getTaskDescription "task_completed" task md
        <> "Task action: " +:+ "task_completed" +:+ " on "
           +:+ notifications.quoted (t_title task.2))
  \/ (forall task comment,
        activityLogger.getCommentDescription "task_completed" task comment
        <> "Comment action: " +:+ "task_completed" +:+ " on task "
           +:+ notifications.quoted (t_title task.2))
  \/ (forall member,
        activityLogger.getTeamMemberDescription "task_completed" member
        <> "Team member action: " +:+ "task_completed" +:+ " on "
           +:+ notifications.quoted member.2).
Proof.
  apply (every_action_has_a_template "task_completed"). reflexivity.
Defined.

(** ** Reading and clearing notifications *)

Lemma countUnread_healthy (user : ObjectId) (w : world) :
  faults w = [] ->
  NotificationModel.countUnread user w
  = (Ok (size (filter (fun kv : ObjectId * Notification =>
                         NotificationModel.listed user true None kv.2 = true)
                 (notifications w))), w).
Proof.
  intros Hw. apply wp_equation.
  unfold NotificationModel.countUnread, NotificationModel.countDocuments.
  wp_follow. now split.
Qed.

Lemma listed_unread (user : ObjectId) (i : ObjectId) (n : Notification) :
  NotificationModel.listed user true None n
  = NotificationModel.unread_of user [] i n.
Proof.
  unfold NotificationModel.listed, NotificationModel.unread_of.
  now rewrite !andb_true_r.
Qed.

Lemma get_unread_count_healthy (user : ObjectId) (w : world) :
  faults w = [] ->
  NotificationsRoute.get_unread_count user w
  = (Ok (mkResponse 200 empty
           (Some (size (filter (fun kv : ObjectId * Notification =>
                                  NotificationModel.listed user true None kv.2 = true)
                          (notifications w))))), w).
Proof.
  intros Hw. unfold NotificationsRoute.get_unread_count, try_catch, bind.
  now rewrite (countUnread_healthy _ _ Hw).
Qed.

(** X5.  On a healthy store, [PATCH /mark-all-read] without ids (no
    [notificationIds], or an empty array) marks every unread notification
    of the user: the [modifiedCount] it reports is the count
    [GET /unread-count] gave before, and [GET /unread-count] gives 0
    afterwards. *)
Theorem mark_all_read_clears_unread (user : ObjectId)
    (notificationIds : option (list string)) (w : world) :
  faults w = [] -> default [] notificationIds = [] ->
  exists unread w',
    NotificationsRoute.get_unread_count user w
    = (Ok (mkResponse 200 empty (Some unread)), w)
    /\ NotificationsRoute.patch_mark_all_read user notificationIds w
       = (Ok (mkResponse 200
                ("All unread notifications marked as read ("
                 +:+ pretty unread +:+ " updated)")
                (Some unread)), w')
    /\ NotificationsRoute.get_unread_count user w'
       = (Ok (mkResponse 200 empty (Some 0%nat)), w').
Proof.
  intros Hw Hids.
  set (sel := NotificationModel.unread_of user []).
  set (unread := size (filter (fun kv : ObjectId * Notification =>
                                 sel kv.1 kv.2 = true) (notifications w))).
  set (w' := set_notifications
               (map_imap (fun id n =>
                  Some (if sel id n then NotificationModel.read_at (clock w) n
                        else n))) w).
  exists unread, w'. split; [|split].
  - rewrite (get_unread_count_healthy _ _ Hw). reflexivity.
  - apply wp_equation.
    unfold NotificationsRoute.patch_mark_all_read,
      NotificationModel.markMultipleAsRead.
    rewrite Hids. cbn [NotificationModel.cast_ids].
    wp_follow. split; [|reflexivity].
    destruct notificationIds as [[|]|]; try discriminate Hids; reflexivity.
  - assert (Hw' : faults w' = []) by exact Hw.
    rewrite (get_unread_count_healthy _ _ Hw').
    do 4 f_equal. apply map_size_empty_iff, map_empty. intros i.
    apply map_lookup_filter_None_2. right. intros n Hi. cbn [fst snd].
    unfold w' in Hi. cbn [notifications set_notifications] in Hi.
    rewrite map_lookup_imap in Hi.
    destruct (notifications w !! i) as [n0|] eqn:Hn0; [|discriminate Hi].
    cbn in Hi. injection Hi as <-.
    rewrite (listed_unread user i).
    destruct (sel i n0) eqn:Hsel.
    + unfold NotificationModel.unread_of, NotificationModel.read_at. cbn.
      rewrite andb_false_r. discriminate.
    + unfold sel in Hsel. rewrite Hsel. discriminate.
Qed.

Lemma mark_all_read_clears_unread_witness :
  exists unread w',
    NotificationsRoute.get_unread_count Example.userA Example.office
    = (Ok (mkResponse 200 empty (Some unread)), Example.office)
    /\ NotificationsRoute.patch_mark_all_read Example.userA None Example.office
       = (Ok (mkResponse 200
                ("All unread notifications marked as read ("
                 +:+ pretty unread +:+ " updated)")
                (Some unread)), w')
    /\ NotificationsRoute.get_unread_count Example.userA w'
       = (Ok (mkResponse 200 empty (Some 0%nat)), w').
Proof.
  apply (mark_all_read_clears_unread Example.userA None Example.office);
    reflexivity.
Defined.

Example office_unread :
  NotificationsRoute.get_unread_count Example.userA Example.office
  = (Ok (mkResponse 200 empty (Some 2%nat)), Example.office).
Proof. vm_compute. reflexivity. Qed.

(** X6.  On a healthy store, the handler of [DELETE /clear-all] removes
    exactly the read notifications of the user: a notification is in the
    store afterwards iff it was there before and is not a read one of the
    user's; the [deletedCount] of the answer is the number removed; tasks
    and audit trail are untouched. *)
Theorem clear_all_removes_read (user : ObjectId) (w : world) :
  faults w = [] ->
  exists deleted w',
    NotificationsRoute.delete_clear_all user w
    = (Ok (mkResponse 200 (pretty deleted +:+ " read notifications cleared")
             (Some deleted)), w')
    /\ (forall i n,
          notifications w' !! i = Some n
          <-> notifications w !! i = Some n
              /\ ~ (n_recipient n = user /\ n_isRead n = true))
    /\ (size (notifications w') + deleted = size (notifications w))%nat
    /\ tasks w' = tasks w /\ activitylogs w' = activitylogs w.
Proof.
  intros Hw. eexists _, _. split; [|split; [|split]].
  - apply wp_equation.
    unfold NotificationsRoute.delete_clear_all, NotificationModel.deleteManyRead.
    wp_follow. split; reflexivity.
  - intros i n. unfold_store. rewrite map_lookup_filter_Some. cbn [fst snd].
    unfold NotificationModel.read_of.
    split; intros [H1 H2]; (split; [exact H1|]).
    + intros [Hr Hread]. rewrite Hr, N.eqb_refl, Hread in H2. discriminate H2.
    + destruct (N.eqb_spec (n_recipient n) user) as [Hr|Hr]; [|reflexivity].
      destruct (n_isRead n) eqn:Hread; [|reflexivity].
      exfalso. apply H2. now split.
  - unfold_store.
    rewrite (size_filter_split
               (fun kv : ObjectId * Notification =>
                  NotificationModel.read_of user kv.2 = false)
               (fun kv : ObjectId * Notification =>
                  NotificationModel.read_of user kv.2 = true)
               (notifications w)); [reflexivity|].
    intros kv. destruct (NotificationModel.read_of user kv.2); split; congruence.
  - split; reflexivity.
Qed.

Lemma clear_all_removes_read_witness :
  exists deleted w',
    NotificationsRoute.delete_clear_all Example.userA Example.office
    = (Ok (mkResponse 200 (pretty deleted +:+ " read notifications cleared")
             (Some deleted)), w')
    /\ (forall i n,
          notifications w' !! i = Some n
          <-> notifications Example.office !! i = Some n
              /\ ~ (n_recipient n = Example.userA /\ n_isRead n = true))
    /\ (size (notifications w') + deleted
        = size (notifications Example.office))%nat
    /\ tasks w' = tasks Example.office
    /\ activitylogs w' = activitylogs Example.office.
Proof.
  apply (clear_all_removes_read Example.userA Example.office). reflexivity.
Defined.

(** X7.  On a healthy store, [PATCH /:id/read] and [DELETE /:id] with the
    well-formed id of a notification that belongs to another user, or of
    none at all, both answer 404 "Notification not found" and leave the
    whole store as it was: the answer does not tell whether the
    notification exists. *)
Theorem foreign_notification_not_found (user : ObjectId) (id : string)
    (i : ObjectId) (w : world) :
  faults w = [] -> oid_of_string id = Some i ->
  (forall n, notifications w !! i = Some n -> n_recipient n <> user) ->
  NotificationsRoute.patch_read user id w
  = (Ok (mkResponse 404 "Notification not found" None), w)
  /\ NotificationsRoute.delete_id user id w
     = (Ok (mkResponse 404 "Notification not found" None), w).
Proof.
  intros Hw Hid Hforeign.
  assert (Hsel : match notifications w !! i with
                 | Some n => if N.eqb (n_recipient n) user then Some (i, n) else None
                 | None => None
                 end = None).
  { destruct (notifications w !! i) as [n|] eqn:Hi; [|reflexivity].
    specialize (Hforeign n eq_refl). apply N.eqb_neq in Hforeign.
    now rewrite Hforeign. }
  split; apply wp_equation.
  - unfold NotificationsRoute.patch_read, NotificationModel.findOne.
    wp_follow; try (now split); congruence.
  - unfold NotificationsRoute.delete_id, NotificationModel.findOneAndDelete.
    wp_follow; try (now split).
    all: match goal with
         | H1 : notifications _ !! _ = Some ?n, H2 : N.eqb _ _ = true |- _ =>
             rewrite H1 in Hsel; exfalso; revert Hsel; rewrite H2; discriminate
         end.
Qed.

Lemma foreign_notification_not_found_witness :
  NotificationsRoute.patch_read Example.userA "000000000000000000000016"
    Example.office
  = (Ok (mkResponse 404 "Notification not found" None), Example.office)
  /\ NotificationsRoute.delete_id Example.userA "000000000000000000000016"
       Example.office
     = (Ok (mkResponse 404 "Notification not found" None), Example.office).
Proof.
  apply (foreign_notification_not_found Example.userA
           "000000000000000000000016" 22%N Example.office).
  - reflexivity.
  - reflexivity.
  - intros n Hn. vm_compute in Hn. injection Hn as <-. discriminate.
Defined.

(** X8.  On a healthy store, [PATCH /mark-all-read] with a non-empty list of
    well-formed ids marks exactly the listed notifications that are unread
    and the user's: those get [isRead] and [readAt] = now, every other
    notification (another user's, already read, or not listed) stays as it
    was, none is added or removed, and the count of the answer is the
    number marked. *)
Theorem mark_selected_marks_only_listed (user : ObjectId) (ids : list string)
    (listed : list ObjectId) (w : world) :
  faults w = [] -> ids <> [] -> NotificationModel.cast_ids ids = Some listed ->
  exists count w',
    NotificationsRoute.patch_mark_all_read user (Some ids) w
    = (Ok (mkResponse 200 (pretty count +:+ " notifications marked as read")
             (Some count)), w')
    /\ count
       = size (filter (fun kv : ObjectId * Notification =>
                         n_recipient kv.2 = user /\ n_isRead kv.2 = false
                         /\ kv.1 ∈ listed)
                 (notifications w))
    /\ (forall i n,
          notifications w !! i = Some n ->
          n_recipient n = user -> n_isRead n = false -> i ∈ listed ->
          notifications w' !! i
          = Some (NotificationModel.read_at (clock w) n))
    /\ (forall i n,
          notifications w !! i = Some n ->
          n_recipient n <> user \/ n_isRead n = true \/ i ∉ listed ->
          notifications w' !! i = Some n)
    /\ dom (notifications w') = dom (notifications w).
Proof.
  intros Hw Hids Hcast.
  assert (Hlisted : listed <> []).
  { destruct ids as [|s ids]; [contradiction|].
    cbn in Hcast. destruct (oid_of_string s); [|discriminate].
    cbn in Hcast. destruct (NotificationModel.cast_ids ids); [|discriminate].
    cbn in Hcast. injection Hcast as <-. discriminate. }
  set (sel := NotificationModel.unread_of user listed).
  assert (Hsel : forall i n,
            sel i n = true
            <-> n_recipient n = user /\ n_isRead n = false /\ i ∈ listed).
  { intros i n. unfold sel, NotificationModel.unread_of.
    destruct listed as [|l0 ls]; [contradiction|].
    rewrite !andb_true_iff, N.eqb_eq, negb_true_iff.
    rewrite existsb_exists.
    split.
    - intros [[H1 H2] (x & Hx & Hix)]. apply N.eqb_eq in Hix. subst x.
      repeat split; auto. now apply list_elem_of_In.
    - intros (H1 & H2 & H3). repeat split; auto.
      exists i. split; [now apply list_elem_of_In | apply N.eqb_refl]. }
  eexists _, _. split; [|split; [|split; [|split]]].
  - apply wp_equation.
    unfold NotificationsRoute.patch_mark_all_read,
      NotificationModel.markMultipleAsRead.
    cbn [default from_option id]. rewrite Hcast.
    wp_follow. split; [|reflexivity].
    destruct ids; [contradiction | reflexivity].
  - fold sel. apply f_equal, map_filter_ext. intros i n _. apply Hsel.
  - intros i n Hi Hr Hu Hl. unfold_store. rewrite map_lookup_imap, Hi. cbn.
    fold sel. now rewrite (proj2 (Hsel i n)) by auto.
  - intros i n Hi Hnot. unfold_store. rewrite map_lookup_imap, Hi. cbn.
    fold sel. destruct (sel i n) eqn:Hs; [|reflexivity].
    apply Hsel in Hs as (H1 & H2 & H3).
    destruct Hnot as [H | [H | H]]; [contradiction | congruence | contradiction].
  - unfold_store. apply set_eq. intros i. rewrite !elem_of_dom.
    rewrite map_lookup_imap.
    destruct (notifications w !! i); cbn; split; intros [x Hx];
      try discriminate; eauto.
Qed.

Lemma mark_selected_marks_only_listed_witness :
  exists count w',
    NotificationsRoute.patch_mark_all_read Example.userA
      (Some ["000000000000000000000014"; "000000000000000000000016"])
      Example.office
    = (Ok (mkResponse 200 (pretty count +:+ " notifications marked as read")
             (Some count)), w')
    /\ count
       = size (filter (fun kv : ObjectId * Notification =>
                         n_recipient kv.2 = Example.userA
                         /\ n_isRead kv.2 = false /\ kv.1 ∈ [20%N; 22%N])
                 (notifications Example.office))
    /\ (forall i n,
          notifications Example.office !! i = Some n ->
          n_recipient n = Example.userA -> n_isRead n = false ->
          i ∈ [20%N; 22%N] ->
          notifications w' !! i = Some (NotificationModel.read_at 1000%Z n))
    /\ (forall i n,
          notifications Example.office !! i = Some n ->
          n_recipient n <> Example.userA \/ n_isRead n = true
          \/ i ∉ [20%N; 22%N] ->
          notifications w' !! i = Some n)
    /\ dom (notifications w') = dom (notifications Example.office).
Proof.
  apply (mark_selected_marks_only_listed Example.userA
           ["000000000000000000000014"; "000000000000000000000016"]
           [20%N; 22%N] Example.office).
  - reflexivity.
  - discriminate.
  - reflexivity.
Defined.

(** X9.  If one id of [notificationIds] is not the text of an ObjectId,
    [PATCH /mark-all-read] answers 500 "Server error marking notifications
    as read" (not 400, unlike the handlers that take the id from the
    path) and marks nothing, whatever the state of the store. *)
Theorem malformed_id_in_list_is_a_server_error (user : ObjectId)
    (ids : list string) (w : world) :
  NotificationModel.cast_ids ids = None ->
  NotificationsRoute.patch_mark_all_read user (Some ids) w
  = (Ok (mkResponse 500 "Server error marking notifications as read" None),
     add_console "Mark all notifications read error:" w).
Proof.
  intros Hcast.
  unfold NotificationsRoute.patch_mark_all_read,
    NotificationModel.markMultipleAsRead, try_catch, bind, now.
  cbn [default from_option id]. now rewrite Hcast.
Qed.

Lemma malformed_id_in_list_is_a_server_error_witness :
  NotificationsRoute.patch_mark_all_read Example.userA
    (Some ["000000000000000000000014"; "latest"]) Example.office
  = (Ok (mkResponse 500 "Server error marking notifications as read" None),
     add_console "Mark all notifications read error:" Example.office).
Proof.
  apply (malformed_id_in_list_is_a_server_error Example.userA
           ["000000000000000000000014"; "latest"] Example.office).
  reflexivity.
Defined.

(** ** The order of the routes *)

Ltac route_cases :=
  cbn -[String.eqb truthy_str];
  repeat match goal with
         | |- context [String.eqb ?a ?b] =>
             destruct (String.eqb_spec a b) as [<-|?]
         end;
  repeat match goal with
         | |- context [truthy_str (String ?c ?r)] =>
             change (truthy_str (String c r)) with true
         end;
  repeat match goal with
         | |- context [if truthy_str ?a then _ else _] => destruct (truthy_str a)
         end;
  cbn [fmap option_fmap option_map]; try discriminate; try reflexivity.

Lemma get_id_malformed (taskId : string) (w : world) :
  oid_of_string taskId = None ->
  TasksRoute.get_id taskId w
  = (Ok (mkResponse 400 "Invalid task ID format" None),
     add_console "Get task error:" w).
Proof.
  intros H. unfold TasksRoute.get_id, TaskModel.findById, try_catch, bind.
  now rewrite H.
Qed.

Lemma delete_id_malformed (user : ObjectId) (id : string) (w : world) :
  oid_of_string id = None ->
  NotificationsRoute.delete_id user id w
  = (Ok (mkResponse 400 "Invalid notification ID format" None),
     add_console "Delete notification error:" w).
Proof.
  intros H.
  unfold NotificationsRoute.delete_id, NotificationModel.findOneAndDelete,
    try_catch, bind.
  now rewrite H.
Qed.

(** X10.  The notification router registers [DELETE /:id] before
    [DELETE /clear-all], so no request reaches the clear-all handler (every
    other handler of the router is reachable): [DELETE /clear-all] goes to
    the [/:id] handler with id "clear-all", which answers 400 "Invalid
    notification ID format" and deletes nothing. *)
Theorem clear_all_is_shadowed (user : ObjectId) (w : world) :
  (forall m path params,
     Express.dispatch Express.notification_routes m path
     <> Some (Express.NDeleteClearAll, params))
  /\ (forall h, h <> Express.NDeleteClearAll ->
        exists m path params,
          Express.dispatch Express.notification_routes m path = Some (h, params))
  /\ Express.dispatch Express.notification_routes Express.DELETE ["clear-all"]
     = Some (Express.NDeleteId, ["clear-all"])
  /\ NotificationsRoute.delete_id user "clear-all" w
     = (Ok (mkResponse 400 "Invalid notification ID format" None),
        add_console "Delete notification error:" w).
Proof.
  split; [|split; [|split]].
  - intros m path params.
    destruct m; destruct path as [|x [|y [|z r]]]; route_cases.
  - intros h Hh. destruct h.
    + now exists Express.GET, [], [].
    + now exists Express.GET, ["unread-count"], [].
    + now exists Express.PATCH, ["7"; "read"], ["7"].
    + now exists Express.PATCH, ["mark-all-read"], [].
    + now exists Express.DELETE, ["7"], ["7"].
    + contradiction.
  - reflexivity.
  - now apply delete_id_malformed.
Qed.

(** X11.  The task router registers [GET /:id] before [GET /my-tasks], so no
    request reaches the my-tasks handler (every other handler of the
    router is reachable): [GET /my-tasks] goes to the [/:id] handler with
    id "my-tasks", which answers 400 "Invalid task ID format". *)
Theorem my_tasks_is_shadowed (w : world) :
  (forall m path params,
     Express.dispatch Express.task_routes m path
     <> Some (Express.TGetMyTasks, params))
  /\ (forall h, h <> Express.TGetMyTasks ->
        exists m path params,
          Express.dispatch Express.task_routes m path = Some (h, params))
  /\ Express.dispatch Express.task_routes Express.GET ["my-tasks"]
     = Some (Express.TGetId, ["my-tasks"])
  /\ TasksRoute.get_id "my-tasks" w
     = (Ok (mkResponse 400 "Invalid task ID format" None),
        add_console "Get task error:" w).
Proof.
  split; [|split; [|split]].
  - intros m path params.
    destruct m; destruct path as [|x [|y [|z [|z' r]]]]; route_cases.
  - intros h Hh. destruct h.
    + now exists Express.GET, [], [].
    + now exists Express.GET, ["users"], [].
    + now exists Express.GET, ["7"], ["7"].
    + now exists Express.POST, [], [].
    + now exists Express.PUT, ["7"], ["7"].
    + now exists Express.PATCH, ["7"; "status"], ["7"].
    + now exists Express.DELETE, ["7"], ["7"].
    + now exists Express.GET, ["stats"; "overview"], [].
    + contradiction.
    + now exists Express.GET, ["7"; "comments"], ["7"].
    + now exists Express.POST, ["7"; "comments"], ["7"].
    + now exists Express.PUT, ["7"; "comments"; "9"], ["7"; "9"].
    + now exists Express.DELETE, ["7"; "comments"; "9"], ["7"; "9"].
  - reflexivity.
  - now apply get_id_malformed.
Qed.

(** ** Deleting a task; editing and deleting a comment *)

(** X12.  [DELETE /api/tasks/:id], for every id and every state of the store:
    it always answers; with 200 it has removed exactly the task it
    returns, with any other status the tasks are as before; in both cases
    it writes no audit entry (although the schema has [task_deleted]) and
    creates or removes no notification. *)
Theorem delete_task_effect (taskId : string) (w : world) :
  wp (TasksRoute.delete_id taskId) w
     (fun res w' =>
        notifications w' = notifications w
        /\ activitylogs w' = activitylogs w
        /\ exists resp, res = Ok resp
           /\ ((res_status resp = 200
                /\ exists i t, oid_of_string taskId = Some i
                     /\ tasks w !! i = Some t
                     /\ res_body resp = Some (i, t)
                     /\ tasks w' = delete i (tasks w))
               \/ (res_status resp <> 200 /\ tasks w' = tasks w))).
Proof.
  unfold TasksRoute.delete_id, TaskModel.findByIdAndDelete.
  wp_run; unfold_store; (split; [reflexivity|]); (split; [reflexivity|]);
    eexists; (split; [reflexivity|]);
    try (right; split; [discriminate | reflexivity]);
    left; (split; [reflexivity|]); eexists _, _; repeat split; eauto.
Qed.

Lemma commentById_spec (commentId : string) (cs : list Comment) (c : Comment) :
  TaskModel.commentById commentId cs = Some c ->
  oid_of_string commentId = Some (c_id c) /\ c ∈ cs.
Proof.
  unfold TaskModel.commentById.
  destruct (oid_of_string commentId) as [i|]; [|discriminate].
  intros H. pose proof (find_some _ _ H) as [Hin Heq].
  apply N.eqb_eq in Heq. subst i. split; [reflexivity|].
  now apply list_elem_of_In.
Qed.

Lemma truthy_trim (text : string) :
  (truthy_str text && negb (Nat.eqb (String.length (trim text)) 0))%bool = true ->
  truthy_str (trim text) = true.
Proof.
  intros [_ H]%andb_prop. unfold truthy_str, empty.
  destruct (trim text); [discriminate H | reflexivity].
Qed.

(** X13.  On a healthy store, a user who is neither the author of a comment
    nor an admin cannot edit or delete it: [PUT] and [DELETE
    /:taskId/comments/:commentId] answer 403 and leave the whole store as
    it was. *)
Theorem comment_of_another_author_protected (user a : ObjectId)
    (role taskId commentId text : string) (tid : ObjectId) (t : Task)
    (c : Comment) (w : world) :
  faults w = [] -> oid_of_string taskId = Some tid ->
  tasks w !! tid = Some t ->
  TaskModel.commentById commentId (t_comments t) = Some c ->
  c_author c = ROid a -> oid_ok a -> oid_ok user -> a <> user ->
  role <> "admin" ->
  (truthy_str text && negb (Nat.eqb (String.length (trim text)) 0))%bool = true ->
  CommentsRoute.put user role taskId commentId (Some text) w
  = (Ok (mkResponse 403 "You can only edit your own comments" None), w)
  /\ CommentsRoute.delete_id user role taskId commentId w
     = (Ok (mkResponse 403 "You can only delete your own comments" None), w).
Proof.
  intros Hw Hid Ht Hc Ha Hoa Hou Hne Hrole Htext.
  assert (Hmay : CommentsRoute.mayNotTouch (toHexString a) user role = true).
  { unfold CommentsRoute.mayNotTouch.
    rewrite (toHexString_eqb _ _ Hoa Hou Hne).
    apply String.eqb_neq in Hrole. now rewrite Hrole. }
  split.
  - unfold CommentsRoute.put. rewrite Htext.
    unfold try_catch, bind at 1.
    rewrite (findById_healthy _ tid w Hw Hid), Ht.
    cbn [fmap option_fmap option_map snd]. rewrite Hc.
    unfold bind, toString. rewrite Ha. cbn [toStringOpt orThrow ret].
    now rewrite Hmay.
  - unfold CommentsRoute.delete_id.
    unfold try_catch, bind at 1.
    rewrite (findById_healthy _ tid w Hw Hid), Ht.
    cbn [fmap option_fmap option_map snd]. rewrite Hc.
    unfold bind, toString. rewrite Ha. cbn [toStringOpt orThrow ret].
    now rewrite Hmay.
Qed.

Lemma comment_of_another_author_protected_witness :
  CommentsRoute.put Example.userX "member" Example.taskT_param
    "000000000000000000000001" (Some "never mind") (Example.store "todo" None)
  = (Ok (mkResponse 403 "You can only edit your own comments" None),
     Example.store "todo" None)
  /\ CommentsRoute.delete_id Example.userX "member" Example.taskT_param
       "000000000000000000000001" (Example.store "todo" None)
     = (Ok (mkResponse 403 "You can only delete your own comments" None),
        Example.store "todo" None).
Proof.
  apply (comment_of_another_author_protected Example.userX Example.userC
           "member" Example.taskT_param "000000000000000000000001"
           "never mind" Example.taskT (Example.task "todo" None)
           (mkComment 1%N (ROid Example.userC) "thanks" 200%Z)); 
    try reflexivity; discriminate.
Defined.

Lemma length_update_comment (i : ObjectId) (f : Comment -> Comment)
    (cs : list Comment) :
  List.length (TaskModel.update_comment i f cs) = List.length cs.
Proof.
  induction cs as [|c cs IH]; [reflexivity|]. cbn.
  destruct (N.eqb (c_id c) i); cbn; congruence.
Qed.

Lemma update_comment_other (i : ObjectId) (f : Comment -> Comment)
    (cs : list Comment) (k : nat) (c0 : Comment) :
  cs !! k = Some c0 -> c_id c0 <> i ->
  TaskModel.update_comment i f cs !! k = Some c0.
Proof.
  revert k. induction cs as [|c cs IH]; intros k Hk Hne; [discriminate Hk|].
  cbn. destruct (N.eqb_spec (c_id c) i) as [Hc|Hc].
  - destruct k as [|k]; cbn in *; [|exact Hk].
    injection Hk as ->. contradiction.
  - destruct k as [|k]; cbn in *; [exact Hk | now apply IH].
Qed.

Lemma find_update_comment (i : ObjectId) (f : Comment -> Comment)
    (cs : list Comment) (c : Comment) :
  List.find (fun c => N.eqb (c_id c) i) cs = Some c ->
  c_id (f c) = i ->
  List.find (fun c => N.eqb (c_id c) i) (TaskModel.update_comment i f cs)
  = Some (f c).
Proof.
  intros Hfind Hf. induction cs as [|c0 cs IH]; [discriminate Hfind|].
  cbn in *. destruct (N.eqb (c_id c0) i) eqn:Hc0.
  - injection Hfind as ->. cbn. now rewrite Hf, N.eqb_refl.
  - cbn. rewrite Hc0. now apply IH.
Qed.

Lemma mayNotTouch_allowed (a user : ObjectId) (role : string) :
  a = user \/ role = "admin" ->
  CommentsRoute.mayNotTouch (toHexString a) user role = false.
Proof.
  unfold CommentsRoute.mayNotTouch. intros [-> | ->].
  - now rewrite String.eqb_refl.
  - apply andb_false_r.
Qed.

Lemma populateAuthors_healthy (doc : Stored Task) (w : world) :
  faults w = [] ->
  TaskModel.populateAuthors doc w
  = (Ok (doc.1,
         TaskModel.set_comments
           (map (fun c => mkComment (c_id c)
                            (populate_user ["name"; "email"; "avatar"] w (c_author c))
                            (c_text c) (c_timestamp c))
              (t_comments doc.2))
           doc.2), w).
Proof.
  intros Hw. apply wp_equation. unfold TaskModel.populateAuthors.
  wp_follow. now split.
Qed.

Lemma saveComments_healthy (doc : Stored Task) (cs : list Comment) (w : world) :
  faults w = [] ->
  let t' := TaskModel.set_updatedAt (clock w) (TaskModel.set_comments cs doc.2) in
  TaskModel.saveComments doc cs w
  = (Ok (doc.1, t'), set_tasks (insert doc.1 t') w).
Proof.
  intros Hw t'. apply wp_equation. unfold TaskModel.saveComments.
  wp_follow. now split.
Qed.

Lemma find_map_populate (i : ObjectId) (g : Ref -> Ref) (cs : list Comment) :
  List.find (fun c => N.eqb (c_id c) i)
    (map (fun c => mkComment (c_id c) (g (c_author c)) (c_text c) (c_timestamp c)) cs)
  = (fun c => mkComment (c_id c) (g (c_author c)) (c_text c) (c_timestamp c))
      <$> List.find (fun c => N.eqb (c_id c) i) cs.
Proof.
  induction cs as [|c cs IH]; [reflexivity|]. cbn.
  destruct (N.eqb (c_id c) i); [reflexivity | exact IH].
Qed.

(** X14.  On a healthy store, the author of a comment, or an admin, edits it
    with [PUT /:taskId/comments/:commentId]: the answer is 200 with the
    comment; the comment keeps its id and its author (also when an admin
    edits it), its text is the trimmed new text and its timestamp is now;
    the other comments stay where they are; status and [completedAt] of
    the task are unchanged; no notification and no audit entry is
    written. *)
Theorem comment_edit_effect (user a : ObjectId)
    (role taskId commentId text : string) (tid : ObjectId) (t : Task)
    (c : Comment) (w : world) :
  faults w = [] -> oid_of_string taskId = Some tid ->
  tasks w !! tid = Some t ->
  TaskModel.commentById commentId (t_comments t) = Some c ->
  c_author c = ROid a -> a = user \/ role = "admin" ->
  (truthy_str text && negb (Nat.eqb (String.length (trim text)) 0))%bool = true ->
  exists resp w' t',
    CommentsRoute.put user role taskId commentId (Some text) w = (Ok resp, w')
    /\ res_status resp = 200
    /\ res_body resp
       = Some (mkComment (c_id c)
                 (populate_user ["name"; "email"; "avatar"] w (ROid a))
                 (trim text) (clock w))
    /\ tasks w' = <[tid := t']> (tasks w)
    /\ TaskModel.commentById commentId (t_comments t')
       = Some (mkComment (c_id c) (ROid a) (trim text) (clock w))
    /\ List.length (t_comments t') = List.length (t_comments t)
    /\ (forall k c0, t_comments t !! k = Some c0 -> c_id c0 <> c_id c ->
          t_comments t' !! k = Some c0)
    /\ t_status t' = t_status t /\ t_completedAt t' = t_completedAt t
    /\ notifications w' = notifications w
    /\ activitylogs w' = activitylogs w.
Proof.
  intros Hw Hid Ht Hc Ha Hallowed Htext.
  pose proof (mayNotTouch_allowed a user role Hallowed) as Hmay.
  pose proof Hc as Hc'. unfold TaskModel.commentById in Hc'.
  destruct (oid_of_string commentId) as [ci|] eqn:Hci; [|discriminate Hc'].
  pose proof (find_some _ _ Hc') as [_ Hci'%N.eqb_eq]. subst ci.
  set (f := fun c0 : Comment =>
              mkComment (c_id c0) (c_author c0) (trim text) (clock w)).
  set (edited := TaskModel.update_comment (c_id c) f (t_comments t)).
  set (t' := TaskModel.set_updatedAt (clock w) (TaskModel.set_comments edited t)).
  assert (Hfind : List.find (fun c0 => N.eqb (c_id c0) (c_id c)) edited = Some (f c)).
  { apply find_update_comment; [exact Hc' | reflexivity]. }
  eexists _, _, t'. split.
  - unfold CommentsRoute.put. rewrite Htext.
    unfold try_catch, bind at 1.
    rewrite (findById_healthy _ tid w Hw Hid), Ht.
    cbn [fmap option_fmap option_map snd fst]. rewrite Hc.
    unfold bind at 1, toString. rewrite Ha. cbn [toStringOpt orThrow ret].
    rewrite Hmay. unfold bind at 1, now.
    unfold bind at 1.
    rewrite (saveComments_healthy (tid, t) _ w Hw). cbn [fst snd].
    unfold bind at 1.
    match goal with
    | |- context [TaskModel.populateAuthors ?d ?w1] =>
        rewrite (populateAuthors_healthy d w1 Hw)
    end. cbn [fst snd].
    unfold TaskModel.commentById. rewrite Hci.
    cbn [t_comments TaskModel.set_comments TaskModel.set_updatedAt].
    fold f. fold edited.
    rewrite find_map_populate, Hfind. cbn [fmap option_fmap option_map].
    reflexivity.
  - cbn [res_status res_body]. split; [reflexivity|].
    split; [unfold f; now rewrite Ha|].
    split; [reflexivity|].
    split.
    { unfold TaskModel.commentById. rewrite Hci. cbn [t_comments t' TaskModel.set_comments TaskModel.set_updatedAt].
      rewrite Hfind. unfold f. now rewrite Ha. }
    split; [apply length_update_comment|].
    split; [intros k c0 Hk Hne; now apply update_comment_other|].
    repeat split.
Qed.

Lemma comment_edit_effect_witness :
  exists resp w' t',
    CommentsRoute.put Example.boss "admin" Example.taskT_param
      "000000000000000000000001" (Some "  thank you ")
      (Example.store "completed" (Some 900%Z))
    = (Ok resp, w')
    /\ res_status resp = 200
    /\ res_body resp
       = Some (mkComment 1%N
                 (populate_user ["name"; "email"; "avatar"]
                    (Example.store "completed" (Some 900%Z)) (ROid Example.userC))
                 "thank you" 1000%Z)
    /\ tasks w' = <[Example.taskT := t']> (tasks (Example.store "completed" (Some 900%Z)))
    /\ TaskModel.commentById "000000000000000000000001" (t_comments t')
       = Some (mkComment 1%N (ROid Example.userC) "thank you" 1000%Z)
    /\ List.length (t_comments t') = 3%nat
    /\ (forall k c0,
          t_comments (Example.task "completed" (Some 900%Z)) !! k = Some c0 ->
          c_id c0 <> 1%N -> t_comments t' !! k = Some c0)
    /\ t_status t' = "completed" /\ t_completedAt t' = Some 900%Z
    /\ notifications w' = ∅ /\ activitylogs w' = ∅.
Proof.
  apply (comment_edit_effect Example.boss Example.userC "admin"
           Example.taskT_param "000000000000000000000001" "  thank you "
           Example.taskT (Example.task "completed" (Some 900%Z))
           (mkComment 1%N (ROid Example.userC) "thanks" 200%Z)
           (Example.store "completed" (Some 900%Z)));
    try reflexivity.
  right. reflexivity.
Defined.

Lemma elem_of_pull (i : ObjectId) (cs : list Comment) (c0 : Comment) :
  c0 ∈ TaskModel.pull i cs <-> c0 ∈ cs /\ c_id c0 <> i.
Proof.
  unfold TaskModel.pull. rewrite !list_elem_of_In, filter_In, negb_true_iff.
  now rewrite N.eqb_neq.
Qed.

Lemma find_pull (i : ObjectId) (cs : list Comment) :
  List.find (fun c => N.eqb (c_id c) i) (TaskModel.pull i cs) = None.
Proof.
  induction cs as [|c cs IH]; [reflexivity|]. cbn.
  destruct (N.eqb (c_id c) i) eqn:Hc; cbn; [exact IH | now rewrite Hc].
Qed.

Lemma sublist_pull (i : ObjectId) (cs : list Comment) :
  sublist (TaskModel.pull i cs) cs.
Proof.
  induction cs as [|c cs IH]; [constructor|]. cbn.
  destruct (negb (N.eqb (c_id c) i)); now constructor.
Qed.

(** X15.  On a healthy store, the author of a comment, or an admin, deletes it
    with [DELETE /:taskId/comments/:commentId]: the answer is 200; the
    task has the comments it had, in their order, without the ones with
    that id; status and [completedAt] are unchanged; no notification and
    no audit entry is written. *)
Theorem comment_delete_effect (user a : ObjectId)
    (role taskId commentId : string) (tid : ObjectId) (t : Task)
    (c : Comment) (w : world) :
  faults w = [] -> oid_of_string taskId = Some tid ->
  tasks w !! tid = Some t ->
  TaskModel.commentById commentId (t_comments t) = Some c ->
  c_author c = ROid a -> a = user \/ role = "admin" ->
  exists w' t',
    CommentsRoute.delete_id user role taskId commentId w
    = (Ok (mkResponse 200 "Comment deleted successfully" (Some tt)), w')
    /\ tasks w' = <[tid := t']> (tasks w)
    /\ TaskModel.commentById commentId (t_comments t') = None
    /\ (forall c0, c0 ∈ t_comments t' <-> c0 ∈ t_comments t /\ c_id c0 <> c_id c)
    /\ sublist (t_comments t') (t_comments t)
    /\ t_status t' = t_status t /\ t_completedAt t' = t_completedAt t
    /\ notifications w' = notifications w
    /\ activitylogs w' = activitylogs w.
Proof.
  intros Hw Hid Ht Hc Ha Hallowed.
  pose proof (mayNotTouch_allowed a user role Hallowed) as Hmay.
  pose proof Hc as Hc'. unfold TaskModel.commentById in Hc'.
  destruct (oid_of_string commentId) as [ci|] eqn:Hci; [|discriminate Hc'].
  pose proof (find_some _ _ Hc') as [_ Hci'%N.eqb_eq]. subst ci.
  set (t' := TaskModel.set_updatedAt (clock w)
               (TaskModel.set_comments
                  (TaskModel.pull (c_id c) (t_comments t)) t)).
  eexists _, t'. split.
  - unfold CommentsRoute.delete_id.
    unfold try_catch, bind at 1.
    rewrite (findById_healthy _ tid w Hw Hid), Ht.
    cbn [fmap option_fmap option_map snd fst]. rewrite Hc.
    unfold bind at 1, toString. rewrite Ha. cbn [toStringOpt orThrow ret].
    rewrite Hmay. unfold bind at 1.
    rewrite (saveComments_healthy (tid, t) _ w Hw). cbn [fst snd].
    reflexivity.
  - split; [reflexivity|].
    split.
    { unfold TaskModel.commentById. rewrite Hci. apply find_pull. }
    split; [intros c0; apply elem_of_pull|].
    split; [apply sublist_pull|].
    repeat split.
Qed.

Lemma comment_delete_effect_witness :
  exists w' t',
    CommentsRoute.delete_id Example.userC "member" Example.taskT_param
      "000000000000000000000001" (Example.store "todo" None)
    = (Ok (mkResponse 200 "Comment deleted successfully" (Some tt)), w')
    /\ tasks w' = <[Example.taskT := t']> (tasks (Example.store "todo" None))
    /\ TaskModel.commentById "000000000000000000000001" (t_comments t') = None
    /\ (forall c0, c0 ∈ t_comments t'
          <-> c0 ∈ t_comments (Example.task "todo" None) /\ c_id c0 <> 1%N)
    /\ sublist (t_comments t') (t_comments (Example.task "todo" None))
    /\ t_status t' = "todo" /\ t_completedAt t' = None
    /\ notifications w' = ∅ /\ activitylogs w' = ∅.
Proof.
  apply (comment_delete_effect Example.userC Example.userC "member"
           Example.taskT_param "000000000000000000000001"
           Example.taskT (Example.task "todo" None)
           (mkComment 1%N (ROid Example.userC) "thanks" 200%Z)
           (Example.store "todo" None));
    try reflexivity.
  left. reflexivity.
Defined.

(** ** Lists, newest first *)

Section NewestFirst.

Context {A : Type} (key : A -> Z).

Lemma insert_by_perm (x : A) (l : list A) : insert_by key x l ≡ₚ x :: l.
Proof.
  induction l as [|y l IH]; [reflexivity|]. cbn.
  destruct (key y <=? key x)%Z; [reflexivity|].
  rewrite IH. apply perm_swap.
Qed.

Lemma newest_first_perm (l : list A) : newest_first key l ≡ₚ l.
Proof.
  induction l as [|x l IH]; [reflexivity|].
  cbn. rewrite insert_by_perm. now rewrite IH.
Qed.

Lemma newest_first_length (l : list A) :
  List.length (newest_first key l) = List.length l.
Proof. apply Permutation_length, newest_first_perm. Qed.

Lemma insert_by_sorted (x : A) (l : list A) :
  StronglySorted (fun a b => (key b <= key a)%Z) l ->
  StronglySorted (fun a b => (key b <= key a)%Z) (insert_by key x l).
Proof.
  induction 1 as [|y l Hl IH Hy]; cbn.
  - repeat constructor.
  - destruct (Z.leb_spec (key y) (key x)) as [Hle|Hlt].
    + constructor; [now constructor|].
      constructor; [exact Hle|].
      eapply Forall_impl; [exact Hy|]. cbn. intros z Hz. lia.
    + constructor; [exact IH|].
      rewrite insert_by_perm. constructor; [lia | exact Hy].
Qed.

Lemma newest_first_sorted (l : list A) :
  StronglySorted (fun a b => (key b <= key a)%Z) (newest_first key l).
Proof.
  induction l as [|x l IH]; [constructor|]. cbn. now apply insert_by_sorted.
Qed.

End NewestFirst.

Lemma populateRefs_run (sa sp sc : list string) (doc : Stored Task) (w : world) :
  faults w = [] ->
  TaskModel.populateRefs sa sp sc doc w
  = (Ok (doc.1,
         mkTask (t_title doc.2) (t_description doc.2)
           (populate_user sa w (t_assignee_id doc.2))
           (populate_project sp w (t_project_id doc.2))
           (t_status doc.2) (t_priority doc.2) (t_dueDate doc.2)
           (populate_user sc w (t_createdBy doc.2))
           (t_completedAt doc.2) (t_comments doc.2) (t_createdAt doc.2)
           (t_updatedAt doc.2)), w).
Proof.
  intros Hw. apply wp_equation. unfold TaskModel.populateRefs. wp_follow.
  split; reflexivity.
Qed.

(** X16.  On a healthy store, [GET /:id/comments] and [GET /:id] of an
    existing task list the same comments: all the comments of the task
    (with their authors populated), newest first; [count] is their number
    and [taskTitle] the title of the task; the store is unchanged. *)
Theorem comments_listed_newest_first (taskId : string) (tid : ObjectId)
    (t : Task) (w : world) :
  faults w = [] -> oid_of_string taskId = Some tid ->
  tasks w !! tid = Some t ->
  let populated :=
    map (fun c => mkComment (c_id c)
                    (populate_user ["name"; "email"; "avatar"] w (c_author c))
                    (c_text c) (c_timestamp c))
      (t_comments t) in
  exists listing task,
    CommentsRoute.get_comments taskId w
    = (Ok (mkResponse 200 empty (Some listing)), w)
    /\ TasksRoute.get_id taskId w
       = (Ok (mkResponse 200 empty (Some (tid, task))), w)
    /\ CommentsRoute.comments listing = t_comments task
    /\ CommentsRoute.taskTitle listing = t_title t
    /\ CommentsRoute.count listing = List.length (t_comments t)
    /\ StronglySorted (fun a b => (c_timestamp b <= c_timestamp a)%Z)
         (t_comments task)
    /\ t_comments task ≡ₚ populated.
Proof.
  intros Hw Hid Ht populated.
  eexists _, _. split; [|split].
  - unfold CommentsRoute.get_comments, try_catch, bind.
    rewrite (findById_healthy _ tid w Hw Hid), Ht.
    cbn [fmap option_fmap option_map].
    rewrite (populateAuthors_healthy _ _ Hw). reflexivity.
  - unfold TasksRoute.get_id, try_catch, bind.
    rewrite (findById_healthy _ tid w Hw Hid), Ht.
    cbn [fmap option_fmap option_map].
    rewrite (populateRefs_run _ _ _ _ _ Hw).
    rewrite (populateAuthors_healthy _ _ Hw). reflexivity.
  - cbn [CommentsRoute.comments CommentsRoute.taskTitle CommentsRoute.count
         t_comments t_title TaskModel.set_comments fst snd].
    fold populated. unfold TaskModel.sortComments.
    split; [reflexivity|]. split; [reflexivity|].
    split; [rewrite newest_first_length; unfold populated; apply List.length_map|].
    split; [apply newest_first_sorted | apply newest_first_perm].
Qed.

Lemma comments_listed_newest_first_witness :
  exists listing task,
    CommentsRoute.get_comments Example.taskT_param (Example.store "todo" None)
    = (Ok (mkResponse 200 empty (Some listing)), Example.store "todo" None)
    /\ TasksRoute.get_id Example.taskT_param (Example.store "todo" None)
       = (Ok (mkResponse 200 empty (Some (Example.taskT, task))),
          Example.store "todo" None)
    /\ CommentsRoute.comments listing = t_comments task
    /\ CommentsRoute.taskTitle listing = "Ship the release"
    /\ CommentsRoute.count listing = 3%nat
    /\ StronglySorted (fun a b => (c_timestamp b <= c_timestamp a)%Z)
         (t_comments task)
    /\ t_comments task
       ≡ₚ map (fun c => mkComment (c_id c)
                         (populate_user ["name"; "email"; "avatar"]
                            (Example.store "todo" None) (c_author c))
                         (c_text c) (c_timestamp c))
            (t_comments (Example.task "todo" None)).
Proof.
  apply (comments_listed_newest_first Example.taskT_param Example.taskT
           (Example.task "todo" None) (Example.store "todo" None));
    reflexivity.
Defined.

Example comments_of_the_task_newest_first :
  (fun r => match r with
            | Ok resp => c_text <$> default [] (CommentsRoute.comments <$> res_body resp)
            | Throw _ => []
            end)
    (CommentsRoute.get_comments Example.taskT_param (Example.store "todo" None)).1
  = ["need help?"; "thanks"; "on it"].
Proof. vm_compute. reflexivity. Qed.

Lemma filter_length_perm {A} (f : A -> bool) (l l' : list A) :
  l ≡ₚ l' -> List.length (List.filter f l) = List.length (List.filter f l').
Proof.
  induction 1 as [|x l l' _ IH|x y l|l l' l'' _ IH1 _ IH2]; cbn.
  - reflexivity.
  - destruct (f x); cbn; congruence.
  - destruct (f x), (f y); reflexivity.
  - congruence.
Qed.

Lemma length_filter_map_to_list {A} (f : ObjectId * A -> bool)
    (m : gmap ObjectId A) :
  List.length (List.filter f (map_to_list m))
  = size (filter (fun kv => f kv = true) m).
Proof.
  induction m as [|i x m Hi IH] using map_ind.
  - now rewrite map_to_list_empty, map_filter_empty, map_size_empty.
  - rewrite (filter_length_perm f _ _ (map_to_list_insert m i x Hi)). cbn.
    rewrite map_filter_insert. destruct (f (i, x)) eqn:Hf.
    + rewrite decide_True by reflexivity.
      rewrite map_size_insert_None
        by (apply map_lookup_filter_None_2; now left).
      cbn. now rewrite IH.
    + rewrite decide_False by discriminate.
      now rewrite delete_id.
Qed.

Lemma elem_of_filter_map_to_list {A} (f : ObjectId * A -> bool)
    (m : gmap ObjectId A) (d : ObjectId * A) :
  d ∈ List.filter f (map_to_list m) <-> m !! d.1 = Some d.2 /\ f d = true.
Proof.
  rewrite list_elem_of_In, filter_In, <- list_elem_of_In.
  now rewrite elem_of_map_to_list'.
Qed.

Lemma NoDup_fst_sublist {A B} (l l' : list (A * B)) :
  sublist l l' -> NoDup l'.*1 -> NoDup l.*1.
Proof.
  intros Hsub Hnd. eapply sublist_NoDup; [exact Hnd | now apply fmap_sublist].
Qed.

Lemma sublist_list_filter {A} (f : A -> bool) (l : list A) :
  sublist (List.filter f l) l.
Proof.
  induction l as [|x l IH]; [constructor|]. cbn.
  destruct (f x); now constructor.
Qed.

Lemma StronglySorted_sublist {A} (R : A -> A -> Prop) (l l' : list A) :
  sublist l l' -> StronglySorted R l' -> StronglySorted R l.
Proof.
  induction 1 as [|x l l' Hsub IH|x l l' Hsub IH]; intros Hs.
  - constructor.
  - apply StronglySorted_inv in Hs as [Hs Hx].
    constructor; [now apply IH|].
    rewrite List.Forall_forall in Hx |- *. intros y Hy. apply Hx.
    apply list_elem_of_In. apply list_elem_of_In in Hy.
    revert Hy. now apply sublist_subseteq.
  - apply StronglySorted_inv in Hs as [Hs _]. now apply IH.
Qed.

Lemma limit_to_sublist {A} (limit : Z) (l : list A) : sublist (limit_to limit l) l.
Proof.
  unfold limit_to. destruct (limit =? 0)%Z; [reflexivity | apply sublist_take].
Qed.

Lemma limit_to_length {A} (limit : Z) (l : list A) :
  (1 <= limit)%Z ->
  List.length (limit_to limit l) = Nat.min (Z.to_nat limit) (List.length l).
Proof.
  intros Hl. unfold limit_to.
  destruct (Z.eqb_spec limit 0); [lia|].
  rewrite length_take. f_equal. lia.
Qed.

Lemma activity_find_healthy (q : ActivityLogQuery.Query) (sel : list string)
    (limit skip : Z) (w : world) :
  faults w = [] -> (0 <= skip)%Z ->
  ActivityLogQuery.find q sel limit skip w
  = (Ok (map (fun d : Stored ActivityLog =>
                (d, populate_user sel w (ROid (a_userId d.2))))
           (limit_to limit
              (drop (Z.to_nat skip)
                 (newest_first (fun d : Stored ActivityLog => a_createdAt d.2)
                    (ActivityLogQuery.selected q w))))), w).
Proof.
  intros Hw Hskip.
  unfold ActivityLogQuery.find, bind, db, get, skip_limit. rewrite Hw.
  destruct (Z.ltb_spec skip 0); [lia|]. cbn [orThrow ret].
  destruct (limit_to limit _) as [|d page]; [reflexivity|].
  now rewrite Hw.
Qed.

Lemma activity_count_healthy (q : ActivityLogQuery.Query) (w : world) :
  faults w = [] ->
  ActivityLogQuery.countDocuments q w
  = (Ok (size (filter (fun kv : ObjectId * ActivityLog =>
                         ActivityLogQuery.matches q kv.2 = true)
                 (activitylogs w))), w).
Proof.
  intros Hw. unfold ActivityLogQuery.countDocuments, bind, db, get, ret.
  rewrite Hw. unfold ActivityLogQuery.selected.
  now rewrite length_filter_map_to_list.
Qed.

(** The page [skip, skip + limit) of the selected entries, newest first. *)
Lemma activity_page_facts (q : ActivityLogQuery.Query) (sel : list string)
    (limit skip : Z) (w : world) :
  (1 <= limit)%Z -> (0 <= skip)%Z ->
  let total := size (filter (fun kv : ObjectId * ActivityLog =>
                               ActivityLogQuery.matches q kv.2 = true)
                       (activitylogs w)) in
  let page :=
    map (fun d : Stored ActivityLog =>
           (d, populate_user sel w (ROid (a_userId d.2))))
      (limit_to limit
         (drop (Z.to_nat skip)
            (newest_first (fun d : Stored ActivityLog => a_createdAt d.2)
               (ActivityLogQuery.selected q w)))) in
  List.length page = Nat.min (Z.to_nat limit) (total - Z.to_nat skip)
  /\ Forall (fun e : Stored ActivityLog * Ref =>
               activitylogs w !! e.1.1 = Some e.1.2
               /\ ActivityLogQuery.matches q e.1.2 = true
               /\ e.2 = populate_user sel w (ROid (a_userId e.1.2))) page
  /\ StronglySorted (fun a b : Stored ActivityLog * Ref =>
                       (a_createdAt b.1.2 <= a_createdAt a.1.2)%Z) page
  /\ NoDup (map (fun e : Stored ActivityLog * Ref => e.1.1) page).
Proof.
  intros Hl Hs total page.
  set (sorted := newest_first (fun d : Stored ActivityLog => a_createdAt d.2)
                   (ActivityLogQuery.selected q w)).
  set (cut := limit_to limit (drop (Z.to_nat skip) sorted)).
  assert (Hsub : sublist cut sorted).
  { etrans; [apply limit_to_sublist | apply sublist_drop]. }
  assert (Hperm : sorted ≡ₚ ActivityLogQuery.selected q w)
    by apply newest_first_perm.
  assert (Hlen : List.length sorted = total).
  { unfold sorted. rewrite newest_first_length.
    apply length_filter_map_to_list. }
  split; [|split; [|split]].
  - unfold page. rewrite List.length_map. fold sorted. fold cut.
    unfold cut. rewrite limit_to_length by exact Hl.
    now rewrite length_drop, Hlen.
  - unfold page. fold sorted. fold cut.
    apply Forall_forall. intros e He.
    apply list_elem_of_In, in_map_iff in He as (d & <- & Hd).
    cbn [fst snd]. apply list_elem_of_In in Hd.
    assert (Hd' : d ∈ ActivityLogQuery.selected q w).
    { rewrite <- Hperm. revert Hd. now apply sublist_subseteq. }
    apply elem_of_filter_map_to_list in Hd' as [H1 H2]. auto.
  - unfold page. fold sorted. fold cut.
    assert (Hcut : StronglySorted
                     (fun a b : Stored ActivityLog =>
                        (a_createdAt b.2 <= a_createdAt a.2)%Z) cut).
    { eapply StronglySorted_sublist; [exact Hsub|]. apply newest_first_sorted. }
    clearbody cut. clear Hsub. induction Hcut as [|d l Hl' IH Hd]; cbn.
    + constructor.
    + constructor; [exact IH|].
      apply Forall_forall. intros e He.
      apply list_elem_of_In, in_map_iff in He as (d' & <- & Hd').
      cbn [fst snd]. rewrite List.Forall_forall in Hd. now apply Hd.
  - unfold page. fold sorted. fold cut. rewrite map_map. cbn [fst].
    change (map (fun x : Stored ActivityLog => x.1) cut) with (cut.*1).
    eapply NoDup_fst_sublist; [exact Hsub|].
    rewrite Hperm. unfold ActivityLogQuery.selected.
    eapply NoDup_fst_sublist; [apply sublist_list_filter|].
    apply NoDup_fst_map_to_list.
Qed.

Lemma matches_spec (u : option (option ObjectId)) (action entityType : option string)
    (startDate endDate : option Z) (a : ActivityLog) :
  ActivityLogQuery.matches
    (ActivityLogQuery.query_of u action entityType startDate endDate) a = true ->
  (forall i, u = Some i -> i = Some (a_userId a))
  /\ (forall s, if_truthy action = Some s -> a_action a = s)
  /\ (forall s, if_truthy entityType = Some s -> a_entityType a = Some s)
  /\ (forall d, startDate = Some d -> (d <= a_createdAt a)%Z)
  /\ (forall d, endDate = Some d -> (a_createdAt a <= d)%Z).
Proof.
  unfold ActivityLogQuery.matches, ActivityLogQuery.query_of.
  cbn [ActivityLogQuery.q_userId ActivityLogQuery.q_action
       ActivityLogQuery.q_entityType ActivityLogQuery.q_gte
       ActivityLogQuery.q_lte].
  intros H. repeat (apply andb_prop in H as [H ?]).
  repeat split.
  - intros i ->. destruct i as [i|]; [|discriminate H].
    apply N.eqb_eq in H. now subst.
  - intros s Hs. rewrite Hs in *. now apply String.eqb_eq.
  - intros s Hs. rewrite Hs in *.
    destruct (a_entityType a) as [e|]; [|discriminate].
    f_equal. now apply String.eqb_eq.
  - intros d ->. lia.
  - intros d ->. lia.
Qed.

(** X17.  On a healthy store, [GET /my-activity] with page >= 1 and limit >= 1
    answers 200 with at most [limit] entries, each an entry of the store
    that belongs to the user and passes the filters given (action, entity
    type, start and end date, both inclusive), newest first and none
    twice; [totalActivities] is the number of entries of the user that
    pass the filters, [hasNext] holds iff page * limit is below it,
    [hasPrev] iff page > 1; the store is unchanged. *)
Theorem my_activity_page (user : ObjectId) (page limit : option Z)
    (action entityType : option string) (startDate endDate : option Z)
    (w : world) :
  faults w = [] -> (1 <= default 1%Z page)%Z -> (1 <= default 25%Z limit)%Z ->
  exists pg,
    ActivityLogsRoute.get_my_activity user page limit action entityType
      startDate endDate w
    = (Ok (mkResponse 200 empty (Some pg)), w)
    /\ (List.length (items pg) <= Z.to_nat (default 25%Z limit))%nat
    /\ Forall (fun e : Stored ActivityLog * Ref =>
                 activitylogs w !! e.1.1 = Some e.1.2
                 /\ a_userId e.1.2 = user
                 /\ (forall s, if_truthy action = Some s -> a_action e.1.2 = s)
                 /\ (forall s, if_truthy entityType = Some s ->
                       a_entityType e.1.2 = Some s)
                 /\ (forall d, startDate = Some d -> (d <= a_createdAt e.1.2)%Z)
                 /\ (forall d, endDate = Some d -> (a_createdAt e.1.2 <= d)%Z))
         (items pg)
    /\ StronglySorted (fun a b : Stored ActivityLog * Ref =>
                         (a_createdAt b.1.2 <= a_createdAt a.1.2)%Z) (items pg)
    /\ NoDup (map (fun e : Stored ActivityLog * Ref => e.1.1) (items pg))
    /\ totalItems pg
       = size (filter (fun kv : ObjectId * ActivityLog =>
                         ActivityLogQuery.matches
                           (ActivityLogQuery.query_of (Some (Some user)) action
                              entityType startDate endDate) kv.2 = true)
                 (activitylogs w))
    /\ (hasNext pg = true
        <-> (default 1%Z page * default 25%Z limit < Z.of_nat (totalItems pg))%Z)
    /\ (hasPrev pg = true <-> (1 < default 1%Z page)%Z)
    /\ currentPage pg = default 1%Z page.
Proof.
  intros Hw Hp Hl.
  set (p := default 1%Z page) in *. set (l := default 25%Z limit) in *.
  set (q := ActivityLogQuery.query_of (Some (Some user)) action entityType
              startDate endDate).
  assert (Hskip : (0 <= (p - 1) * l)%Z) by nia.
  destruct (activity_page_facts q ["name"; "email"] l ((p - 1) * l) w Hl Hskip)
    as (Hlen & Hall & Hsorted & Hnodup).
  eexists. split.
  - unfold ActivityLogsRoute.get_my_activity, try_catch, bind at 1.
    fold p. fold l.
    unfold ActivityLogQuery.getUserActivity, bind at 1.
    cbn [castObjectId orThrow ret ActivityLogQuery.limit ActivityLogQuery.skip
         ActivityLogQuery.action ActivityLogQuery.entityType
         ActivityLogQuery.startDate ActivityLogQuery.endDate default
         from_option].
    fold q. rewrite (activity_find_healthy q _ l _ w Hw Hskip).
    unfold bind. rewrite (activity_count_healthy q w Hw).
    reflexivity.
  - unfold ActivityLogsRoute.page_of.
    cbn [items totalItems hasNext hasPrev currentPage].
    split; [rewrite Hlen; lia|].
    split.
    { eapply Forall_impl; [exact Hall|]. intros e (H1 & H2 & _).
      split; [exact H1|].
      destruct (matches_spec _ _ _ _ _ _ H2) as (Hu & Ha & He & Hs & Hd).
      split; [|auto]. specialize (Hu _ eq_refl). congruence. }
    split; [exact Hsorted|]. split; [exact Hnodup|].
    split; [reflexivity|].
    split; [|split; [apply Z.ltb_lt | reflexivity]].
    rewrite Z.ltb_lt, Hlen. lia.
Qed.

Lemma my_activity_page_witness :
  exists pg,
    ActivityLogsRoute.get_my_activity Example.userA (Some 2%Z) (Some 1%Z)
      (Some "task_updated") None (Some 50%Z) None Example.office
    = (Ok (mkResponse 200 empty (Some pg)), Example.office)
    /\ (List.length (items pg) <= 1)%nat
    /\ Forall (fun e : Stored ActivityLog * Ref =>
                 activitylogs Example.office !! e.1.1 = Some e.1.2
                 /\ a_userId e.1.2 = Example.userA
                 /\ (forall s, if_truthy (Some "task_updated") = Some s ->
                       a_action e.1.2 = s)
                 /\ (forall s, if_truthy None = Some s ->
                       a_entityType e.1.2 = Some s)
                 /\ (forall d, Some 50%Z = Some d -> (d <= a_createdAt e.1.2)%Z)
                 /\ (forall d, None = Some d -> (a_createdAt e.1.2 <= d)%Z))
         (items pg)
    /\ StronglySorted (fun a b : Stored ActivityLog * Ref =>
                         (a_createdAt b.1.2 <= a_createdAt a.1.2)%Z) (items pg)
    /\ NoDup (map (fun e : Stored ActivityLog * Ref => e.1.1) (items pg))
    /\ totalItems pg
       = size (filter (fun kv : ObjectId * ActivityLog =>
                         ActivityLogQuery.matches
                           (ActivityLogQuery.query_of (Some (Some Example.userA))
                              (Some "task_updated") None (Some 50%Z) None)
                           kv.2 = true)
                 (activitylogs Example.office))
    /\ (hasNext pg = true <-> (2 * 1 < Z.of_nat (totalItems pg))%Z)
    /\ (hasPrev pg = true <-> (1 < 2)%Z)
    /\ currentPage pg = 2%Z.
Proof.
  apply (my_activity_page Example.userA (Some 2%Z) (Some 1%Z)
           (Some "task_updated") None (Some 50%Z) None Example.office).
  - reflexivity.
  - cbn. lia.
  - cbn. lia.
Defined.

Example second_page_of_my_activity :
  (fun r => match r with
            | Ok resp =>
                (fun pg : ActivityLogsRoute.Activities =>
                   ((fun e : Stored ActivityLog * Ref => e.1.1) <$> items pg,
                    totalItems pg, hasNext pg, hasPrev pg)) <$> res_body resp
            | Throw _ => None
            end)
    (ActivityLogsRoute.get_my_activity Example.userA (Some 2%Z) (Some 1%Z)
       (Some "task_updated") None (Some 50%Z) None Example.office).1
  = Some ([30%N], 2%nat, false, true).
Proof. vm_compute. reflexivity. Qed.

Lemma notification_find_healthy (sel : Notification -> bool) (skip limit : Z)
    (w : world) :
  faults w = [] -> (0 <= skip)%Z ->
  NotificationModel.find sel skip limit w
  = (Ok (map (fun d : Stored Notification =>
                NotificationModel.mkListed d
                  (populate_user ["name"; "email"; "avatar"] w (ROid (n_sender d.2)))
                  (NotificationModel.populate_task ["title"; "status"; "priority"]
                     w (n_relatedTask d.2))
                  (populate_project ["title"] w
                     (match n_relatedProject d.2 with
                      | Some i => ROid i
                      | None => RNull
                      end)))
           (limit_to limit
              (drop (Z.to_nat skip)
                 (newest_first (fun d : Stored Notification => n_createdAt d.2)
                    (NotificationModel.selected sel w))))), w).
Proof.
  intros Hw Hskip.
  unfold NotificationModel.find, bind, db, get, skip_limit. rewrite Hw.
  destruct (Z.ltb_spec skip 0); [lia|]. cbn [orThrow ret].
  destruct (limit_to limit _) as [|d page]; [reflexivity|].
  now rewrite Hw.
Qed.

Lemma notification_count_healthy (sel : Notification -> bool) (w : world) :
  faults w = [] ->
  NotificationModel.countDocuments sel w
  = (Ok (size (filter (fun kv : ObjectId * Notification => sel kv.2 = true)
                 (notifications w))), w).
Proof.
  intros Hw. unfold NotificationModel.countDocuments, bind, db, get, ret.
  now rewrite Hw.
Qed.

Lemma notification_page_facts (sel : Notification -> bool)
    (f : Stored Notification -> NotificationModel.Listed)
    (limit skip : Z) (w : world) :
  (forall d, NotificationModel.notification (f d) = d) ->
  (1 <= limit)%Z -> (0 <= skip)%Z ->
  let total := size (filter (fun kv : ObjectId * Notification => sel kv.2 = true)
                       (notifications w)) in
  let page :=
    map f
      (limit_to limit
         (drop (Z.to_nat skip)
            (newest_first (fun d : Stored Notification => n_createdAt d.2)
               (NotificationModel.selected sel w)))) in
  List.length page = Nat.min (Z.to_nat limit) (total - Z.to_nat skip)
  /\ Forall (fun e : NotificationModel.Listed =>
               notifications w !! (NotificationModel.notification e).1
               = Some (NotificationModel.notification e).2
               /\ sel (NotificationModel.notification e).2 = true) page
  /\ StronglySorted
       (fun a b : NotificationModel.Listed =>
          (n_createdAt (NotificationModel.notification b).2
           <= n_createdAt (NotificationModel.notification a).2)%Z) page
  /\ NoDup (map (fun e : NotificationModel.Listed =>
                   (NotificationModel.notification e).1) page).
Proof.
  intros Hf Hl Hs total page.
  set (sorted := newest_first (fun d : Stored Notification => n_createdAt d.2)
                   (NotificationModel.selected sel w)).
  set (cut := limit_to limit (drop (Z.to_nat skip) sorted)).
  assert (Hsub : sublist cut sorted).
  { etrans; [apply limit_to_sublist | apply sublist_drop]. }
  assert (Hperm : sorted ≡ₚ NotificationModel.selected sel w)
    by apply newest_first_perm.
  assert (Hlen : List.length sorted = total).
  { unfold sorted. rewrite newest_first_length.
    apply (length_filter_map_to_list (fun d : ObjectId * Notification => sel d.2)). }
  split; [|split; [|split]].
  - unfold page. rewrite List.length_map. fold sorted. fold cut.
    unfold cut. rewrite limit_to_length by exact Hl.
    now rewrite length_drop, Hlen.
  - unfold page. fold sorted. fold cut.
    apply Forall_forall. intros e He.
    apply list_elem_of_In, in_map_iff in He as (d & <- & Hd).
    rewrite Hf. apply list_elem_of_In in Hd.
    assert (Hd' : d ∈ NotificationModel.selected sel w).
    { rewrite <- Hperm. revert Hd. now apply sublist_subseteq. }
    now apply (elem_of_filter_map_to_list
                 (fun d : ObjectId * Notification => sel d.2)) in Hd'.
  - unfold page. fold sorted. fold cut.
    assert (Hcut : StronglySorted
                     (fun a b : Stored Notification =>
                        (n_createdAt b.2 <= n_createdAt a.2)%Z) cut).
    { eapply StronglySorted_sublist; [exact Hsub|]. apply newest_first_sorted. }
    clearbody cut. clear Hsub. induction Hcut as [|d l Hl' IH Hd]; cbn.
    + constructor.
    + constructor; [exact IH|].
      apply Forall_forall. intros e He.
      apply list_elem_of_In, in_map_iff in He as (d' & <- & Hd').
      rewrite !Hf. rewrite List.Forall_forall in Hd. now apply Hd.
  - unfold page. fold sorted. fold cut. rewrite map_map.
    rewrite (map_ext _ (fun d : Stored Notification => d.1))
      by (intros d; now rewrite Hf).
    change (map (fun x : Stored Notification => x.1) cut) with (cut.*1).
    eapply NoDup_fst_sublist; [exact Hsub|].
    rewrite Hperm. unfold NotificationModel.selected.
    eapply NoDup_fst_sublist; [apply sublist_list_filter|].
    apply NoDup_fst_map_to_list.
Qed.

(** X18.  On a healthy store, [GET /api/notifications] with page >= 1 and
    limit >= 1 answers 200 with at most [limit] notifications, each a
    notification of the store addressed to the user (unread ones only when
    [unreadOnly] is "true", of the given type when one is given), newest
    first and none twice; [hasNext] holds iff page * limit is below the
    total; [unreadCount] is the number of all unread notifications of the
    user, whatever the filters; the store is unchanged. *)
Theorem notifications_page (user : ObjectId) (page limit : option Z)
    (unreadOnly type : option string) (w : world) :
  faults w = [] -> (1 <= default 1%Z page)%Z -> (1 <= default 20%Z limit)%Z ->
  exists pg unreadCount,
    NotificationsRoute.get_root user page limit unreadOnly type w
    = (Ok (mkResponse 200 empty (Some (pg, unreadCount))), w)
    /\ (List.length (items pg) <= Z.to_nat (default 20%Z limit))%nat
    /\ Forall (fun e : NotificationModel.Listed =>
                 let n := (NotificationModel.notification e).2 in
                 notifications w !! (NotificationModel.notification e).1 = Some n
                 /\ n_recipient n = user
                 /\ (unreadOnly = Some "true" -> n_isRead n = false)
                 /\ (forall s, if_truthy type = Some s -> n_type n = s))
         (items pg)
    /\ StronglySorted
         (fun a b : NotificationModel.Listed =>
            (n_createdAt (NotificationModel.notification b).2
             <= n_createdAt (NotificationModel.notification a).2)%Z) (items pg)
    /\ NoDup (map (fun e : NotificationModel.Listed =>
                     (NotificationModel.notification e).1) (items pg))
    /\ totalItems pg
       = size (filter (fun kv : ObjectId * Notification =>
                         NotificationModel.listed user
                           (match unreadOnly with
                            | Some s => String.eqb s "true"
                            | None => false
                            end)
                           (if_truthy type) kv.2 = true)
                 (notifications w))
    /\ (hasNext pg = true
        <-> (default 1%Z page * default 20%Z limit < Z.of_nat (totalItems pg))%Z)
    /\ unreadCount
       = size (filter (fun kv : ObjectId * Notification =>
                         n_recipient kv.2 = user /\ n_isRead kv.2 = false)
                 (notifications w)).
Proof.
  intros Hw Hp Hl.
  set (p := default 1%Z page) in *. set (l := default 20%Z limit) in *.
  set (sel := NotificationModel.listed user
                (match unreadOnly with
                 | Some s => String.eqb s "true"
                 | None => false
                 end) (if_truthy type)).
  assert (Hskip : (0 <= (p - 1) * l)%Z) by nia.
  eexists _, _. split.
  - unfold NotificationsRoute.get_root, try_catch, bind at 1.
    fold p. fold l. fold sel.
    rewrite (notification_find_healthy sel _ l w Hw Hskip).
    unfold bind at 1. rewrite (notification_count_healthy sel w Hw).
    unfold bind. rewrite (countUnread_healthy user w Hw).
    reflexivity.
  - cbn [items totalItems hasNext hasPrev currentPage].
    match goal with
    | |- context [map ?f (limit_to _ _)] =>
        destruct (notification_page_facts sel f l ((p - 1) * l) w
                    (fun d => eq_refl) Hl Hskip)
          as (Hlen & Hall & Hsorted & Hnodup)
    end.
    split; [rewrite Hlen; lia|].
    split.
    { eapply Forall_impl; [exact Hall|]. intros e [H1 H2].
      cbv zeta. split; [exact H1|].
      unfold sel, NotificationModel.listed in H2.
      apply andb_prop in H2 as [H2 Ht]. apply andb_prop in H2 as [Hr Hu].
      apply N.eqb_eq in Hr. split; [exact Hr|]. split.
      - intros ->. cbn in Hu. now apply negb_true_iff.
      - intros s Hs. rewrite Hs in Ht. now apply String.eqb_eq. }
    split; [exact Hsorted|]. split; [exact Hnodup|].
    split; [reflexivity|].
    split; [rewrite Z.ltb_lt, Hlen; lia|].
    apply f_equal, map_filter_ext. intros i n _. cbn [fst snd].
    unfold NotificationModel.listed. rewrite andb_true_r.
    rewrite andb_true_iff, N.eqb_eq, negb_true_iff. reflexivity.
Qed.

Lemma notifications_page_witness :
  exists pg unreadCount,
    NotificationsRoute.get_root Example.userA None (Some 2%Z) (Some "true")
      None Example.office
    = (Ok (mkResponse 200 empty (Some (pg, unreadCount))), Example.office)
    /\ (List.length (items pg) <= 2)%nat
    /\ Forall (fun e : NotificationModel.Listed =>
                 let n := (NotificationModel.notification e).2 in
                 notifications Example.office
                   !! (NotificationModel.notification e).1 = Some n
                 /\ n_recipient n = Example.userA
                 /\ (Some "true" = Some "true" -> n_isRead n = false)
                 /\ (forall s, if_truthy None = Some s -> n_type n = s))
         (items pg)
    /\ StronglySorted
         (fun a b : NotificationModel.Listed =>
            (n_createdAt (NotificationModel.notification b).2
             <= n_createdAt (NotificationModel.notification a).2)%Z) (items pg)
    /\ NoDup (map (fun e : NotificationModel.Listed =>
                     (NotificationModel.notification e).1) (items pg))
    /\ totalItems pg
       = size (filter (fun kv : ObjectId * Notification =>
                         NotificationModel.listed Example.userA true None kv.2
                         = true)
                 (notifications Example.office))
    /\ (hasNext pg = true <-> (1 * 2 < Z.of_nat (totalItems pg))%Z)
    /\ unreadCount
       = size (filter (fun kv : ObjectId * Notification =>
                         n_recipient kv.2 = Example.userA
                         /\ n_isRead kv.2 = false)
                 (notifications Example.office)).
Proof.
  apply (notifications_page Example.userA None (Some 2%Z) (Some "true") None
           Example.office).
  - reflexivity.
  - cbn. lia.
  - cbn. lia.
Defined.

(** X19.  On a healthy store, [GET /recent] with limit >= 1 answers 200 with
    entries of the store created within the last 24 hours (the server
    clock in UTC), newest first; their number, which is also the [count]
    of the answer, is the number of such entries or [limit], whichever is
    smaller; the store is unchanged. *)
Theorem recent_activity_is_recent (limit : option Z) (w : world) :
  faults w = [] -> (1 <= default 20%Z limit)%Z ->
  exists entries,
    ActivityLogsRoute.get_recent limit w
    = (Ok (mkResponse 200 empty (Some (entries, List.length entries))), w)
    /\ (List.length entries <= Z.to_nat (default 20%Z limit))%nat
    /\ Forall (fun e : Stored ActivityLog * Ref =>
                 activitylogs w !! e.1.1 = Some e.1.2
                 /\ (clock w - ActivityLogsRoute.msPerDay <= a_createdAt e.1.2)%Z)
         entries
    /\ StronglySorted (fun a b : Stored ActivityLog * Ref =>
                         (a_createdAt b.1.2 <= a_createdAt a.1.2)%Z) entries
    /\ List.length entries
       = Nat.min (Z.to_nat (default 20%Z limit))
           (size (filter (fun kv : ObjectId * ActivityLog =>
                            (clock w - ActivityLogsRoute.msPerDay
                             <= a_createdAt kv.2)%Z)
                    (activitylogs w))).
Proof.
  intros Hw Hl. set (l := default 20%Z limit) in *.
  set (q := ActivityLogQuery.query_of None None None
              (Some (ActivityLogsRoute.setDate_minus (clock w) 1)) None).
  destruct (activity_page_facts q ["name"; "email"; "avatar"; "role"] l 0 w Hl
              (Z.le_refl 0)) as (Hlen & Hall & Hsorted & _).
  eexists. split.
  - unfold ActivityLogsRoute.get_recent, try_catch, bind at 1. fold l.
    unfold now at 1. unfold bind at 1.
    unfold ActivityLogQuery.getSystemActivity.
    cbn [ActivityLogQuery.limit ActivityLogQuery.skip
         ActivityLogQuery.action ActivityLogQuery.entityType
         ActivityLogQuery.startDate ActivityLogQuery.endDate default
         from_option].
    fold q. rewrite (activity_find_healthy q _ l 0 w Hw (Z.le_refl 0)).
    reflexivity.
  - assert (Hq : forall a, ActivityLogQuery.matches q a = true
                   <-> (clock w - ActivityLogsRoute.msPerDay <= a_createdAt a)%Z).
    { intros a. unfold ActivityLogQuery.matches, q, ActivityLogQuery.query_of,
        ActivityLogsRoute.setDate_minus. cbn.
      rewrite andb_true_r, Z.leb_le. lia. }
    split; [rewrite Hlen; lia|].
    split.
    { eapply Forall_impl; [exact Hall|]. intros e (H1 & H2 & _).
      split; [exact H1 | now apply Hq]. }
    split; [exact Hsorted|].
    rewrite Hlen. cbn [Z.to_nat]. rewrite Nat.sub_0_r. do 2 f_equal.
    apply map_filter_ext. intros i a _. apply Hq.
Qed.

Lemma recent_activity_is_recent_witness :
  exists entries,
    ActivityLogsRoute.get_recent (Some 2%Z) (set_clock 86400250%Z Example.office)
    = (Ok (mkResponse 200 empty (Some (entries, List.length entries))),
       set_clock 86400250%Z Example.office)
    /\ (List.length entries <= 2)%nat
    /\ Forall (fun e : Stored ActivityLog * Ref =>
                 activitylogs Example.office !! e.1.1 = Some e.1.2
                 /\ (86400250 - ActivityLogsRoute.msPerDay <= a_createdAt e.1.2)%Z)
         entries
    /\ StronglySorted (fun a b : Stored ActivityLog * Ref =>
                         (a_createdAt b.1.2 <= a_createdAt a.1.2)%Z) entries
    /\ List.length entries
       = Nat.min 2
           (size (filter (fun kv : ObjectId * ActivityLog =>
                            (86400250 - ActivityLogsRoute.msPerDay
                             <= a_createdAt kv.2)%Z)
                    (activitylogs Example.office))).
Proof.
  apply (recent_activity_is_recent (Some 2%Z)
           (set_clock 86400250%Z Example.office)).
  - reflexivity.
  - cbn. lia.
Defined.

(** ** What a handler leaves as it was *)

Section Preserves.

Context (R : world -> world -> Prop) `{!Frame R}.

Lemma preserves_ret {A} (a : A) : preserves R (ret a).
Proof. intros w. apply frame_refl. Qed.

Lemma preserves_throw {A} (e : exn) : preserves R (@throw A e).
Proof. intros w. apply frame_refl. Qed.

Lemma preserves_get : preserves R get.
Proof. intros w. apply frame_refl. Qed.

Lemma preserves_now : preserves R now.
Proof. intros w. apply frame_refl. Qed.

Lemma preserves_orThrow {A} (e : exn) (o : option A) : preserves R (orThrow e o).
Proof. intros w. destruct o; apply frame_refl. Qed.

Lemma preserves_db : preserves R db.
Proof.
  intros w. unfold db. destruct (faults w) as [|[|] fs] eqn:Hf; cbn;
    first [apply frame_refl | eapply frame_faults; exact Hf].
Qed.

Lemma preserves_console_error (line : string) : preserves R (console_error line).
Proof. intros w. apply frame_console. Qed.

Lemma preserves_modify (f : world -> world) :
  (forall w, R w (f w)) -> preserves R (modify f).
Proof. intros H w. apply H. Qed.

(** Sequencing, where the continuation may rely on a fact [P] about the
    value the first computation returns. *)
Lemma preserves_bind_post {A B} (P : A -> Prop) (m : M A) (k : A -> M B) :
  (forall w a, (m w).1 = Ok a -> P a) ->
  preserves R m -> (forall a, P a -> preserves R (k a)) ->
  preserves R (bind m k).
Proof.
  intros HP Hm Hk w. unfold bind.
  specialize (HP w). specialize (Hm w).
  destruct (m w) as [[a|e] w1]; cbn in *; [|exact Hm].
  eapply frame_trans; [exact Hm|]. now apply Hk, HP.
Qed.

Lemma preserves_bind {A B} (m : M A) (k : A -> M B) :
  preserves R m -> (forall a, preserves R (k a)) -> preserves R (bind m k).
Proof.
  intros Hm Hk. apply (preserves_bind_post (fun _ => True)); auto.
Qed.

Lemma preserves_try_catch {A} (m : M A) (h : exn -> M A) :
  preserves R m -> (forall e, preserves R (h e)) -> preserves R (try_catch m h).
Proof.
  intros Hm Hh w. unfold try_catch. specialize (Hm w).
  destruct (m w) as [[a|e] w1]; cbn in *; [exact Hm|].
  eapply frame_trans; [exact Hm | apply Hh].
Qed.

Lemma preserves_bind_orThrow {A B} (e : exn) (o : option A) (k : A -> M B) :
  (forall a, o = Some a -> preserves R (k a)) ->
  preserves R (bind (orThrow e o) k).
Proof.
  intros Hk. apply (preserves_bind_post (fun a => o = Some a)).
  - intros w a. destruct o; cbn; congruence.
  - apply preserves_orThrow.
  - exact Hk.
Qed.

End Preserves.

(** The relations of the statements are preorders that store faults and
    console lines respect. *)
Lemma same_audit_refl w : same_audit w w.
Proof. reflexivity. Qed.
Lemma same_audit_trans w1 w2 w3 :
  same_audit w1 w2 -> same_audit w2 w3 -> same_audit w1 w3.
Proof. unfold same_audit. congruence. Qed.
Lemma same_audit_faults b fs w :
  faults w = b :: fs -> same_audit w (set_faults fs w).
Proof. reflexivity. Qed.
Lemma same_audit_console line w : same_audit w (add_console line w).
Proof. reflexivity. Qed.
#[global] Instance same_audit_frame : Frame same_audit.
Proof.
  split;
    [ apply same_audit_refl | apply same_audit_trans
    | apply same_audit_faults | apply same_audit_console ].
Qed.

Lemma same_notifications_refl w : same_notifications w w.
Proof. reflexivity. Qed.
Lemma same_notifications_trans w1 w2 w3 :
  same_notifications w1 w2 -> same_notifications w2 w3 ->
  same_notifications w1 w3.
Proof. unfold same_notifications. congruence. Qed.
Lemma same_notifications_faults b fs w :
  faults w = b :: fs -> same_notifications w (set_faults fs w).
Proof. reflexivity. Qed.
Lemma same_notifications_console line w :
  same_notifications w (add_console line w).
Proof. reflexivity. Qed.
#[global] Instance same_notifications_frame : Frame same_notifications.
Proof.
  split;
    [ apply same_notifications_refl | apply same_notifications_trans
    | apply same_notifications_faults | apply same_notifications_console ].
Qed.

Lemma touches_task_refl taskId w : touches_task taskId w w.
Proof. repeat split. Qed.
Lemma touches_task_trans taskId w1 w2 w3 :
  touches_task taskId w1 w2 -> touches_task taskId w2 w3 ->
  touches_task taskId w1 w3.
Proof.
  intros (H1 & H2 & H3 & H4) (H1' & H2' & H3' & H4').
  repeat split; try congruence.
  intros j Hj. now rewrite H4', H4.
Qed.
Lemma touches_task_faults taskId b fs w :
  faults w = b :: fs -> touches_task taskId w (set_faults fs w).
Proof. repeat split. Qed.
Lemma touches_task_console taskId line w :
  touches_task taskId w (add_console line w).
Proof. repeat split. Qed.
#[global] Instance touches_task_frame (taskId : string) : Frame (touches_task taskId).
Proof.
  split;
    [ apply touches_task_refl | apply touches_task_trans
    | apply touches_task_faults | apply touches_task_console ].
Qed.

Lemma keeps_tasks_refl w : keeps_tasks w w.
Proof. unfold keeps_tasks. auto. Qed.
Lemma keeps_tasks_trans w1 w2 w3 :
  keeps_tasks w1 w2 -> keeps_tasks w2 w3 -> keeps_tasks w1 w3.
Proof.
  intros (H1 & H2 & H3 & H4) (H1' & H2' & H3' & H4').
  repeat split; try congruence. etrans; eassumption.
Qed.
Lemma keeps_tasks_faults b fs w :
  faults w = b :: fs -> keeps_tasks w (set_faults fs w).
Proof. unfold keeps_tasks. auto. Qed.
Lemma keeps_tasks_console line w : keeps_tasks w (add_console line w).
Proof. unfold keeps_tasks. auto. Qed.
#[global] Instance keeps_tasks_frame : Frame keeps_tasks.
Proof.
  split;
    [ apply keeps_tasks_refl | apply keeps_tasks_trans
    | apply keeps_tasks_faults | apply keeps_tasks_console ].
Qed.


Lemma only_notifies_refl w : only_notifies w w.
Proof. unfold only_notifies. repeat split; auto. Qed.
Lemma only_notifies_trans w1 w2 w3 :
  only_notifies w1 w2 -> only_notifies w2 w3 -> only_notifies w1 w3.
Proof.
  intros (H1 & H2 & H3 & H4 & H5 & H6) (H1' & H2' & H3' & H4' & H5' & H6').
  repeat split; try congruence. auto.
Qed.
Lemma only_notifies_faults b fs w :
  faults w = b :: fs -> only_notifies w (set_faults fs w).
Proof.
  intros Hf. unfold only_notifies. repeat (split; [reflexivity|]).
  rewrite Hf. discriminate.
Qed.
Lemma only_notifies_console line w : only_notifies w (add_console line w).
Proof. unfold only_notifies. repeat split; auto. Qed.
#[global] Instance only_notifies_frame : Frame only_notifies.
Proof.
  split;
    [ apply only_notifies_refl | apply only_notifies_trans
    | apply only_notifies_faults | apply only_notifies_console ].
Qed.

Lemma only_logs_refl w : only_logs w w.
Proof. unfold only_logs. repeat split; auto. Qed.
Lemma only_logs_trans w1 w2 w3 :
  only_logs w1 w2 -> only_logs w2 w3 -> only_logs w1 w3.
Proof.
  intros (H1 & H2 & H3 & H4 & H5 & H6) (H1' & H2' & H3' & H4' & H5' & H6').
  repeat split; try congruence. auto.
Qed.
Lemma only_logs_faults b fs w :
  faults w = b :: fs -> only_logs w (set_faults fs w).
Proof.
  intros Hf. unfold only_logs. repeat (split; [reflexivity|]).
  rewrite Hf. discriminate.
Qed.
Lemma only_logs_console line w : only_logs w (add_console line w).
Proof. unfold only_logs. repeat split; auto. Qed.
#[global] Instance only_logs_frame : Frame only_logs.
Proof.
  split;
    [ apply only_logs_refl | apply only_logs_trans
    | apply only_logs_faults | apply only_logs_console ].
Qed.

Lemma touches_task_insert (taskId : string) (i : ObjectId) (t : Task) (w : world) :
  oid_of_string taskId = Some i ->
  touches_task taskId w (set_tasks (insert i t) w).
Proof.
  intros Hid. repeat split. intros j Hj. unfold_store.
  apply lookup_insert_ne. congruence.
Qed.

Lemma touches_task_delete (taskId : string) (i : ObjectId) (w : world) :
  oid_of_string taskId = Some i ->
  touches_task taskId w (set_tasks (delete i) w).
Proof.
  intros Hid. repeat split. intros j Hj. unfold_store.
  apply lookup_delete_ne. congruence.
Qed.

Lemma keeps_tasks_fresh (t : Task) (w : world) :
  keeps_tasks w (set_tasks (insert (fresh (dom (tasks w))) t) w).
Proof.
  unfold keeps_tasks. unfold_store. repeat (split; [reflexivity|]).
  apply insert_subseteq, fresh_lookup.
Qed.

(** The rule that fits the computation at hand; what is left are the
    writes, each to be justified for the relation. *)
Ltac preserve_step :=
  lazymatch goal with
  | |- preserves _ (bind (orThrow _ _) _) =>
      apply preserves_bind_orThrow; [|intros ? ?]
  | |- preserves _ (bind _ _) => apply preserves_bind
  | |- preserves _ (try_catch _ _) => apply preserves_try_catch
  | |- preserves _ (ret _) => apply preserves_ret
  | |- preserves _ (reply _ _) => apply preserves_ret
  | |- preserves _ (reply_with _ _ _) => apply preserves_ret
  | |- preserves _ (throw _) => apply preserves_throw
  | |- preserves _ get => apply preserves_get
  | |- preserves _ now => apply preserves_now
  | |- preserves _ (toString _) => apply preserves_orThrow
  | |- preserves _ (orThrow _ _) => apply preserves_orThrow
  | |- preserves _ db => apply preserves_db
  | |- preserves _ (console_error _) => apply preserves_console_error
  | |- preserves _ (modify _) =>
      apply preserves_modify;
      try (intros;
           solve [ reflexivity
                 | hnf; unfold_store; repeat split; intros;
                   first [reflexivity | assumption] ])
  | |- preserves _ (if ?b then _ else _) => destruct b
  | |- preserves _ (match ?x with _ => _ end) => destruct x
  | |- forall _, preserves _ _ => intro
  | |- preserves _ _ => fail
  | |- Frame _ => exact _
  end.

Ltac preserve := repeat preserve_step.

Lemma findById_id (id : string) (w : world) (found : option (Stored Task)) :
  (TaskModel.findById id w).1 = Ok found ->
  forall doc, found = Some doc -> oid_of_string id = Some doc.1.
Proof.
  unfold TaskModel.findById, bind, orThrow, db, get, ret.
  destruct (oid_of_string id) as [i|]; [|discriminate].
  cbn. destruct (faults w) as [|[|] fs]; cbn; try discriminate;
    intros [= <-] doc Hdoc;
    match type of Hdoc with
    | _ <$> ?o = _ => destruct o; [|discriminate Hdoc]
    end; now injection Hdoc as <-.
Qed.

Ltac unfold_handlers :=
  unfold TasksRoute.put, TasksRoute.patch_status, CommentsRoute.post,
    TasksRoute.notify_update, TasksRoute.log_update,
    activityLogger.logTaskActivity, activityLogger.logCommentActivity,
    ActivityLogModel.logActivity, notifications.createTaskNotification,
    notifications.createCommentNotification,
    NotificationModel.createNotification, check_ref, exists_by_id,
    TaskModel.findById, TaskModel.findByIdAndUpdate,
    TaskModel.populateRefs, TaskModel.populateAuthors, TaskModel.create,
    CommentsRoute.notificationRecipients.

Lemma send_all_preserves (R : world -> world -> Prop) `{!Frame R}
    (user : ObjectId) (task : Stored Task) (text : string)
    (recipients : list string) :
  (forall r, preserves R
               (notifications.createCommentNotification (RStr r) (ROid user)
                  task text)) ->
  preserves R (CommentsRoute.send_all user task text recipients).
Proof.
  intros Hone.
  induction recipients as [|r rest IH]; cbn [CommentsRoute.send_all].
  - now apply preserves_ret.
  - apply preserves_bind; auto.
Qed.

Lemma add_commenters_preserves (R : world -> world -> Prop) `{!Frame R}
    (me : string) (cs : list Comment) (set : list string) :
  preserves R (CommentsRoute.add_commenters me cs set).
Proof.
  revert set.
  induction cs as [|c rest IH]; intros set; cbn [CommentsRoute.add_commenters].
  - now apply preserves_ret.
  - apply preserves_bind; auto. now apply preserves_orThrow.
Qed.

Lemma pushComment_touches (taskId : string) (doc : Stored Task) (author : Ref)
    (text : string) (timestamp : Z) :
  oid_of_string taskId = Some doc.1 ->
  preserves (touches_task taskId) (TaskModel.pushComment doc author text timestamp).
Proof.
  intros Hid. unfold TaskModel.pushComment. preserve.
  intros; now apply touches_task_insert.
Qed.

Lemma saveComments_touches (taskId : string) (doc : Stored Task)
    (cs : list Comment) :
  oid_of_string taskId = Some doc.1 ->
  preserves (touches_task taskId) (TaskModel.saveComments doc cs).
Proof.
  intros Hid. unfold TaskModel.saveComments. preserve.
  intros; now apply touches_task_insert.
Qed.

Lemma findById_touches (taskId : string) :
  preserves (touches_task taskId) (TaskModel.findById taskId).
Proof. unfold TaskModel.findById. preserve. Qed.

(** After [findById], the document in hand is the one the request names. *)
Lemma found_task_touches {B} (taskId : string)
    (k : option (Stored Task) -> M B) :
  (forall doc, oid_of_string taskId = Some doc.1 ->
     preserves (touches_task taskId) (k (Some doc))) ->
  preserves (touches_task taskId) (k None) ->
  preserves (touches_task taskId) (bind (TaskModel.findById taskId) k).
Proof.
  intros Hsome Hnone.
  apply (preserves_bind_post _
           (fun found : option (Stored Task) =>
              forall doc, found = Some doc -> oid_of_string taskId = Some doc.1)).
  - intros ? ?; apply findById_id.
  - apply findById_touches.
  - intros [doc|] Hfound; [apply Hsome; now apply Hfound | exact Hnone].
Qed.

(** X20.  Whatever the request and the state of the store, the handlers of
    the task router that take a task id ([PUT /:id], [PATCH /:id/status],
    [DELETE /:id], [GET /:id], and the four comment handlers) leave every
    task other than the one the id names as it was, and leave users,
    projects and the clock alone. *)
Theorem task_handlers_touch_one_task (user : ObjectId) (role : string)
    (req : Request) (taskId commentId : string) (body : TaskModel.Updates)
    (status text : option string) :
  Forall (fun run : world -> world => forall w, touches_task taskId w (run w))
    [(fun w => (TasksRoute.put user req taskId body w).2);
     (fun w => (TasksRoute.patch_status user taskId status w).2);
     (fun w => (TasksRoute.delete_id taskId w).2);
     (fun w => (TasksRoute.get_id taskId w).2);
     (fun w => (CommentsRoute.post user req taskId text w).2);
     (fun w => (CommentsRoute.get_comments taskId w).2);
     (fun w => (CommentsRoute.put user role taskId commentId text w).2);
     (fun w => (CommentsRoute.delete_id user role taskId commentId w).2)].
Proof.
  repeat (apply List.Forall_cons; [cbv beta|]); [..|apply List.Forall_nil];
    match goal with
    | |- forall w, touches_task _ w (?m w).2 =>
        change (preserves (touches_task taskId) m)
    end.
  - unfold_handlers. preserve; intros; now apply touches_task_insert.
  - unfold_handlers. preserve; intros; now apply touches_task_insert.
  - unfold TasksRoute.delete_id, TaskModel.findByIdAndDelete. preserve.
    intros; now apply touches_task_delete.
  - unfold TasksRoute.get_id. unfold_handlers. preserve.
  - unfold CommentsRoute.post. apply preserves_try_catch; [exact _| |preserve].
    destruct text as [txt|]; [|preserve].
    destruct (_ && _)%bool; [|preserve].
    apply found_task_touches; [intros doc Hdoc|preserve].
    apply preserves_bind; [exact _ | preserve |]. intros time.
    apply preserves_bind; [exact _ | now apply pushComment_touches |].
    intros saved. unfold_handlers. preserve.
    + apply add_commenters_preserves; exact _.
    + apply send_all_preserves; [exact _|]. intros r.
      unfold_handlers. preserve.
  - unfold CommentsRoute.get_comments. unfold_handlers. preserve.
  - unfold CommentsRoute.put. apply preserves_try_catch; [exact _| |preserve].
    destruct text as [txt|]; [|preserve].
    destruct (_ && _)%bool; [|preserve].
    apply found_task_touches; [intros doc Hdoc|preserve].
    destruct (TaskModel.commentById _ _); [|preserve].
    apply preserves_bind; [exact _ | preserve |]. intros author.
    destruct (CommentsRoute.mayNotTouch _ _ _); [preserve|].
    apply preserves_bind; [exact _ | preserve |]. intros time.
    apply preserves_bind; [exact _ | now apply saveComments_touches |].
    intros saved. unfold_handlers. preserve.
  - unfold CommentsRoute.delete_id.
    apply preserves_try_catch; [exact _| |preserve].
    apply found_task_touches; [intros doc Hdoc|preserve].
    destruct (TaskModel.commentById _ _); [|preserve].
    apply preserves_bind; [exact _ | preserve |]. intros author.
    destruct (CommentsRoute.mayNotTouch _ _ _); [preserve|].
    apply preserves_bind; [exact _ | now apply saveComments_touches |].
    intros saved. preserve.
Qed.

(** X21.  Whatever the request and the state of the store, [PATCH
    /:id/status], [DELETE /:id] and the comment [PUT] and [DELETE] write
    nothing to the audit trail (only [POST /], [PUT /:id] and the comment
    [POST] log), and [DELETE /:id] and the comment [PUT] and [DELETE]
    create no notification. *)
Theorem unaudited_writes (user : ObjectId) (role : string)
    (taskId commentId : string) (status text : option string) :
  Forall (fun run : world -> world => forall w, same_audit w (run w))
    [(fun w => (TasksRoute.patch_status user taskId status w).2);
     (fun w => (TasksRoute.delete_id taskId w).2);
     (fun w => (CommentsRoute.put user role taskId commentId text w).2);
     (fun w => (CommentsRoute.delete_id user role taskId commentId w).2)]
  /\ Forall (fun run : world -> world => forall w, same_notifications w (run w))
       [(fun w => (TasksRoute.delete_id taskId w).2);
        (fun w => (CommentsRoute.put user role taskId commentId text w).2);
        (fun w => (CommentsRoute.delete_id user role taskId commentId w).2)].
Proof.
  split; repeat (apply List.Forall_cons; [cbv beta|]);
    try apply List.Forall_nil;
    match goal with
    | |- forall w, ?R w (?m w).2 => change (preserves R m)
    end;
    unfold TasksRoute.delete_id, CommentsRoute.put, CommentsRoute.delete_id,
      TaskModel.findByIdAndDelete, TaskModel.saveComments;
    unfold_handlers; preserve.
Qed.

(** ** The effect of the status PATCH and of PUT *)

Lemma patch_status_same_audit (user : ObjectId) (taskId : string)
    (status : option string) :
  preserves same_audit (TasksRoute.patch_status user taskId status).
Proof. unfold_handlers. preserve. Qed.

(** X22.  On a healthy store, [PATCH /:id/status] with one of the three
    statuses on an existing task answers 200 and stores the task with that
    status and [updatedAt] = now, every other field but [completedAt] as
    it was.  [completedAt] is cleared when the new status is not
    completed, set to now when the task becomes completed, and kept when a
    completed task is set to completed again.  No audit entry is written,
    and no notification unless the new status is completed. *)
Theorem patch_status_effect (user : ObjectId) (taskId : string)
    (tid : ObjectId) (t : Task) (s : string) (w : world) :
  faults w = [] -> oid_of_string taskId = Some tid ->
  tasks w !! tid = Some t ->
  in_enum TaskModel.statuses s = true ->
  exists resp w' t',
    TasksRoute.patch_status user taskId (Some s) w = (Ok resp, w')
    /\ res_status resp = 200
    /\ tasks w' = <[tid := t']> (tasks w)
    /\ t_status t' = s
    /\ t_completedAt t'
       = (if String.eqb s "completed"
          then if String.eqb (t_status t) "completed"
               then t_completedAt t else Some (clock w)
          else None)
    /\ t_updatedAt t' = clock w
    /\ (t_title t', t_description t', t_assignee_id t', t_project_id t',
        t_priority t', t_dueDate t', t_createdBy t', t_comments t',
        t_createdAt t')
       = (t_title t, t_description t, t_assignee_id t, t_project_id t,
          t_priority t, t_dueDate t, t_createdBy t, t_comments t,
          t_createdAt t)
    /\ activitylogs w' = activitylogs w
    /\ (s <> "completed" -> notifications w' = notifications w).
Proof.
  intros Hw Hid Ht Hs.
  pose proof (patch_status_same_audit user taskId (Some s) w) as Haudit.
  unfold same_audit in Haudit.
  assert (Htruthy : truthy_str s = true).
  { unfold in_enum in Hs. cbn [existsb TaskModel.statuses] in Hs.
    destruct s; [discriminate Hs | reflexivity]. }
  set (updates :=
         TaskModel.mkUpdates None None None None (Some s) None None
           (if (String.eqb s "completed"
                && negb (String.eqb (t_status t) "completed"))%bool
            then Some (Some (clock w))
            else if negb (String.eqb s "completed") then Some None
            else None)).
  set (t1 := TaskModel.apply_updates updates None None (clock w) t).
  assert (Hvalid : TaskModel.valid_updates updates = true).
  { unfold TaskModel.valid_updates, updates.
    cbn [TaskModel.title TaskModel.description TaskModel.status
         TaskModel.priority opt_in_enum andb].
    rewrite andb_true_r. exact Hs. }
  assert (Hrun : wp (TasksRoute.patch_status user taskId (Some s)) w
            (fun res w' =>
               exists resp, res = Ok resp /\ res_status resp = 200
                 /\ tasks w' = <[tid := t1]> (tasks w)
                 /\ (s <> "completed" -> notifications w' = notifications w))).
  { unfold TasksRoute.patch_status.
    change (in_enum ["todo"; "in-progress"; "completed"] s)
      with (in_enum TaskModel.statuses s).
    rewrite Htruthy, Hs. cbn [andb].
    apply wp_try_catch.
    wp_by ltac:(apply (findById_healthy _ tid); assumption).
    rewrite Ht. cbn [fmap option_fmap option_map snd fst].
    apply wp_bind, wp_now. cbv beta iota. fold updates.
    wp_by ltac:(eapply (findByIdAndUpdate_healthy _ tid updates None None t);
                try eassumption; reflexivity).
    fold t1.
    assert (Hw' : faults (set_tasks (insert tid t1) w) = []) by exact Hw.
    destruct (populateRefs_healthy ["name"; "email"] ["title"] ["name"; "email"]
                (tid, t1) _ Hw') as (t' & Epop & _).
    wp_by ltac:(exact Epop).
    apply wp_bind. cbn [fst snd].
    destruct (TasksRoute.completes (Some s) (t_status t)) eqn:Hcomp.
    - apply completes_true in Hcomp as [[= ->] _].
      assert (Hdone : forall (v : option (Stored Notification)) w',
                tasks w' = tasks (set_tasks (insert tid t1) w) ->
                wp (reply_with 200 "Task status updated successfully" (tid, t')) w'
                  (fun res w'0 =>
                     exists resp, res = Ok resp /\ res_status resp = 200
                       /\ tasks w'0 = <[tid := t1]> (tasks w)
                       /\ ("completed" <> "completed" ->
                           notifications w'0 = notifications w))).
      { intros v w' Hw1. apply wp_ret. eexists. split; [reflexivity|].
        split; [reflexivity|]. split; [exact Hw1 | congruence]. }
      destruct (truthy (t_createdBy t)) eqn:Htr.
      + destruct (truthy_toString _ Htr) as [c Hc].
        unfold toString. rewrite Hc. cbn [orThrow].
        apply wp_bind, wp_ret. cbv beta iota.
        destruct (negb (String.eqb c (toHexString user))).
        * apply createTaskNotification_frame. intros v w' Hw1.
          now apply (Hdone v).
        * apply wp_ret. now apply (Hdone None).
      + apply wp_ret. now apply (Hdone None).
    - apply wp_ret, wp_ret. eexists. split; [reflexivity|].
      split; [reflexivity|]. split; reflexivity. }
  apply wp_elim in Hrun as (res & w' & E & resp & -> & H200 & Htasks & Hnotif).
  rewrite E in Haudit. cbn [snd] in Haudit.
  exists resp, w', t1. split; [exact E|]. split; [exact H200|].
  split; [exact Htasks|]. split; [reflexivity|].
  split.
  { unfold t1, updates. cbn.
    destruct (String.eqb s "completed"), (String.eqb (t_status t) "completed");
      reflexivity. }
  split; [reflexivity|]. split; [reflexivity|].
  split; [exact Haudit | exact Hnotif].
Qed.

Lemma patch_status_effect_witness :
  exists resp w' t',
    TasksRoute.patch_status Example.userA Example.taskT_param (Some "completed")
      (Example.store "completed" (Some 900%Z))
    = (Ok resp, w')
    /\ res_status resp = 200
    /\ tasks w' = <[Example.taskT := t']> (tasks (Example.store "completed" (Some 900%Z)))
    /\ t_status t' = "completed"
    /\ t_completedAt t' = Some 900%Z
    /\ t_updatedAt t' = 1000%Z
    /\ (t_title t', t_description t', t_assignee_id t', t_project_id t',
        t_priority t', t_dueDate t', t_createdBy t', t_comments t',
        t_createdAt t')
       = (let t := Example.task "completed" (Some 900%Z) in
          (t_title t, t_description t, t_assignee_id t, t_project_id t,
           t_priority t, t_dueDate t, t_createdBy t, t_comments t,
           t_createdAt t))
    /\ activitylogs w' = ∅
    /\ ("completed" <> "completed" -> notifications w' = ∅).
Proof.
  apply (patch_status_effect Example.userA Example.taskT_param Example.taskT
           (Example.task "completed" (Some 900%Z)) "completed"
           (Example.store "completed" (Some 900%Z))); reflexivity.
Defined.

Lemma getTaskDescription_truthy (action : string) (task : Stored Task)
    (md : list (string * Meta)) :
  truthy_str (activityLogger.getTaskDescription action task md) = true.
Proof.
  unfold activityLogger.getTaskDescription.
  repeat match goal with
         | |- context [if String.eqb action ?s then _ else _] =>
             destruct (String.eqb action s)
         end; reflexivity.
Qed.

Lemma logTaskActivity_logged (user : ObjectId) (action : string)
    (task : Stored Task) (req : option Request) (md : list (string * Meta))
    (w : world) :
  faults w = [] -> in_enum ActivityLogModel.actions action = true ->
  project_ref_ok task.2 ->
  exists entry,
    activityLogger.logTaskActivity (ROid user) action task req md w
    = (Ok (Some (fresh (dom (activitylogs w)), entry)),
       set_activitylogs (insert (fresh (dom (activitylogs w))) entry) w)
    /\ a_userId entry = user /\ a_action entry = action
    /\ a_entityType entry = Some "task" /\ a_entityId entry = Some task.1
    /\ a_createdAt entry = clock w
    /\ a_description entry = activityLogger.getTaskDescription action task md
    /\ a_ipAddress entry = activityLogger.ip_of req.
Proof.
  intros Hw Ha Hproj.
  assert (Hcast : exists r,
            castObjectId (if truthy (t_project_id task.2)
                          then t_project_id task.2 else RNull) = Some r).
  { unfold project_ref_ok in Hproj.
    destruct (t_project_id task.2); cbn; try contradiction; eauto. }
  destruct Hcast as [r Hr].
  assert (Hrel : opt_in_enum ActivityLogModel.entityTypes
                   (if truthy (t_project_id task.2) then Some "project" else None)
                 = true) by (destruct (truthy _); reflexivity).
  eexists. split.
  - apply wp_equation.
    unfold activityLogger.logTaskActivity, ActivityLogModel.logActivity,
      ActivityLogModel.validate.
    cbn [ActivityLogModel.userId ActivityLogModel.action
         ActivityLogModel.description ActivityLogModel.entityType
         ActivityLogModel.entityId ActivityLogModel.relatedEntityType
         ActivityLogModel.relatedEntityId castRequired castObjectId
         mbind option_bind].
    rewrite Hr, Ha, Hrel, getTaskDescription_truthy.
    cbn [mbind option_bind andb opt_in_enum].
    change (in_enum ActivityLogModel.entityTypes "task") with true.
    cbn [andb].
    wp_follow. split; reflexivity.
  - repeat split.
Qed.

Lemma notify_update_only_notifies (user : ObjectId) (updates : TaskModel.Updates)
    (existingTask updatedTask : Stored Task) :
  preserves only_notifies
    (TasksRoute.notify_update user updates existingTask updatedTask).
Proof. unfold_handlers. preserve. Qed.

Lemma notify_update_returns (user : ObjectId) (updates : TaskModel.Updates)
    (existingTask updatedTask : Stored Task) (w : world) :
  (TasksRoute.notify_update user updates existingTask updatedTask w).1 = Ok tt.
Proof.
  pose proof (notify_update_frame user updates existingTask updatedTask w
                (fun res _ => res = Ok tt) (fun _ _ => eq_refl)) as H.
  exact H.
Qed.

(** The action [log_update] records, by the branch it takes. *)
Lemma log_update_logged (user : ObjectId) (req : Request)
    (updates : TaskModel.Updates) (existingTask updatedTask : Stored Task)
    (w : world) :
  faults w = [] -> project_ref_ok updatedTask.2 ->
  exists entry,
    TasksRoute.log_update user req updates existingTask updatedTask w
    = (Ok tt, set_activitylogs (insert (fresh (dom (activitylogs w))) entry) w)
    /\ a_userId entry = user /\ a_entityType entry = Some "task"
    /\ a_entityId entry = Some updatedTask.1 /\ a_createdAt entry = clock w
    /\ a_action entry
       = (if TasksRoute.isReassignment updates existingTask.2
          then "task_reassigned"
          else if TasksRoute.completes (TaskModel.status updates)
                    (t_status existingTask.2)
          then "task_completed"
          else match TaskModel.status updates with
               | Some s =>
                   if (truthy_str s
                       && negb (String.eqb s (t_status existingTask.2)))%bool
                   then "task_status_changed" else "task_updated"
               | None => "task_updated"
               end).
Proof.
  intros Hw Hproj. unfold TasksRoute.log_update.
  repeat match goal with
         | |- context [if ?b then _ else _] => destruct b
         | |- context [match TaskModel.status updates with _ => _ end] =>
             destruct (TaskModel.status updates)
         end;
    match goal with
    | |- context [activityLogger.logTaskActivity ?u ?a ?t ?r ?md] =>
        destruct (logTaskActivity_logged user a t r md w Hw eq_refl Hproj)
          as (entry & E & H1 & H2 & H3 & H4 & H5 & _);
        exists entry; unfold bind; rewrite E; repeat split; assumption
    end.
Qed.

Lemma populated_project_ref_ok (sel : list string) (w : world) (t : Task) (r : Ref) :
  t_project_id t = populate_project sel w r -> project_ref_ok t.
Proof.
  unfold project_ref_ok, populate_project. intros ->.
  destruct (castObjectId r) as [[i|]|]; try exact I.
  destruct (projects w !! i); exact I.
Qed.

(** X23.  On a healthy store [PUT /:id] always answers, and either with 200,
    and then the task the id names was replaced and exactly one audit
    entry was added, attributed to the user, about that task, dated now,
    its action one of [task_reassigned], [task_completed],
    [task_status_changed], [task_updated] ([task_reassigned] when the
    assignee changes); or with another status, and then tasks,
    notifications and audit trail are as before. *)
Theorem put_all_or_nothing (user : ObjectId) (req : Request) (taskId : string)
    (body : TaskModel.Updates) (w : world) :
  faults w = [] ->
  exists resp w',
    TasksRoute.put user req taskId body w = (Ok resp, w')
    /\ ((res_status resp = 200
         /\ exists tid t t' id entry,
              oid_of_string taskId = Some tid
              /\ tasks w !! tid = Some t
              /\ tasks w' = <[tid := t']> (tasks w)
              /\ activitylogs w !! id = None
              /\ activitylogs w' = <[id := entry]> (activitylogs w)
              /\ a_userId entry = user /\ a_entityType entry = Some "task"
              /\ a_entityId entry = Some tid /\ a_createdAt entry = clock w
              /\ a_action entry
                 ∈ ["task_reassigned"; "task_completed"; "task_status_changed";
                    "task_updated"]
              /\ (TasksRoute.isReassignment body t = true ->
                  a_action entry = "task_reassigned"))
        \/ (res_status resp <> 200
            /\ tasks w' = tasks w /\ notifications w' = notifications w
            /\ activitylogs w' = activitylogs w)).
Proof.
  intros Hw.
  assert (Hrun : wp (TasksRoute.put user req taskId body) w
            (fun res w' =>
               exists resp, res = Ok resp
                 /\ ((res_status resp = 200
                      /\ exists tid t t' id entry,
                           oid_of_string taskId = Some tid
                           /\ tasks w !! tid = Some t
                           /\ tasks w' = <[tid := t']> (tasks w)
                           /\ activitylogs w !! id = None
                           /\ activitylogs w' = <[id := entry]> (activitylogs w)
                           /\ a_userId entry = user
                           /\ a_entityType entry = Some "task"
                           /\ a_entityId entry = Some tid
                           /\ a_createdAt entry = clock w
                           /\ a_action entry
                              ∈ ["task_reassigned"; "task_completed";
                                 "task_status_changed"; "task_updated"]
                           /\ (TasksRoute.isReassignment body t = true ->
                               a_action entry = "task_reassigned"))
                     \/ (res_status resp <> 200
                         /\ tasks w' = tasks w
                         /\ notifications w' = notifications w
                         /\ activitylogs w' = activitylogs w)))).
  { assert (Hfail : forall code msg line,
              code <> 200 ->
              exists resp : Response (Stored Task),
                Ok (mkResponse code msg None) = Ok resp
                /\ ((res_status resp = 200
                     /\ exists tid t t' id entry,
                          oid_of_string taskId = Some tid
                          /\ tasks w !! tid = Some t
                          /\ tasks (add_console line w) = <[tid := t']> (tasks w)
                          /\ activitylogs w !! id = None
                          /\ activitylogs (add_console line w)
                             = <[id := entry]> (activitylogs w)
                          /\ a_userId entry = user
                          /\ a_entityType entry = Some "task"
                          /\ a_entityId entry = Some tid
                          /\ a_createdAt entry = clock w
                          /\ a_action entry
                             ∈ ["task_reassigned"; "task_completed";
                                "task_status_changed"; "task_updated"]
                          /\ (TasksRoute.isReassignment body t = true ->
                              a_action entry = "task_reassigned"))
                    \/ (res_status resp <> 200
                        /\ tasks (add_console line w) = tasks w
                        /\ notifications (add_console line w) = notifications w
                        /\ activitylogs (add_console line w) = activitylogs w))).
    { intros code msg line Hcode. eexists. split; [reflexivity|].
      right. repeat split. exact Hcode. }
    assert (Hfail0 : forall code msg,
              code <> 200 ->
              exists resp : Response (Stored Task),
                Ok (mkResponse code msg None) = Ok resp
                /\ ((res_status resp = 200
                     /\ exists tid t t' id entry,
                          oid_of_string taskId = Some tid
                          /\ tasks w !! tid = Some t
                          /\ tasks w = <[tid := t']> (tasks w)
                          /\ activitylogs w !! id = None
                          /\ activitylogs w = <[id := entry]> (activitylogs w)
                          /\ a_userId entry = user
                          /\ a_entityType entry = Some "task"
                          /\ a_entityId entry = Some tid
                          /\ a_createdAt entry = clock w
                          /\ a_action entry
                             ∈ ["task_reassigned"; "task_completed";
                                "task_status_changed"; "task_updated"]
                          /\ (TasksRoute.isReassignment body t = true ->
                              a_action entry = "task_reassigned"))
                    \/ (res_status resp <> 200
                        /\ tasks w = tasks w
                        /\ notifications w = notifications w
                        /\ activitylogs w = activitylogs w))).
    { intros code msg Hcode. eexists. split; [reflexivity|].
      right. repeat split. exact Hcode. }
    unfold TasksRoute.put. apply wp_try_catch.
    destruct (oid_of_string taskId) as [tid|] eqn:Hid.
    2:{ unfold TaskModel.findById. rewrite Hid. cbn [orThrow].
        apply wp_bind, wp_throw. apply wp_bind, wp_console_error.
        cbv beta iota. apply wp_ret. now apply Hfail. }
    wp_by ltac:(apply (findById_healthy _ tid); assumption).
    destruct (tasks w !! tid) as [t|] eqn:Ht;
      cbn [fmap option_fmap option_map snd fst];
      [|apply wp_ret; now apply Hfail0].
    destruct (check_ref_healthy projects (TaskModel.project_id body) w Hw)
      as (r1 & E1 & [-> | [-> | ->]]); wp_by ltac:(exact E1); cbn [negb];
      [| apply wp_ret; now apply Hfail0
       | apply wp_bind, wp_console_error; cbv beta iota; apply wp_ret;
         now apply Hfail].
    destruct (check_ref_healthy users (TaskModel.assignee_id body) w Hw)
      as (r2 & E2 & [-> | [-> | ->]]); wp_by ltac:(exact E2); cbn [negb];
      [| apply wp_ret; now apply Hfail0
       | apply wp_bind, wp_console_error; cbv beta iota; apply wp_ret;
         now apply Hfail].
    apply wp_bind, wp_now. cbv beta iota.
    set (updates := TasksRoute.handle_completion (clock w) (t_status t) body).
    destruct (findByIdAndUpdate_cases taskId tid updates t w Hw Hid Ht)
      as [(a & p & Eu) | (e & Eu & [-> | ->])]; wp_by ltac:(exact Eu);
      [| apply wp_bind, wp_console_error; cbv beta iota; apply wp_ret;
         now apply Hfail
       | apply wp_bind, wp_console_error; cbv beta iota; apply wp_ret;
         now apply Hfail].
    set (t1 := TaskModel.apply_updates updates a p (clock w) t).
    set (w1 := set_tasks (insert tid t1) w).
    assert (Hw1 : faults w1 = []) by exact Hw.
    destruct (populateRefs_healthy ["name"; "email"] ["title"] ["name"; "email"]
                (tid, t1) w1 Hw1) as (t' & Epop & _ & _ & Hproj & _).
    apply populated_project_ref_ok in Hproj.
    wp_by ltac:(exact Epop).
    apply wp_bind.
    pose proof (notify_update_only_notifies user updates (tid, t) (tid, t') w1)
      as (Hn1 & Hn2 & Hn3 & Hn4 & Hn5 & Hn6).
    pose proof (notify_update_returns user updates (tid, t) (tid, t') w1) as Hret.
    unfold wp. destruct (TasksRoute.notify_update _ _ _ _ w1) as [res2 w2].
    cbn [fst snd] in *. subst res2.
    specialize (Hn6 Hw1).
    destruct (log_update_logged user req updates (tid, t) (tid, t') w2 Hn6 Hproj)
      as (entry & Elog & Hl1 & Hl2 & Hl3 & Hl4 & Hl5).
    unfold bind. rewrite Elog. cbn [fst snd reply_with ret].
    eexists. split; [reflexivity|]. left. split; [reflexivity|].
    exists tid, t, t1, (fresh (dom (activitylogs w2))), entry.
    unfold_store. rewrite Hn3, Hn4. unfold w1. unfold_store.
    split; [reflexivity|]. split; [exact Ht|]. split; [reflexivity|].
    split; [apply fresh_lookup|]. split; [reflexivity|].
    split; [exact Hl1|]. split; [exact Hl2|]. split; [exact Hl3|].
    split; [now rewrite Hl4, Hn5|].
    assert (Hre : TasksRoute.isReassignment updates t
                  = TasksRoute.isReassignment body t).
    { unfold TasksRoute.isReassignment, updates, TasksRoute.handle_completion.
      destruct (TaskModel.status body) as [s|]; [|reflexivity].
      destruct (String.eqb s "completed"); [|reflexivity].
      destruct (negb _); reflexivity. }
    cbn [fst snd] in Hl5. rewrite Hre in Hl5.
    split.
    - rewrite Hl5.
      repeat match goal with
             | |- context [if ?b then _ else _] => destruct b
             | |- context [match ?o with Some _ => _ | None => _ end] =>
                 destruct o
             end; set_solver.
    - intros Hr. now rewrite Hl5, Hr. }
  apply wp_elim in Hrun as (res & w' & E & resp & -> & H).
  exists resp, w'. split; [exact E | exact H].
Qed.

Lemma put_all_or_nothing_witness :
  exists resp w',
    TasksRoute.put Example.boss Example.request Example.taskT_param
      Example.rename (Example.store "in-progress" None)
    = (Ok resp, w')
    /\ ((res_status resp = 200
         /\ exists tid t t' id entry,
              oid_of_string Example.taskT_param = Some tid
              /\ tasks (Example.store "in-progress" None) !! tid = Some t
              /\ tasks w' = <[tid := t']> (tasks (Example.store "in-progress" None))
              /\ activitylogs (Example.store "in-progress" None) !! id = None
              /\ activitylogs w'
                 = <[id := entry]> (activitylogs (Example.store "in-progress" None))
              /\ a_userId entry = Example.boss
              /\ a_entityType entry = Some "task"
              /\ a_entityId entry = Some tid /\ a_createdAt entry = 1000%Z
              /\ a_action entry
                 ∈ ["task_reassigned"; "task_completed"; "task_status_changed";
                    "task_updated"]
              /\ (TasksRoute.isReassignment Example.rename t = true ->
                  a_action entry = "task_reassigned"))
        \/ (res_status resp <> 200
            /\ tasks w' = tasks (Example.store "in-progress" None)
            /\ notifications w' = notifications (Example.store "in-progress" None)
            /\ activitylogs w' = activitylogs (Example.store "in-progress" None))).
Proof.
  apply (put_all_or_nothing Example.boss Example.request Example.taskT_param
           Example.rename (Example.store "in-progress" None)).
  reflexivity.
Defined.

(** ** Creating a task *)

Lemma hex_value_digit (d : N) : (d < 16)%N -> hex_value (hex_digit d) = Some d.
Proof.
  intros Hd.
  assert (Hcases : d = 0%N \/ d = 1%N \/ d = 2%N \/ d = 3%N \/ d = 4%N \/ d = 5%N
            \/ d = 6%N \/ d = 7%N \/ d = 8%N \/ d = 9%N \/ d = 10%N \/ d = 11%N
            \/ d = 12%N \/ d = 13%N \/ d = 14%N \/ d = 15%N) by lia.
  repeat (destruct Hcases as [-> | Hcases]; [reflexivity|]).
  now subst.
Qed.

Lemma parse_hex_app (cs1 cs2 : list ascii) (acc : N) :
  parse_hex (cs1 ++ cs2) acc
  = match parse_hex cs1 acc with
    | Some acc' => parse_hex cs2 acc'
    | None => None
    end.
Proof.
  revert acc. induction cs1 as [|c cs1 IH]; intros acc; [reflexivity|].
  cbn. destruct (hex_value c); [apply IH | reflexivity].
Qed.

Lemma parse_hex_digits (n : nat) (i acc : N) :
  parse_hex (hex_digits n i) acc
  = Some (acc * 16 ^ N.of_nat n + i mod 16 ^ N.of_nat n)%N.
Proof.
  revert i acc. induction n as [|n IH]; intros i acc.
  - cbn. f_equal. rewrite N.mod_1_r. lia.
  - cbn [hex_digits]. rewrite parse_hex_app, IH. cbn [parse_hex].
    rewrite hex_value_digit by (apply N.mod_lt; lia).
    f_equal. rewrite Nat2N.inj_succ, N.pow_succ_r'.
    rewrite (N.Div0.mod_mul_r i 16 (16 ^ N.of_nat n)). lia.
Qed.

Lemma oid_of_string_toHexString (i : ObjectId) :
  oid_ok i -> oid_of_string (toHexString i) = Some i.
Proof.
  intros Hi. unfold oid_of_string. rewrite toHexString_length. cbn [Nat.eqb].
  unfold toHexString. rewrite list_ascii_of_string_of_list_ascii.
  rewrite parse_hex_digits. f_equal.
  change (N.of_nat 24) with 24%N. rewrite N.mod_small by exact Hi. lia.
Qed.

Lemma wp_preserves (R : world -> world -> Prop) {A} (m : M A) (w : world)
    (Q : result A -> world -> Prop) :
  preserves R m -> (forall r w', R w w' -> Q r w') -> wp m w Q.
Proof. intros Hm HQ. unfold wp. apply HQ, Hm. Qed.

Lemma check_ref_reads {A} (coll : world -> gmap ObjectId A) (o : option string) :
  preserves only_notifies (check_ref coll o).
Proof. unfold check_ref, exists_by_id. preserve. Qed.

Lemma populateRefs_reads (sa sp sc : list string) (doc : Stored Task) :
  preserves only_notifies (TaskModel.populateRefs sa sp sc doc).
Proof. unfold TaskModel.populateRefs. preserve. Qed.

Lemma populateRefs_id (sa sp sc : list string) (doc task : Stored Task)
    (w : world) :
  (TaskModel.populateRefs sa sp sc doc w).1 = Ok task -> task.1 = doc.1.
Proof.
  unfold TaskModel.populateRefs, bind, db, get, ret.
  destruct (faults w) as [|[|] fs]; cbn; try discriminate;
    now intros [= <-].
Qed.

Lemma createTaskNotification_only_notifies (r s : Ref) (task : Stored Task)
    (type : string) :
  preserves only_notifies (notifications.createTaskNotification r s task type).
Proof. unfold_handlers. preserve. Qed.

Lemma logTaskActivity_only_logs (u : Ref) (action : string) (task : Stored Task)
    (req : option Request) (md : list (string * Meta)) :
  preserves only_logs (activityLogger.logTaskActivity u action task req md).
Proof. unfold_handlers. preserve. Qed.

Lemma validate_new_task (time : Z) (t0 t1 : Task) :
  TaskModel.validate time t0 = Some t1 ->
  t_title t1 = trim (t_title t0) /\ t_status t1 = t_status t0
  /\ t_completedAt t1 = t_completedAt t0 /\ t_comments t1 = t_comments t0
  /\ t_createdAt t1 = time
  /\ (exists a, castRequired (t_assignee_id t0) = Some a
                /\ t_assignee_id t1 = ROid a)
  /\ (exists c, castRequired (t_createdBy t0) = Some c
                /\ t_createdBy t1 = ROid c).
Proof.
  unfold TaskModel.validate. intros H.
  destruct (castRequired (t_assignee_id t0)) as [a|]; [|discriminate H].
  cbn [mbind option_bind] in H.
  destruct (castObjectId (t_project_id t0)) as [p|]; [|discriminate H].
  cbn [mbind option_bind] in H.
  destruct (castRequired (t_createdBy t0)) as [c|]; [|discriminate H].
  cbn [mbind option_bind] in H.
  match type of H with
  | (if ?b then _ else _) = _ => destruct b; [|discriminate H]
  end.
  injection H as <-. cbn. repeat split; eauto.
Qed.

Lemma populateRefs_spec (sa sp sc : list string) (doc : Stored Task) (w : world) :
  wp (TaskModel.populateRefs sa sp sc doc) w
     (fun res w' =>
        only_notifies w w' /\ forall task, res = Ok task -> task.1 = doc.1).
Proof.
  unfold wp. split; [apply populateRefs_reads|].
  intros task H. eapply populateRefs_id. exact H.
Qed.

(** What [create] stores, when it returns. *)
Lemma create_spec (t0 : Task) (w : world) :
  wp (TaskModel.create t0) w
     (fun res w' =>
        users w' = users w /\ projects w' = projects w /\ clock w' = clock w
        /\ notifications w' = notifications w
        /\ activitylogs w' = activitylogs w
        /\ match res with
           | Ok doc =>
               tasks w !! doc.1 = None
               /\ tasks w' = <[doc.1 := doc.2]> (tasks w)
               /\ exists t1, TaskModel.validate (clock w) t0 = Some t1
                             /\ doc.2 = TaskModel.pre_save true (clock w) t1
           | Throw _ => tasks w' = tasks w
           end).
Proof.
  unfold TaskModel.create.
  wp_run; unfold_store; repeat (split; [reflexivity|]); try reflexivity;
    (split; [apply fresh_lookup|]); (split; [reflexivity|]); eauto.
Qed.

Lemma create_keeps_tasks (t0 : Task) : preserves keeps_tasks (TaskModel.create t0).
Proof.
  intros w. pose proof (create_spec t0 w) as H. unfold wp in H.
  destruct (TaskModel.create t0 w) as [[doc|e] w'];
    cbn [fst snd] in *; destruct H as (H1 & H2 & H3 & _ & _ & H4);
    unfold keeps_tasks; repeat (split; [assumption|]).
  - destruct H4 as (Hnew & -> & _). now apply insert_subseteq.
  - now rewrite H4.
Qed.

(** X24.  [POST /api/tasks], whatever the body and the state of the store,
    changes or removes no existing task and leaves users, projects and
    clock alone.  When it answers 201, the task of the answer is stored
    under a new id, with the trimmed title, status [todo], no
    [completedAt], no comments, [createdAt] = now, [createdBy] the user and
    the assignee of the body. *)
Theorem post_creates_todo_task (user : ObjectId) (req : Request)
    (body : TasksRoute.CreateBody) (w : world) :
  wp (TasksRoute.post user req body) w
     (fun res w' =>
        keeps_tasks w w'
        /\ forall resp, res = Ok resp -> res_status resp = 201 ->
             exists id t populated a,
               res_body resp = Some (id, populated)
               /\ tasks w !! id = None
               /\ tasks w' = <[id := t]> (tasks w)
               /\ t_title t = trim (default empty (TasksRoute.title body))
               /\ t_status t = "todo" /\ t_completedAt t = None
               /\ t_createdBy t = ROid user /\ t_comments t = []
               /\ t_createdAt t = clock w
               /\ castRequired (body_ref (TasksRoute.assignee_id body)) = Some a
               /\ t_assignee_id t = ROid a).
Proof.
  unfold wp. split.
  - assert (H : preserves keeps_tasks (TasksRoute.post user req body)).
    { unfold TasksRoute.post, check_ref, exists_by_id, TaskModel.populateRefs,
        notifications.createTaskNotification,
        NotificationModel.createNotification, activityLogger.logTaskActivity,
        ActivityLogModel.logActivity.
      preserve. all: apply create_keeps_tasks. }
    apply H.
  - change (wp (TasksRoute.post user req body) w
              (fun res w' =>
                 forall resp, res = Ok resp -> res_status resp = 201 ->
                   exists id t populated a,
                     res_body resp = Some (id, populated)
                     /\ tasks w !! id = None
                     /\ tasks w' = <[id := t]> (tasks w)
                     /\ t_title t = trim (default empty (TasksRoute.title body))
                     /\ t_status t = "todo" /\ t_completedAt t = None
                     /\ t_createdBy t = ROid user /\ t_comments t = []
                     /\ t_createdAt t = clock w
                     /\ castRequired (body_ref (TasksRoute.assignee_id body))
                        = Some a
                     /\ t_assignee_id t = ROid a)).
    assert (Hnot : forall code msg (w' : world),
              code <> 201 ->
              forall resp : Response (Stored Task),
                Ok (mkResponse code msg None) = Ok resp ->
                res_status resp = 201 ->
                exists id t populated a,
                  res_body resp = Some (id, populated)
                  /\ tasks w !! id = None
                  /\ tasks w' = <[id := t]> (tasks w)
                  /\ t_title t = trim (default empty (TasksRoute.title body))
                  /\ t_status t = "todo" /\ t_completedAt t = None
                  /\ t_createdBy t = ROid user /\ t_comments t = []
                  /\ t_createdAt t = clock w
                  /\ castRequired (body_ref (TasksRoute.assignee_id body))
                     = Some a
                  /\ t_assignee_id t = ROid a).
    { intros code msg w' Hcode resp [= <-] H. cbn in H. contradiction. }
    assert (Hcatch : forall e (w' : world),
              wp (do! console_error "Create task error:" in
                  match e with
                  | ValidationError => reply 400 "Validation error"
                  | _ => reply 500 "Server error creating task"
                  end) w'
                (fun res w'0 =>
                   forall resp : Response (Stored Task), res = Ok resp ->
                     res_status resp = 201 ->
                     exists id t populated a,
                       res_body resp = Some (id, populated)
                       /\ tasks w !! id = None
                       /\ tasks w'0 = <[id := t]> (tasks w)
                       /\ t_title t = trim (default empty (TasksRoute.title body))
                       /\ t_status t = "todo" /\ t_completedAt t = None
                       /\ t_createdBy t = ROid user /\ t_comments t = []
                       /\ t_createdAt t = clock w
                       /\ castRequired (body_ref (TasksRoute.assignee_id body))
                          = Some a
                       /\ t_assignee_id t = ROid a)).
    { intros e w'. apply wp_bind, wp_console_error. cbv beta iota.
      destruct e; apply wp_ret; apply Hnot; discriminate. }
    unfold TasksRoute.post. apply wp_try_catch.
    destruct (_ || _)%bool; [apply wp_ret, Hnot; discriminate|].
    apply wp_bind.
    apply (wp_preserves only_notifies); [apply check_ref_reads|].
    intros r1 w1 (_ & _ & Ht1 & _ & Hc1 & _).
    destruct r1 as [projectFound|e]; [|apply Hcatch].
    destruct (negb projectFound); [apply wp_ret, Hnot; discriminate|].
    apply wp_bind.
    apply (wp_preserves only_notifies); [apply check_ref_reads|].
    intros r2 w2 (_ & _ & Ht2 & _ & Hc2 & _).
    destruct r2 as [assigneeFound|e]; [|apply Hcatch].
    destruct (negb assigneeFound); [apply wp_ret, Hnot; discriminate|].
    apply wp_bind. eapply wp_mono; [apply create_spec|].
    intros r3 w3 (_ & _ & Hc3 & _ & _ & H3).
    destruct r3 as [saved|e]; [|apply Hcatch].
    destruct H3 as (Hnew & Hins & t1 & Hval & Hsaved).
    apply wp_bind. eapply wp_mono; [apply populateRefs_spec|].
    intros r4 w4 ((_ & _ & Ht4 & _ & _ & _) & Hpid).
    destruct r4 as [task|e]; [|apply Hcatch].
    specialize (Hpid task eq_refl).
    apply wp_bind.
    assert (Hn : preserves only_notifies
                   (if truthy_opt (TasksRoute.assignee_id body)
                    then notifications.createTaskNotification
                           (body_ref (TasksRoute.assignee_id body)) (ROid user)
                           task "task_assigned"
                    else ret None)).
    { destruct (truthy_opt (TasksRoute.assignee_id body));
        [exact (createTaskNotification_only_notifies _ _ _ _)
        | exact (preserves_ret only_notifies _)]. }
    apply (wp_preserves only_notifies _ _ _ Hn).
    intros r5 w5 (_ & _ & Ht5 & _ & _ & _).
    destruct r5 as [v|e]; [|apply Hcatch].
    apply wp_bind.
    apply (wp_preserves only_logs);
      [apply logTaskActivity_only_logs|].
    intros r6 w6 (_ & _ & Ht6 & _ & _ & _).
    destruct r6 as [v'|e]; [|apply Hcatch].
    apply wp_ret. intros resp [= <-] _. cbn [res_body].
    apply validate_new_task in Hval
      as (Hv1 & Hv2 & Hv3 & Hv4 & Hv5 & (a & Ha & Ha') & (c & Hc & Hc')).
    cbn [t_title t_status t_completedAt t_comments t_assignee_id t_createdBy
         castRequired castObjectId] in *.
    injection Hc as <-.
    assert (Hpre : TaskModel.pre_save true (clock w2) t1
                   = TaskModel.set_completedAt None t1).
    { unfold TaskModel.pre_save. rewrite Hv2. reflexivity. }
    rewrite Ht6, Ht5, Ht4, Hins, Ht2, Ht1 in *.
    destruct task as [tid' populated]. cbn [fst snd] in Hpid. subst tid'.
    exists saved.1, saved.2, populated, a.
    split; [reflexivity|]. split; [exact Hnew|]. split; [reflexivity|].
    rewrite Hsaved, Hpre. cbn.
    repeat split; try assumption; congruence.
Qed.

Lemma createNotification_cast (r s : Ref) (ri si : ObjectId)
    (type title message : string) (rt : ObjectId) (project : Ref)
    (p : option ObjectId) (w : world) :
  faults w = [] ->
  castRequired r = Some ri -> castRequired s = Some si ->
  in_enum NotificationModel.types type = true ->
  truthy_str title = true -> truthy_str message = true ->
  castObjectId project = Some p ->
  let n := mkNotification ri si type title message (Some rt) p false None
             (clock w) (clock w) in
  let id := fresh (dom (notifications w)) in
  NotificationModel.createNotification
    (NotificationModel.mkData r s type title message (ROid rt) project) w
  = (Ok (id, n), set_notifications (insert id n) w).
Proof.
  intros Hw Hr Hs Htype Htitle Hmsg Hp n id. apply wp_equation.
  unfold NotificationModel.createNotification, NotificationModel.validate.
  cbn [NotificationModel.recipient NotificationModel.sender
       NotificationModel.type NotificationModel.title
       NotificationModel.message NotificationModel.relatedTask
       NotificationModel.relatedProject].
  rewrite Hr, Hs. cbn [castObjectId mbind option_bind].
  rewrite Hp, Htype, Htitle, Hmsg. cbn [mbind option_bind andb].
  wp_follow. now split.
Qed.

Lemma check_ref_found {A} (coll : world -> gmap ObjectId A) (s : string)
    (i : ObjectId) (w : world) :
  faults w = [] -> oid_of_string s = Some i -> is_Some (coll w !! i) ->
  check_ref coll (Some s) w = (Ok true, w).
Proof.
  intros Hw Hs [x Hx]. unfold check_ref.
  destruct (truthy_str s).
  - apply wp_equation. unfold exists_by_id. wp_follow. now split.
  - reflexivity.
Qed.

Lemma create_healthy (t0 t1 : Task) (w : world) :
  faults w = [] -> TaskModel.validate (clock w) t0 = Some t1 ->
  let t2 := TaskModel.pre_save true (clock w) t1 in
  let id := fresh (dom (tasks w)) in
  TaskModel.create t0 w = (Ok (id, t2), set_tasks (insert id t2) w).
Proof.
  intros Hw Hv t2 id. apply wp_equation. unfold TaskModel.create.
  wp_follow. now split.
Qed.

Lemma castRequired_text (a : ObjectId) :
  oid_ok a -> castRequired (RStr (toHexString a)) = Some a.
Proof.
  intros Ha. unfold castRequired, castObjectId.
  now rewrite (oid_of_string_toHexString a Ha).
Qed.

(** X25.  On a healthy store, [POST /api/tasks] with title, description and
    due date, no priority, no project, and as assignee the id of an
    existing user answers 201 and stores the task (priority [medium],
    status [todo]).  If the assignee is not the creator, exactly one
    notification is created: unread, of type [task_assigned], from the
    creator to the assignee, about the new task; if the creator assigns
    the task to themself, none is.  In both cases exactly one audit entry
    is added: action [task_assigned], attributed to the creator, about the
    new task. *)
Theorem post_notifies_and_logs (user a : ObjectId) (req : Request)
    (body : TasksRoute.CreateBody) (title description : string) (due : Z)
    (w : world) :
  faults w = [] -> oid_ok user -> oid_ok a ->
  TasksRoute.title body = Some title -> truthy_str (trim title) = true ->
  TasksRoute.description body = Some description ->
  truthy_str (trim description) = true ->
  TasksRoute.dueDate body = Some due ->
  TasksRoute.priority body = None -> TasksRoute.project_id body = None ->
  TasksRoute.assignee_id body = Some (toHexString a) ->
  is_Some (users w !! a) ->
  exists resp w' id t,
    TasksRoute.post user req body w = (Ok resp, w')
    /\ res_status resp = 201
    /\ tasks w !! id = None /\ tasks w' = <[id := t]> (tasks w)
    /\ t_assignee_id t = ROid a /\ t_createdBy t = ROid user
    /\ t_status t = "todo" /\ t_priority t = "medium"
    /\ (a = user -> notifications w' = notifications w)
    /\ (a <> user ->
        exists nid n,
          notifications w !! nid = None
          /\ notifications w' = <[nid := n]> (notifications w)
          /\ n_recipient n = a /\ n_sender n = user
          /\ n_type n = "task_assigned" /\ n_title n = "New Task Assigned"
          /\ n_relatedTask n = Some id /\ n_isRead n = false)
    /\ exists lid entry,
         activitylogs w !! lid = None
         /\ activitylogs w' = <[lid := entry]> (activitylogs w)
         /\ a_userId entry = user /\ a_action entry = "task_assigned"
         /\ a_entityType entry = Some "task" /\ a_entityId entry = Some id.
Proof.
  intros Hw Hou Hoa Htitle Httl Hdesc Hdsc Hdue Hprio Hproj Hasg Huser.
  pose proof (oid_of_string_toHexString a Hoa) as Hcast.
  assert (Htt : truthy_str title = true).
  { destruct title; [discriminate Httl | reflexivity]. }
  assert (Htd : truthy_str description = true).
  { destruct description; [discriminate Hdsc | reflexivity]. }
  assert (Hth : truthy_str (toHexString a) = true).
  { pose proof (toHexString_length a) as Hlen.
    destruct (toHexString a); [discriminate Hlen | reflexivity]. }
  set (t0 := mkTask title description (RStr (toHexString a)) RNull "todo"
               "medium" (Some due) (ROid user) None [] 0 0).
  set (t1 := mkTask (trim title) (trim description) (ROid a) RNull "todo"
               "medium" (Some due) (ROid user) None [] (clock w) (clock w)).
  assert (Hval : TaskModel.validate (clock w) t0 = Some t1).
  { unfold TaskModel.validate, t0.
    cbn [t_assignee_id t_project_id t_createdBy t_title t_description
         t_status t_priority t_dueDate t_completedAt t_comments].
    rewrite (castRequired_text a Hoa).
    cbn [castRequired castObjectId mbind option_bind].
    rewrite Httl, Hdsc. reflexivity. }
  set (id := fresh (dom (tasks w))).
  set (w1 := set_tasks (insert id t1) w).
  assert (Hw1 : faults w1 = []) by exact Hw.
  set (task := (id,
                mkTask (trim title) (trim description)
                  (populate_user ["name"; "email"] w1 (ROid a))
                  (populate_project ["title"] w1 RNull) "todo" "medium"
                  (Some due) (populate_user ["name"; "email"] w1 (ROid user))
                  None [] (clock w) (clock w)) : Stored Task).
  assert (Hpok : project_ref_ok task.2) by exact I.
  assert (Hhead :
    forall k : M (Response (Stored Task)),
      TasksRoute.post user req body w
      = try_catch
          (do! notifications.createTaskNotification (RStr (toHexString a))
                 (ROid user) task "task_assigned" in
           do! activityLogger.logTaskActivity (ROid user) "task_assigned" task
                 (Some req)
                 [("priority", MStr (t_priority task.2));
                  ("dueDate", MDate due);
                  ("projectName",
                   meta_opt (ref_field "title" (t_project_id task.2)));
                  ("assigneeName",
                   meta_opt (ref_field "name" (t_assignee_id task.2)))] in
           reply_with 201 "Task created successfully" task)
          (fun e =>
             do! console_error "Create task error:" in
             match e with
             | ValidationError => reply 400 "Validation error"
             | _ => reply 500 "Server error creating task"
             end) w1).
  { intros _. unfold TasksRoute.post.
    rewrite Htitle, Hdesc, Hprio, Hproj, Hasg, Hdue.
    cbn [truthy_opt default from_option body_ref].
    rewrite Htt, Htd, Hth. cbn [negb orb].
    change (check_ref projects None) with (@ret bool true).
    unfold try_catch at 1 2, bind at 1. cbn [ret negb].
    unfold bind at 1.
    rewrite (check_ref_found users _ a w Hw Hcast Huser). cbn [negb].
    unfold bind at 1.
    match goal with
    | |- context [TaskModel.create ?x] => change x with t0
    end.
    rewrite (create_healthy t0 t1 w Hw Hval).
    change (TaskModel.pre_save true (clock w) t1) with t1.
    fold id. fold w1.
    unfold bind at 1.
    rewrite (populateRefs_run _ _ _ (id, t1) w1 Hw1).
    reflexivity. }
  rewrite (Hhead (ret (mkResponse 0 empty None))). clear Hhead.
  assert (Hnotify :
    exists v w2,
      notifications.createTaskNotification (RStr (toHexString a)) (ROid user)
        task "task_assigned" w1 = (Ok v, w2)
      /\ faults w2 = [] /\ tasks w2 = tasks w1
      /\ activitylogs w2 = activitylogs w1 /\ clock w2 = clock w1
      /\ (a = user -> notifications w2 = notifications w)
      /\ (a <> user ->
          exists nid n,
            notifications w !! nid = None
            /\ notifications w2 = <[nid := n]> (notifications w)
            /\ n_recipient n = a /\ n_sender n = user
            /\ n_type n = "task_assigned" /\ n_title n = "New Task Assigned"
            /\ n_relatedTask n = Some id /\ n_isRead n = false)).
  { destruct (decide (a = user)) as [->|Hne].
    - exists None, w1. split.
      { apply (createTaskNotification_self user); unfold names; auto. }
      repeat split; eauto. intros H; contradiction.
    - eexists _, _. split.
      { unfold notifications.createTaskNotification, try_catch, bind, toString.
        cbn [toStringOpt orThrow ret].
        rewrite (toHexString_eqb _ _ Hoa Hou Hne).
        rewrite (createNotification_cast (RStr (toHexString a)) (ROid user)
                   a user "task_assigned" _ _ id _ None w1 Hw1);
          try reflexivity.
        now apply castRequired_text. }
      repeat split; try contradiction; try reflexivity; try exact Hw.
      intros _. eexists _, _. split; [apply fresh_lookup|].
      repeat split. }
  destruct Hnotify as (v & w2 & En & Hw2 & Ht2 & Ha2 & Hc2 & Hself & Hother).
  destruct (logTaskActivity_logged user "task_assigned" task (Some req)
              [("priority", MStr (t_priority task.2));
               ("dueDate", MDate due);
               ("projectName",
                meta_opt (ref_field "title" (t_project_id task.2)));
               ("assigneeName",
                meta_opt (ref_field "name" (t_assignee_id task.2)))]
              w2 Hw2 eq_refl Hpok)
    as (entry & Elog & Hl1 & Hl2 & Hl3 & Hl4 & _).
  eexists _, _, id, t1. split.
  - unfold try_catch, bind. rewrite En, Elog. reflexivity.
  - cbn [res_status]. unfold_store. rewrite Ht2.
    split; [reflexivity|]. split; [apply fresh_lookup|].
    split; [reflexivity|].
    split; [reflexivity|]. split; [reflexivity|]. split; [reflexivity|].
    split; [reflexivity|].
    split; [exact Hself|]. split; [exact Hother|].
    exists (fresh (dom (activitylogs w2))), entry.
    rewrite Ha2. unfold w1. unfold_store.
    split; [apply fresh_lookup|]. repeat split; assumption.
Qed.

Lemma post_notifies_and_logs_witness :
  exists resp w' id t,
    TasksRoute.post Example.userC Example.request
      (TasksRoute.mkCreateBody (Some "Write the notes") (Some "Release notes")
         (Some "000000000000000000000002") None None (Some 5000%Z))
      (Example.store "todo" None)
    = (Ok resp, w')
    /\ res_status resp = 201
    /\ tasks (Example.store "todo" None) !! id = None
    /\ tasks w' = <[id := t]> (tasks (Example.store "todo" None))
    /\ t_assignee_id t = ROid Example.userA
    /\ t_createdBy t = ROid Example.userC
    /\ t_status t = "todo" /\ t_priority t = "medium"
    /\ (Example.userA = Example.userC ->
        notifications w' = notifications (Example.store "todo" None))
    /\ (Example.userA <> Example.userC ->
        exists nid n,
          notifications (Example.store "todo" None) !! nid = None
          /\ notifications w'
             = <[nid := n]> (notifications (Example.store "todo" None))
          /\ n_recipient n = Example.userA /\ n_sender n = Example.userC
          /\ n_type n = "task_assigned" /\ n_title n = "New Task Assigned"
          /\ n_relatedTask n = Some id /\ n_isRead n = false)
    /\ exists lid entry,
         activitylogs (Example.store "todo" None) !! lid = None
         /\ activitylogs w'
            = <[lid := entry]> (activitylogs (Example.store "todo" None))
         /\ a_userId entry = Example.userC /\ a_action entry = "task_assigned"
         /\ a_entityType entry = Some "task" /\ a_entityId entry = Some id.
Proof.
  apply (post_notifies_and_logs Example.userC Example.userA Example.request
           (TasksRoute.mkCreateBody (Some "Write the notes")
              (Some "Release notes") (Some "000000000000000000000002") None
              None (Some 5000%Z))
           "Write the notes" "Release notes" 5000%Z
           (Example.store "todo" None));
    try reflexivity.
  eexists. reflexivity.
Defined.

(** ** Rejected requests, and a failing store *)

(** X26.  Requests that fail the handler's own check are answered 400 with the
    store untouched, whatever its state (it is not even contacted): a
    status PATCH whose status is absent or not one of the three; a comment
    POST or PUT whose text is absent or blank; a task POST without title
    or without description. *)
Theorem invalid_requests_rejected_untouched (user : ObjectId) (role : string)
    (req : Request) (taskId commentId : string) (status text : option string)
    (body : TasksRoute.CreateBody) (w : world) :
  (match status with
   | Some s => in_enum TaskModel.statuses s = false
   | None => True
   end ->
   TasksRoute.patch_status user taskId status w
   = (Ok (mkResponse 400
            "Valid status is required (todo, in-progress, completed)" None), w))
  /\ (match text with
      | Some s => trim s = empty
      | None => True
      end ->
      CommentsRoute.post user req taskId text w
      = (Ok (mkResponse 400 "Comment text is required" None), w)
      /\ CommentsRoute.put user role taskId commentId text w
         = (Ok (mkResponse 400 "Comment text is required" None), w))
  /\ (truthy_opt (TasksRoute.title body) = false
      \/ truthy_opt (TasksRoute.description body) = false ->
      TasksRoute.post user req body w
      = (Ok (mkResponse 400 "Title and description are required" None), w)).
Proof.
  split; [|split].
  - intros Hs. unfold TasksRoute.patch_status, try_catch.
    destruct status as [s|]; [|reflexivity].
    change (in_enum ["todo"; "in-progress"; "completed"] s)
      with (in_enum TaskModel.statuses s).
    now rewrite Hs, andb_false_r.
  - intros Ht. unfold CommentsRoute.post, CommentsRoute.put, try_catch.
    destruct text as [s|]; [|split; reflexivity].
    rewrite Ht. cbn [String.length Nat.eqb negb empty].
    rewrite andb_false_r. split; reflexivity.
  - intros Hb. unfold TasksRoute.post, try_catch.
    destruct Hb as [-> | ->]; cbn [negb orb]; [reflexivity|].
    now rewrite orb_true_r.
Qed.

Lemma invalid_requests_rejected_untouched_witness :
  TasksRoute.patch_status Example.userA Example.taskT_param (Some "done")
    (Example.store "todo" None)
  = (Ok (mkResponse 400
           "Valid status is required (todo, in-progress, completed)" None),
     Example.store "todo" None).
Proof.
  apply (invalid_requests_rejected_untouched Example.userA "member"
           Example.request Example.taskT_param "000000000000000000000001"
           (Some "done") None
           (TasksRoute.mkCreateBody None None None None None None)
           (Example.store "todo" None)).
  reflexivity.
Defined.

Lemma db_ok (fs : list bool) (w : world) :
  faults w = false :: fs -> db w = (Ok tt, set_faults fs w).
Proof. unfold db. now intros ->. Qed.

Lemma db_fails (fs : list bool) (w : world) :
  faults w = true :: fs -> db w = (Throw MongoError, set_faults fs w).
Proof. unfold db. now intros ->. Qed.

Lemma handle_completion_fields (time : Z) (existing : string)
    (u : TaskModel.Updates) :
  let u' := TasksRoute.handle_completion time existing u in
  TaskModel.project_id u' = TaskModel.project_id u
  /\ TaskModel.assignee_id u' = TaskModel.assignee_id u
  /\ TaskModel.valid_updates u' = TaskModel.valid_updates u.
Proof.
  unfold TasksRoute.handle_completion.
  destruct (TaskModel.status u) as [s|] eqn:Hs;
    [destruct (String.eqb s "completed");
     [destruct (negb (String.eqb existing "completed"))|]|];
    repeat split.
Qed.

(** X27.  [PUT /:id] is not atomic on a failing store: if the store fails at
    the [populate] that follows the update (third access, for a body
    without project and assignee), the handler answers 500 "Server error
    updating task" although the task has been updated; neither
    notification nor audit entry is written. *)
Theorem put_can_fail_after_the_write (user : ObjectId) (req : Request)
    (taskId : string) (tid : ObjectId) (body : TaskModel.Updates) (t : Task)
    (fs : list bool) (w : world) :
  faults w = false :: false :: true :: fs ->
  oid_of_string taskId = Some tid -> tasks w !! tid = Some t ->
  TaskModel.project_id body = None -> TaskModel.assignee_id body = None ->
  TaskModel.valid_updates body = true ->
  exists w',
    TasksRoute.put user req taskId body w
    = (Ok (mkResponse 500 "Server error updating task" None), w')
    /\ tasks w'
       = <[tid := TaskModel.apply_updates
                    (TasksRoute.handle_completion (clock w) (t_status t) body)
                    None None (clock w) t]> (tasks w)
    /\ notifications w' = notifications w
    /\ activitylogs w' = activitylogs w.
Proof.
  intros Hw Hid Ht Hproj Hasg Hvalid.
  set (updates := TasksRoute.handle_completion (clock w) (t_status t) body).
  assert (Hu : TaskModel.project_id updates = None
               /\ TaskModel.assignee_id updates = None
               /\ TaskModel.valid_updates updates = true).
  { destruct (handle_completion_fields (clock w) (t_status t) body)
      as (H1 & H2 & H3).
    unfold updates. now rewrite H1, H2, H3. }
  destruct Hu as (Hup & Hua & Huv).
  eexists. split.
  - unfold TasksRoute.put, try_catch.
    unfold bind at 1. unfold TaskModel.findById, bind at 1. rewrite Hid.
    cbn [orThrow ret]. unfold bind at 1.
    rewrite (db_ok _ _ Hw). unfold bind at 1, get, ret. unfold_store.
    rewrite Ht. cbn [fmap option_fmap option_map].
    rewrite Hproj, Hasg. cbn [check_ref]. unfold bind at 1, ret. cbn [negb].
    unfold bind at 1. cbn [negb]. unfold bind at 1, now. unfold_store.
    fold updates.
    unfold bind at 1, TaskModel.findByIdAndUpdate, bind at 1, now.
    unfold bind at 1. rewrite Hid. cbn [orThrow ret].
    unfold bind at 1. rewrite Hua. cbn [TaskModel.cast_opt orThrow ret].
    unfold bind at 1. rewrite Hup. cbn [TaskModel.cast_opt orThrow ret].
    rewrite Huv. unfold bind at 1.
    rewrite (db_ok (true :: fs)) by reflexivity.
    unfold bind at 1, get, ret. unfold_store. rewrite Ht.
    unfold bind at 1, modify, ret.
    unfold bind at 1, TaskModel.populateRefs, bind at 1.
    rewrite (db_fails fs) by reflexivity.
    reflexivity.
  - unfold_store. repeat split.
Qed.

Lemma put_can_fail_after_the_write_witness :
  exists w',
    TasksRoute.put Example.boss Example.request Example.taskT_param
      Example.rename
      (set_faults [false; false; true] (Example.store "todo" None))
    = (Ok (mkResponse 500 "Server error updating task" None), w')
    /\ tasks w'
       = <[Example.taskT :=
             TaskModel.apply_updates
               (TasksRoute.handle_completion 1000%Z "todo" Example.rename)
               None None 1000%Z (Example.task "todo" None)]>
           (tasks (Example.store "todo" None))
    /\ notifications w' = ∅ /\ activitylogs w' = ∅.
Proof.
  apply (put_can_fail_after_the_write Example.boss Example.request
           Example.taskT_param Example.taskT Example.rename
           (Example.task "todo" None) []
           (set_faults [false; false; true] (Example.store "todo" None)));
    reflexivity.
Defined.

(** ** Adding a comment *)

Lemma pushComment_healthy (doc : Stored Task) (user : ObjectId) (text : string)
    (timestamp : Z) (w : world) :
  faults w = [] -> truthy_str (trim text) = true ->
  let c := mkComment
             (fresh (list_to_set (map c_id (t_comments doc.2)) : gset ObjectId))
             (ROid user) (trim text) timestamp in
  let t2 := TaskModel.set_updatedAt (clock w)
              (TaskModel.set_comments (t_comments doc.2 ++ [c])%list doc.2) in
  TaskModel.pushComment doc (ROid user) text timestamp w
  = (Ok (doc.1, t2), set_tasks (insert doc.1 t2) w).
Proof.
  intros Hw Htext c t2. apply wp_equation. unfold TaskModel.pushComment.
  cbn [castRequired castObjectId]. rewrite Htext.
  wp_follow. now split.
Qed.

Lemma add_commenters_returns (me : string) (cs : list Comment)
    (set : list string) (w : world) :
  Forall (fun c => c_author c <> RNull) cs ->
  exists recipients,
    CommentsRoute.add_commenters me cs set w = (Ok recipients, w).
Proof.
  intros Hcs. revert set. induction Hcs as [|c cs Hc _ IH]; intros set.
  - now exists set.
  - cbn [CommentsRoute.add_commenters]. unfold bind, toString.
    destruct (c_author c) eqn:Ha; try contradiction; cbn [toStringOpt orThrow ret];
      apply IH.
Qed.

Lemma send_all_only_notifies (user : ObjectId) (task : Stored Task)
    (text : string) (recipients : list string) :
  preserves only_notifies (CommentsRoute.send_all user task text recipients).
Proof.
  apply send_all_preserves; [exact _|].
  intros r. unfold_handlers. preserve.
Qed.

Lemma send_all_returns (user : ObjectId) (task : Stored Task) (text : string)
    (recipients : list string) (w : world) :
  (CommentsRoute.send_all user task text recipients w).1 = Ok tt.
Proof.
  revert w. induction recipients as [|r rest IH]; intros w; [reflexivity|].
  cbn [CommentsRoute.send_all]. unfold bind.
  destruct (createCommentNotification_best_effort (RStr r) (ROid user) task text w)
    as (v & w' & E & _).
  rewrite E. apply IH.
Qed.

Lemma getCommentDescription_truthy (action : string) (task : Stored Task)
    (comment : Comment) :
  truthy_str (activityLogger.getCommentDescription action task comment) = true.
Proof.
  unfold activityLogger.getCommentDescription.
  repeat match goal with
         | |- context [if String.eqb action ?s then _ else _] =>
             destruct (String.eqb action s)
         end; reflexivity.
Qed.

Lemma logCommentActivity_logged (user : ObjectId) (action : string)
    (task : Stored Task) (comment : Comment) (req : option Request)
    (md : list (string * Meta)) (w : world) :
  faults w = [] -> in_enum ActivityLogModel.actions action = true ->
  exists entry,
    activityLogger.logCommentActivity (ROid user) action task comment req md w
    = (Ok (Some (fresh (dom (activitylogs w)), entry)),
       set_activitylogs (insert (fresh (dom (activitylogs w))) entry) w)
    /\ a_userId entry = user /\ a_action entry = action
    /\ a_entityType entry = Some "comment"
    /\ a_entityId entry = Some (c_id comment)
    /\ a_relatedEntityType entry = Some "task"
    /\ a_relatedEntityId entry = Some task.1
    /\ a_createdAt entry = clock w.
Proof.
  intros Hw Ha. eexists. split.
  - apply wp_equation.
    unfold activityLogger.logCommentActivity, ActivityLogModel.logActivity,
      ActivityLogModel.validate.
    cbn [ActivityLogModel.userId ActivityLogModel.action
         ActivityLogModel.description ActivityLogModel.entityType
         ActivityLogModel.entityId ActivityLogModel.relatedEntityType
         ActivityLogModel.relatedEntityId castRequired castObjectId
         mbind option_bind].
    rewrite Ha, getCommentDescription_truthy.
    cbn [andb opt_in_enum].
    change (in_enum ActivityLogModel.entityTypes "comment") with true.
    change (in_enum ActivityLogModel.entityTypes "task") with true.
    cbn [andb].
    wp_follow. split; reflexivity.
  - repeat split.
Qed.

Lemma populate_user_found (sel : list string) (w : world) (r : Ref) (a : ObjectId) :
  castObjectId r = Some (Some a) -> is_Some (users w !! a) ->
  populate_user sel w r <> RNull.
Proof.
  intros Hr [u Hu]. unfold populate_user. now rewrite Hr, Hu.
Qed.

(** X28.  On a healthy store where the commenting user and the authors of the
    comments of the task exist, [POST /:id/comments] with a non-blank text
    answers 201: the task gets one more comment, placed last, with a new
    id, the user as author, the trimmed text and the time of the request;
    status and [completedAt] are unchanged; exactly one audit entry is
    added, of action [task_commented], attributed to the user, about the
    new comment and the task. *)
Theorem comment_post_effect (user : ObjectId) (req : Request)
    (taskId text : string) (tid : ObjectId) (t : Task) (w : world) :
  faults w = [] -> oid_of_string taskId = Some tid ->
  tasks w !! tid = Some t ->
  truthy_str (trim text) = true ->
  is_Some (users w !! user) ->
  Forall (fun c => exists a, castObjectId (c_author c) = Some (Some a)
                             /\ is_Some (users w !! a)) (t_comments t) ->
  exists resp w' t' c lid entry,
    CommentsRoute.post user req taskId (Some text) w = (Ok resp, w')
    /\ res_status resp = 201
    /\ tasks w' = <[tid := t']> (tasks w)
    /\ t_comments t' = (t_comments t ++ [c])%list
    /\ c_author c = ROid user /\ c_text c = trim text
    /\ c_timestamp c = clock w
    /\ (c_id c ∉ map c_id (t_comments t))
    /\ t_status t' = t_status t /\ t_completedAt t' = t_completedAt t
    /\ activitylogs w !! lid = None
    /\ activitylogs w' = <[lid := entry]> (activitylogs w)
    /\ a_userId entry = user /\ a_action entry = "task_commented"
    /\ a_entityType entry = Some "comment" /\ a_entityId entry = Some (c_id c)
    /\ a_relatedEntityId entry = Some tid.
Proof.
  intros Hw Hid Ht Htext Huser Hauthors.
  assert (Htt : (truthy_str text
                 && negb (Nat.eqb (String.length (trim text)) 0))%bool = true).
  { apply andb_true_intro. split.
    - destruct text; [discriminate Htext | reflexivity].
    - destruct (trim text); [discriminate Htext | reflexivity]. }
  set (c := mkComment
              (fresh (list_to_set (map c_id (t_comments t)) : gset ObjectId))
              (ROid user) (trim text) (clock w)).
  set (t2 := TaskModel.set_updatedAt (clock w)
               (TaskModel.set_comments (t_comments t ++ [c])%list t)).
  set (w1 := set_tasks (insert tid t2) w).
  assert (Hw1 : faults w1 = []) by exact Hw.
  set (pop := fun c0 : Comment =>
                mkComment (c_id c0)
                  (populate_user ["name"; "email"; "avatar"] w1 (c_author c0))
                  (c_text c0) (c_timestamp c0)).
  set (task := (tid, TaskModel.set_comments (map pop (t_comments t2)) t2)
               : Stored Task).
  assert (Hlast : last (t_comments task.2) = Some (pop c)).
  { unfold task, t2. cbn [snd t_comments TaskModel.set_comments
                          TaskModel.set_updatedAt].
    rewrite map_app. cbn [map]. apply last_snoc. }
  assert (Hpop : Forall (fun c0 => c_author c0 <> RNull) (t_comments task.2)).
  { unfold task, t2. cbn [snd t_comments TaskModel.set_comments
                          TaskModel.set_updatedAt].
    rewrite map_app. apply Forall_app. split.
    - apply Forall_forall. intros c0 Hc0.
      apply list_elem_of_In, in_map_iff in Hc0 as (c1 & <- & Hc1).
      rewrite List.Forall_forall in Hauthors.
      destruct (Hauthors c1 Hc1) as (a & Ha & Hu).
      cbn [c_author pop]. now apply (populate_user_found _ _ _ a).
    - repeat constructor. cbn [c_author pop c].
      now apply (populate_user_found _ _ _ user). }
  assert (Hrun :
    exists w2 entry,
      CommentsRoute.post user req taskId (Some text) w
      = (Ok (mkResponse 201 "Comment added successfully" (Some (pop c))),
         set_activitylogs (insert (fresh (dom (activitylogs w2))) entry) w2)
      /\ tasks w2 = tasks w1 /\ activitylogs w2 = activitylogs w1
      /\ a_userId entry = user /\ a_action entry = "task_commented"
      /\ a_entityType entry = Some "comment"
      /\ a_entityId entry = Some (c_id c)
      /\ a_relatedEntityId entry = Some tid).
  { unfold CommentsRoute.post. rewrite Htt.
    unfold try_catch, bind at 1.
    rewrite (findById_healthy _ tid w Hw Hid), Ht.
    cbn [fmap option_fmap option_map].
    unfold bind at 1, now. unfold bind at 1.
    rewrite (pushComment_healthy (tid, t) user text (clock w) w Hw Htext).
    cbn [fst snd]. fold c. fold t2. fold w1.
    unfold bind at 1.
    rewrite (populateAuthors_healthy (tid, t2) w1 Hw1).
    cbn [fst snd]. fold pop.
    unfold bind at 1.
    match goal with
    | |- context [orThrow TypeError (last ?l)] =>
        replace (last l) with (Some (pop c)) by (symmetry; exact Hlast)
    end.
    cbn [orThrow ret].
    unfold bind at 1, CommentsRoute.notificationRecipients.
    match goal with
    | |- context [CommentsRoute.add_commenters ?me ?cs ?set ?w0] =>
        destruct (add_commenters_returns me cs set w0 Hpop)
          as (recipients & Erec);
        rewrite Erec
    end.
    unfold bind at 1.
    match goal with
    | |- context [CommentsRoute.send_all ?u ?tk ?tx ?rs ?w0] =>
        pose proof (send_all_only_notifies u tk tx rs w0)
          as (_ & _ & Hs3 & Hs4 & _ & Hs6);
        pose proof (send_all_returns u tk tx rs w0) as Hsret;
        destruct (CommentsRoute.send_all u tk tx rs w0) as [sres w2]
    end.
    cbn [fst snd] in *. subst sres. specialize (Hs6 Hw1).
    unfold bind.
    match goal with
    | |- context [activityLogger.logCommentActivity ?u ?ac ?tk ?cm ?rq ?md ?w0] =>
        destruct (logCommentActivity_logged user ac tk cm rq md w0 Hs6 eq_refl)
          as (entry & Elog & Hl1 & Hl2 & Hl3 & Hl4 & _ & Hl6 & _);
        rewrite Elog
    end.
    exists w2, entry. split; [reflexivity|].
    repeat split; assumption. }
  destruct Hrun as (w2 & entry & E & Hs3 & Hs4 & Hl1 & Hl2 & Hl3 & Hl4 & Hl6).
  exists (mkResponse 201 "Comment added successfully" (Some (pop c))),
    (set_activitylogs (insert (fresh (dom (activitylogs w2))) entry) w2),
    t2, c, (fresh (dom (activitylogs w2))), entry.
  split; [exact E|].
  unfold_store. rewrite Hs3, Hs4. unfold w1. unfold_store.
  split; [reflexivity|]. split; [reflexivity|]. split; [reflexivity|].
  split; [reflexivity|]. split; [reflexivity|]. split; [reflexivity|].
  split.
  { cbn [c_id c]. intros Hin. apply list_elem_of_In in Hin.
    apply (is_fresh (list_to_set (map c_id (t_comments t)) : gset ObjectId)).
    apply elem_of_list_to_set. now apply list_elem_of_In. }
  split; [reflexivity|]. split; [reflexivity|].
  split; [apply fresh_lookup|]. split; [reflexivity|].
  repeat split; assumption.
Qed.

Lemma comment_post_effect_witness :
  exists resp w' t' c lid entry,
    CommentsRoute.post Example.userU Example.request Example.taskT_param
      (Some " looks good ") (Example.store "in-progress" None)
    = (Ok resp, w')
    /\ res_status resp = 201
    /\ tasks w' = <[Example.taskT := t']> (tasks (Example.store "in-progress" None))
    /\ t_comments t'
       = (t_comments (Example.task "in-progress" None) ++ [c])%list
    /\ c_author c = ROid Example.userU /\ c_text c = trim " looks good "
    /\ c_timestamp c = 1000%Z
    /\ (c_id c ∉ map c_id (t_comments (Example.task "in-progress" None)))
    /\ t_status t' = "in-progress" /\ t_completedAt t' = None
    /\ activitylogs (Example.store "in-progress" None) !! lid = None
    /\ activitylogs w'
       = <[lid := entry]> (activitylogs (Example.store "in-progress" None))
    /\ a_userId entry = Example.userU /\ a_action entry = "task_commented"
    /\ a_entityType entry = Some "comment" /\ a_entityId entry = Some (c_id c)
    /\ a_relatedEntityId entry = Some Example.taskT.
Proof.
  apply (comment_post_effect Example.userU Example.request Example.taskT_param
           " looks good " Example.taskT (Example.task "in-progress" None)
           (Example.store "in-progress" None)); try reflexivity.
  - eexists. reflexivity.
  - repeat constructor; eexists; (split; [reflexivity | eexists; reflexivity]).
Defined.
